(** * Auto Business Report Sender: the report builder and the top-level run

    A shallow embedding of [report_sender.py].

    - Python [str] values are Rocq strings.  Only the ASCII repertoire is
      interpreted (digits, signs, white space, letter case); any other byte is
      carried through unchanged, which is what the program needs: it compares
      against the ASCII literal "completed" and interpolates text.  The
      interpreter also reads non-ASCII decimal digits and white space in
      [int]/[float]: [int_of_str] and [float_of_str] are these functions on
      ASCII texts, and the statements made under any [interpreter] hold
      whatever texts its readers accept.
    - Python [int] is [Z].  The interpreter limits the digits of an integer
      text (4300 by default): [int] of a longer text raises, and so does
      [str] of a longer integer.  The limit on reading is part of
      [int_of_str]; the limit on writing is part of the interpreter record
      [cpython].  [PyStr.of_Z] is [str] below the limit, and [build_report]
      is the builder on sheets whose integers stay below it;
      [build_report_in] is the builder under given conversions.
    - Python [float] is IEEE binary64, as [spec_float] with 53 bits of
      precision; every operation rounds to nearest, ties to even.
    - [sum] starts from the integer 0 and consumes its items in order.  For
      floats CPython adds them one after the other up to version 3.11 and
      with a running compensation from 3.12 on; [summarize] is written with
      the first, [summarize_in] with the one the interpreter record names.
    - A sheet row is a Python dict in insertion order: an association list.
    - An exception is the [None] of an option; [try]/[except Exception] is a
      match on it. *)

From Stdlib Require Import ZArith List String Ascii Bool Lia.
From Stdlib Require Import Floats.SpecFloat.
From Stdlib Require Import Sorting.Permutation.
Import ListNotations.

Local Open Scope Z_scope.
Local Open Scope list_scope.

(** ** Text *)

Module PyStr.

Definition code (c : ascii) : Z := Z.of_N (N_of_ascii c).

Definition is_digit (c : ascii) : bool := (48 <=? code c) && (code c <=? 57).

Definition digit_value (c : ascii) : Z := code c - 48.

Definition digit_char (d : Z) : ascii := ascii_of_N (Z.to_N (48 + d)).

(** White space that [int] and [float] skip at both ends. *)
Definition is_space (c : ascii) : bool :=
  ((9 <=? code c) && (code c <=? 13)) || (code c =? 32).

Definition is_upper (c : ascii) : bool := (65 <=? code c) && (code c <=? 90).

Definition lower_char (c : ascii) : ascii :=
  if is_upper c then ascii_of_N (Z.to_N (code c + 32)) else c.

(** [s.lower()].  Bytes outside A-Z stay as they are; no character outside
    ASCII lower-cases to a letter of "completed", so the comparison the
    program makes comes out the same. *)
Fixpoint lower (s : string) : string :=
  match s with
  | EmptyString => EmptyString
  | String c rest => String (lower_char c) (lower rest)
  end.

Fixpoint lstrip (s : list ascii) : list ascii :=
  match s with
  | c :: rest => if is_space c then lstrip rest else s
  | [] => []
  end.

Definition strip (s : list ascii) : list ascii :=
  rev (lstrip (rev (lstrip s))).

(** Value of a run of decimal digits, most significant first. *)
Definition decimal (ds : list ascii) : Z :=
  fold_left (fun acc c => 10 * acc + digit_value c) ds 0.

Definition all_digits (ds : list ascii) : bool :=
  match ds with [] => false | _ => forallb is_digit ds end.

Definition is_underscore (c : ascii) : bool := code c =? 95.

(** Digit separators: an underscore is legal only between two digits; the
    legal ones are dropped ([prev] is the character just read). *)
Fixpoint drop_underscores (prev : option ascii) (s : list ascii)
  : option (list ascii) :=
  match s with
  | [] =>
      match prev with
      | Some p => if is_underscore p then None else Some []
      | None => Some []
      end
  | c :: rest =>
      if is_underscore c then
        match prev with
        | Some p => if is_digit p then drop_underscores (Some c) rest else None
        | None => None
        end
      else
        match prev with
        | Some p =>
            if is_underscore p && negb (is_digit c) then None
            else option_map (cons c) (drop_underscores (Some c) rest)
        | None => option_map (cons c) (drop_underscores (Some c) rest)
        end
  end.

(** An optional sign in front. *)
Definition split_sign (s : list ascii) : bool * list ascii :=
  match s with
  | c :: rest =>
      if code c =? 45 then (true, rest)
      else if code c =? 43 then (false, rest)
      else (false, s)
  | [] => (false, [])
  end.

(** Decimal digits of a positive number, least significant first. *)
Fixpoint digits_le (fuel : nat) (n : Z) : list ascii :=
  match fuel with
  | O => []
  | S fuel' =>
      if n <? 10 then [digit_char n]
      else digit_char (n mod 10) :: digits_le fuel' (n / 10)
  end.

Definition digits_of (n : Z) : list ascii :=
  rev (digits_le (S (Z.to_nat (Z.log2 n))) n).

(** [str(n)] for an int. *)
Definition of_Z (n : Z) : string :=
  match n with
  | Zneg p => String "-" (string_of_list_ascii (digits_of (Zpos p)))
  | _ => string_of_list_ascii (digits_of n)
  end.

End PyStr.

(** ** Binary64 numbers *)

Module Binary64.

Definition float := spec_float.
Definition prec : Z := 53.
Definition emax : Z := 1024.

Definition zero : float := S754_zero false.
Definition nan : float := S754_nan.
Definition infinity (neg : bool) : float := S754_infinity neg.

(** [x + y] *)
Definition add (x y : float) : float := SFadd prec emax x y.

(** [x - y] *)
Definition sub (x y : float) : float := SFsub prec emax x y.

(** [fabs(x)] *)
Definition abs (x : float) : float := SFabs x.

(** [x >= y], false when either is not a number. *)
Definition geb (x y : float) : bool :=
  match SFcompare x y with
  | Some Gt | Some Eq => true
  | _ => false
  end.

Definition is_zero (x : float) : bool :=
  match x with
  | S754_zero _ => true
  | _ => false
  end.

Definition is_finite (x : float) : bool :=
  match x with
  | S754_zero _ | S754_finite _ _ _ => true
  | _ => false
  end.

Definition is_negative (x : float) : bool :=
  match x with
  | S754_zero s | S754_infinity s | S754_finite s _ _ => s
  | S754_nan => false
  end.

Definition eqb (x y : float) : bool :=
  match x, y with
  | S754_zero a, S754_zero b => Bool.eqb a b
  | S754_infinity a, S754_infinity b => Bool.eqb a b
  | S754_nan, S754_nan => true
  | S754_finite a m e, S754_finite b n f =>
      Bool.eqb a b && Pos.eqb m n && Z.eqb e f
  | _, _ => false
  end.

(** The nearest binary64 to an integer; [None] is the interpreter's
    OverflowError ("int too large to convert to float"). *)
Definition of_Z (z : Z) : option float :=
  match binary_normalize prec emax z 0 false with
  | S754_infinity _ => None
  | x => Some x
  end.

(** The nearest binary64 to [m * 10^e], [m >= 0], with the sign [neg];
    too large a magnitude gives an infinity, too small a zero. *)
Definition of_decimal (neg : bool) (m e : Z) : float :=
  match m with
  | Zpos p =>
      if 0 <=? e then
        binary_normalize prec emax (cond_Zopp neg (Zpos p * 10 ^ e)) 0 neg
      else
        let '(q, e2, l) :=
          SFdiv_core_binary prec emax (Zpos p) 0 (10 ^ (- e)) 0 in
        binary_round_aux prec emax neg q e2 l
  | _ => S754_zero neg
  end.

(** [int(x)]: truncation towards zero; [None] for nan (ValueError) and
    the infinities (OverflowError). *)
Definition trunc (x : float) : option Z :=
  match x with
  | S754_zero _ => Some 0
  | S754_finite s m e =>
      Some (cond_Zopp s
              (if 0 <=? e then Zpos m * 2 ^ e else Zpos m / 2 ^ (- e)))
  | _ => None
  end.

(** Nearest integer to [num / den], ties to even ([den > 0]). *)
Definition round_half_even (num den : Z) : Z :=
  let q := num / den in
  match (2 * (num mod den)) ?= den with
  | Lt => q
  | Gt => q + 1
  | Eq => if Z.even q then q else q + 1
  end.

(** The magnitude of a finite [x] in hundredths, correctly rounded. *)
Definition hundredths (x : float) : Z :=
  match x with
  | S754_finite _ m e =>
      if 0 <=? e then Zpos m * 2 ^ e * 100
      else round_half_even (Zpos m * 100) (2 ^ (- e))
  | _ => 0
  end.

End Binary64.

(** ** Number formatting *)

Module PyFormat.
Import PyStr Binary64.

(** The thousands separator of the [,] option, on digits given least
    significant first: a comma after every three digits that have more
    digits above them. *)
Fixpoint group3 (ds : list ascii) : list ascii :=
  match ds with
  | a :: b :: c :: ((_ :: _) as more) =>
      a :: b :: c :: ","%char :: group3 more
  | _ => ds
  end.

Definition two_digits (n : Z) : list ascii :=
  [digit_char (n / 10); digit_char (n mod 10)].

(** [format(x, ",.2f")] for a float. *)
Definition comma_2f (x : float) : string :=
  match x with
  | S754_nan => "nan"%string
  | S754_infinity s => if s then "-inf"%string else "inf"%string
  | _ =>
      let h := hundredths x in
      string_of_list_ascii
        ((if is_negative x then ["-"%char] else []) ++
         rev (group3 (rev (digits_of (h / 100)))) ++
         "."%char :: two_digits (h mod 100))
  end.

(** *** [repr] of a float: the shortest decimal that reads back *)

(** Numerator and denominator of [(num / den) * 10^sh]. *)
Definition scale10 (num den sh : Z) : Z * Z :=
  if 0 <=? sh then (num * 10 ^ sh, den) else (num, den * 10 ^ (- sh)).

Fixpoint lead_zeros (fuel : nat) (num den : Z) : Z :=
  match fuel with
  | O => 0
  | S fuel' =>
      if num * 10 <? den then 1 + lead_zeros fuel' (num * 10) den else 0
  end.

(** The [k] with [10^(k-1) <= num / den < 10^k]. *)
Definition decimal_point (num den : Z) : Z :=
  if den <=? num then Z.of_nat (List.length (digits_of (num / den)))
  else - lead_zeros 400 num den.

(** A [p]-digit decimal next to [x = num / den] that reads back as [x]. *)
Definition candidate (x : float) (num den k p : Z) : option Z :=
  let '(n, d) := scale10 num den (p - k) in
  let lo := n / d in
  let r := n mod d in
  let ok c := eqb (of_decimal false c (k - p)) x in
  if r =? 0 then (if ok lo then Some lo else None)
  else
    match ok lo, ok (lo + 1) with
    | true, true =>
        Some match (2 * r) ?= d with
             | Lt => lo
             | Gt => lo + 1
             | Eq => if Z.even lo then lo else lo + 1
             end
    | true, false => Some lo
    | false, true => Some (lo + 1)
    | false, false => None
    end.

Fixpoint shortest (fuel : nat) (x : float) (num den k p : Z) : Z * Z :=
  match fuel with
  | O => (0, p)
  | S fuel' =>
      match candidate x num den k p with
      | Some c => (c, p)
      | None => shortest fuel' x num den k (p + 1)
      end
  end.

Fixpoint drop_zeros (ds : list ascii) : list ascii :=
  match ds with
  | c :: rest => if code c =? 48 then drop_zeros rest else ds
  | [] => []
  end.

Definition zeros (n : Z) : list ascii := repeat "0"%char (Z.to_nat n).

(** Layout of the digits [ds] with the decimal point after the first [pt]
    of them: exponent form when [pt <= -4] or [pt > 16]. *)
Definition layout (ds : list ascii) (pt : Z) : list ascii :=
  let n := Z.of_nat (List.length ds) in
  if (pt <=? -4) || (16 <? pt) then
    let ex := pt - 1 in
    let exd := digits_of (Z.abs ex) in
    firstn 1 ds ++
    (if 1 <? n then "."%char :: skipn 1 ds else []) ++
    "e"%char :: (if ex <? 0 then "-"%char else "+"%char) ::
    (if Z.abs ex <? 10 then "0"%char :: exd else exd)
  else if pt <=? 0 then
    "0"%char :: "."%char :: zeros (- pt) ++ ds
  else if n <=? pt then
    ds ++ zeros (pt - n) ++ ["."%char; "0"%char]
  else
    firstn (Z.to_nat pt) ds ++ "."%char :: skipn (Z.to_nat pt) ds.

(** [repr(x)], which is also [str(x)]. *)
Definition repr (x : float) : string :=
  match x with
  | S754_nan => "nan"%string
  | S754_infinity s => if s then "-inf"%string else "inf"%string
  | S754_zero s => if s then "-0.0"%string else "0.0"%string
  | S754_finite s m e =>
      let '(num, den) :=
        if 0 <=? e then (Zpos m * 2 ^ e, 1) else (Zpos m, 2 ^ (- e)) in
      let k := decimal_point num den in
      let '(c, p) := shortest 17 (S754_finite false m e) num den k 1 in
      let ds := digits_of c in
      let pt := if p <? Z.of_nat (List.length ds) then k + 1 else k in
      string_of_list_ascii
        ((if s then ["-"%char] else []) ++
         layout (rev (drop_zeros (rev ds))) pt)
  end.

End PyFormat.

(** ** The coercions [int(...)], [float(...)], [str(...)] *)

Module PyCoerce.
Import PyStr Binary64.

Definition text_is (s : list ascii) (lit : string) : bool :=
  String.eqb (string_of_list_ascii s) lit.

(** The interpreter's limit on the digits of an integer text, at its
    default value (ValueError beyond it). *)
Definition int_max_str_digits : Z := 4300.

(** [int(s)] for a str: white space, sign, digits; [None] also for more
    digits than the limit. *)
Definition int_of_str (s : string) : option Z :=
  let '(neg, body) := split_sign (strip (list_ascii_of_string s)) in
  match drop_underscores None body with
  | Some ds =>
      if all_digits ds
         && (Z.of_nat (List.length ds) <=? int_max_str_digits)
      then Some (cond_Zopp neg (decimal ds))
      else None
  | None => None
  end.

Fixpoint span_digits (s : list ascii) : list ascii * list ascii :=
  match s with
  | c :: rest =>
      if is_digit c then
        let '(ds, tl) := span_digits rest in (c :: ds, tl)
      else ([], s)
  | [] => ([], [])
  end.

Definition is_dot (c : ascii) : bool := code c =? 46.
Definition is_e (c : ascii) : bool := (code c =? 101) || (code c =? 69).

(** digits [. digits] [e [sign] digits], at least one digit before the
    exponent: the mantissa as an integer and the power of ten. *)
Definition parse_decimal (s : list ascii) : option (Z * Z) :=
  let '(ip, r1) := span_digits s in
  let '(fp, r2) :=
    match r1 with
    | c :: r => if is_dot c then span_digits r else ([], r1)
    | [] => ([], r1)
    end in
  match ip ++ fp with
  | [] => None
  | ds =>
      let m := decimal ds in
      let sh := Z.of_nat (List.length fp) in
      match r2 with
      | [] => Some (m, - sh)
      | c :: r3 =>
          if is_e c then
            let '(eneg, eds) := split_sign r3 in
            if all_digits eds
            then Some (m, cond_Zopp eneg (decimal eds) - sh)
            else None
          else None
      end
  end.

(** [float(s)] for a str. *)
Definition float_of_str (s : string) : option float :=
  match drop_underscores None (strip (list_ascii_of_string s)) with
  | None => None
  | Some t =>
      let '(neg, body) := split_sign t in
      let word := map lower_char body in
      if text_is word "inf" || text_is word "infinity"
      then Some (infinity neg)
      else if text_is word "nan" then Some nan
      else
        match parse_decimal body with
        | Some (m, e) => Some (of_decimal neg m e)
        | None => None
        end
  end.

End PyCoerce.

(** ** Sheet data *)

Import PyStr Binary64 PyFormat PyCoerce.

(** A cell as the sheet client hands it over: text, or a number it has
    already read as one. *)
Inductive value :=
| VStr (s : string)
| VInt (n : Z)
| VFloat (x : float).

(** One sheet row: column name to cell, in column order. *)
Definition record := list (string * value).

(** [row.get(key, default)] *)
Fixpoint get (row : record) (key : string) (default : value) : value :=
  match row with
  | [] => default
  | (k, v) :: rest => if String.eqb k key then v else get rest key default
  end.

(** [row.keys()] and [row.values()] *)
Definition keys (row : record) : list string := map fst row.
Definition values (row : record) : list value := map snd row.

(** [int(v)] *)
Definition py_int (v : value) : option Z :=
  match v with
  | VStr s => int_of_str s
  | VInt n => Some n
  | VFloat x => trunc x
  end.

(** [float(v)] *)
Definition py_float (v : value) : option float :=
  match v with
  | VStr s => float_of_str s
  | VInt n => of_Z n
  | VFloat x => Some x
  end.

(** [str(v)], which is also what an f-string field [{v}] inserts. *)
Definition py_str (v : value) : string :=
  match v with
  | VStr s => s
  | VInt n => PyStr.of_Z n
  | VFloat x => repr x
  end.

(** ** Exceptions *)

Definition Exc (A : Type) : Type := option A.
Definition ret {A : Type} (a : A) : Exc A := Some a.
Definition raise {A : Type} : Exc A := None.
Definition bind {A B : Type} (c : Exc A) (k : A -> Exc B) : Exc B :=
  match c with
  | Some a => k a
  | None => None
  end.

Notation "x <- c ;; k" := (bind c (fun x => k))
  (at level 61, c at next level, right associativity).

(** [try: body except Exception: handler] *)
Definition try_except {A : Type} (body : Exc A) (handler : A) : A :=
  match body with
  | Some a => a
  | None => handler
  end.

(** ** The summary *)

(** A Python number: the running total of [sum] starts as the int 0 and
    becomes a float at the first float added. *)
Inductive number :=
| NInt (n : Z)
| NFloat (x : float).

(** [acc + x] for a float [x]: an int on the left is converted first. *)
Definition add_float (acc : number) (x : float) : Exc number :=
  match acc with
  | NInt n => y <- Binary64.of_Z n ;; ret (NFloat (add y x))
  | NFloat y => ret (NFloat (add y x))
  end.

Definition add_int (acc : Z) (n : Z) : Exc Z := ret (acc + n).

(** [sum(item(row) for row in data)] with the running total [acc]: the
    generator is consumed row by row, so the first row whose item raises
    ends the whole sum. *)
Fixpoint py_sum {A N : Type} (plus : N -> A -> Exc N)
  (item : record -> Exc A) (acc : N) (data : list record) : Exc N :=
  match data with
  | [] => ret acc
  | row :: rest =>
      x <- item row ;;
      acc' <- plus acc x ;;
      py_sum plus item acc' rest
  end.

Definition sales_of (row : record) : Exc Z :=
  py_int (get row "Sales" (VInt 0)).

Definition revenue_of (row : record) : Exc float :=
  py_float (get row "Revenue" (VInt 0)).

(** [str(row.get("Status", '')).lower() == "completed"] *)
Definition is_completed (row : record) : bool :=
  String.eqb (lower (py_str (get row "Status" (VStr EmptyString))))
             "completed".

Record summary := {
  total_sales : Z;
  total_revenue : number;
  completed : Z
}.

(** The body of the [try]. *)
Definition summary_body (data : list record) : Exc summary :=
  ts <- py_sum add_int sales_of 0 data ;;
  tr <- py_sum add_float revenue_of (NInt 0) data ;;
  c <- py_sum add_int (fun _ => ret 1) 0 (filter is_completed data) ;;
  ret {| total_sales := ts; total_revenue := tr; completed := c |}.

(** The [except Exception] branch. *)
Definition summary_fallback : summary :=
  {| total_sales := 0; total_revenue := NInt 0; completed := 0 |}.

Definition summarize (data : list record) : summary :=
  try_except (summary_body data) summary_fallback.

(** ** The table *)

Local Open Scope string_scope.

Definition join (parts : list string) : string :=
  String.concat EmptyString parts.

Definition td (v : value) : string :=
  "<td style='padding:10px 14px; border-bottom:1px solid #eee;'>"
  ++ py_str v ++ "</td>".

Definition cells (row : record) : string := join (map td (values row)).

(** ["#f9f7f4" if i % 2 == 0 else "#ffffff"] *)
Definition bg (i : nat) : string :=
  if Nat.eqb (Nat.modulo i 2) 0 then "#f9f7f4" else "#ffffff".

Definition tr (i : nat) (row : record) : string :=
  "<tr style='background:" ++ bg i ++ ";'>" ++ cells row ++ "</tr>".

(** The loop [for i, row in enumerate(data): table_rows += ...], from the
    index [i] with the text [acc] built so far. *)
Fixpoint table_rows_from (acc : string) (i : nat) (data : list record)
  : string :=
  match data with
  | [] => acc
  | row :: rest => table_rows_from (acc ++ tr i row) (S i) rest
  end.

Definition table_rows (data : list record) : string :=
  table_rows_from EmptyString 0 data.

Definition th (col : string) : string :=
  "<th style='padding:12px 14px; text-align:left; background:#1a1a2e; color:#fff; font-weight:600;'>"
  ++ col ++ "</th>".

Definition headers (data : list record) : string :=
  match data with
  | first :: _ => join (map th (keys first))
  | [] => "<th>No data found</th>"
  end.

(** ** The document *)

Definition dq : string := String (ascii_of_nat 34) EmptyString.
Definition nl : string := String (ascii_of_nat 10) EmptyString.
Definition utf8 (bytes : list nat) : string :=
  string_of_list_ascii (map ascii_of_nat bytes).
Definition middot : string := utf8 [194; 183]%nat.

(** The fixed text of the template, cut at its seven fields. *)

(** Up to the business name *)
Definition html_head : string :=
  String.concat EmptyString
    [
     nl;
     "    <!DOCTYPE html>"; nl;
     "    <html>"; nl;
     "    <head><meta charset="; dq; "UTF-8"; dq; "/></head>"; nl;
     "    <body style="; dq; "margin:0; padding:0; background:#f0ede8; font-family: 'Helvetica Neue', Arial, sans-serif;"; dq; ">"; nl;
     nl;
     "      <div style="; dq; "max-width:640px; margin:32px auto; background:#fff; border-radius:8px; overflow:hidden; box-shadow:0 2px 12px rgba(0,0,0,0.08);"; dq; ">"; nl;
     nl;
     "        <!-- HEADER -->"; nl;
     "        <div style="; dq; "background:#1a1a2e; padding:32px 36px;"; dq; ">"; nl;
     "          <div style="; dq; "font-size:12px; letter-spacing:0.2em; color:#7a8aaa; text-transform:uppercase; margin-bottom:8px;"; dq; ">Automated Weekly Report</div>"; nl;
     "          <div style="; dq; "font-size:26px; font-weight:700; color:#ffffff;"; dq; ">"
    ].

(** Between the business name and the date *)
Definition html_after_name : string :=
  String.concat EmptyString
    [
     "</div>"; nl;
     "          <div style="; dq; "font-size:13px; color:#9aa3b8; margin-top:6px;"; dq; ">Generated on "
    ].

(** Between the date and the total sales *)
Definition html_after_date : string :=
  String.concat EmptyString
    [
     "</div>"; nl;
     "        </div>"; nl;
     nl;
     "        <!-- SUMMARY STATS -->"; nl;
     "        <div style="; dq; "padding:28px 36px; background:#f9f7f4; border-bottom:1px solid #eee;"; dq; ">"; nl;
     "          <div style="; dq; "font-size:11px; letter-spacing:0.15em; color:#999; text-transform:uppercase; margin-bottom:16px;"; dq; ">Summary</div>"; nl;
     "          <div style="; dq; "display:flex; gap:20px; flex-wrap:wrap;"; dq; ">"; nl;
     nl;
     "            <div style="; dq; "flex:1; min-width:140px; background:#fff; border-radius:6px; padding:18px 20px; border:1px solid #eee;"; dq; ">"; nl;
     "              <div style="; dq; "font-size:28px; font-weight:700; color:#1a1a2e;"; dq; ">"
    ].

(** Between the total sales and the total revenue *)
Definition html_after_sales : string :=
  String.concat EmptyString
    [
     "</div>"; nl;
     "              <div style="; dq; "font-size:12px; color:#999; margin-top:4px;"; dq; ">Total Sales</div>"; nl;
     "            </div>"; nl;
     nl;
     "            <div style="; dq; "flex:1; min-width:140px; background:#fff; border-radius:6px; padding:18px 20px; border:1px solid #eee;"; dq; ">"; nl;
     "              <div style="; dq; "font-size:28px; font-weight:700; color:#2d6a4f;"; dq; ">$"
    ].

(** Between the total revenue and the completed count *)
Definition html_after_revenue : string :=
  String.concat EmptyString
    [
     "</div>"; nl;
     "              <div style="; dq; "font-size:12px; color:#999; margin-top:4px;"; dq; ">Total Revenue</div>"; nl;
     "            </div>"; nl;
     nl;
     "            <div style="; dq; "flex:1; min-width:140px; background:#fff; border-radius:6px; padding:18px 20px; border:1px solid #eee;"; dq; ">"; nl;
     "              <div style="; dq; "font-size:28px; font-weight:700; color:#c8531a;"; dq; ">"
    ].

(** Between the completed count and the header cells *)
Definition html_after_completed : string :=
  String.concat EmptyString
    [
     "</div>"; nl;
     "              <div style="; dq; "font-size:12px; color:#999; margin-top:4px;"; dq; ">Completed Orders</div>"; nl;
     "            </div>"; nl;
     nl;
     "          </div>"; nl;
     "        </div>"; nl;
     nl;
     "        <!-- DATA TABLE -->"; nl;
     "        <div style="; dq; "padding:28px 36px;"; dq; ">"; nl;
     "          <div style="; dq; "font-size:11px; letter-spacing:0.15em; color:#999; text-transform:uppercase; margin-bottom:16px;"; dq; ">Full Data Breakdown</div>"; nl;
     "          <div style="; dq; "overflow-x:auto;"; dq; ">"; nl;
     "            <table style="; dq; "width:100%; border-collapse:collapse; font-size:13px;"; dq; ">"; nl;
     "              <thead><tr>"
    ].

(** Between the header cells and the table rows *)
Definition html_after_headers : string :=
  String.concat EmptyString
    [
     "</tr></thead>"; nl;
     "              <tbody>"
    ].

(** After the table rows *)
Definition html_tail : string :=
  String.concat EmptyString
    [
     "</tbody>"; nl;
     "            </table>"; nl;
     "          </div>"; nl;
     "        </div>"; nl;
     nl;
     "        <!-- FOOTER -->"; nl;
     "        <div style="; dq; "padding:20px 36px; background:#f9f7f4; border-top:1px solid #eee; text-align:center;"; dq; ">"; nl;
     "          <div style="; dq; "font-size:12px; color:#bbb;"; dq; ">This report was generated automatically "; middot; " Built by Lincoln Adura</div>"; nl;
     "          <div style="; dq; "font-size:11px; color:#ccc; margin-top:4px;"; dq; ">Automation Developer "; middot; " Web Developer</div>"; nl;
     "        </div>"; nl;
     nl;
     "      </div>"; nl;
     "    </body>"; nl;
     "    </html>"; nl;
     "    "
    ].

(** [format(total_revenue, ",.2f")]: an int is converted to a float first. *)
Definition format_revenue (n : number) : Exc string :=
  match n with
  | NInt k => x <- Binary64.of_Z k ;; ret (comma_2f x)
  | NFloat x => ret (comma_2f x)
  end.

(** The f-string with its seven fields filled in. *)
Definition html (BUSINESS_NAME today sales revenue count head body : string)
  : string :=
  html_head ++ BUSINESS_NAME ++
  html_after_name ++ today ++
  html_after_date ++ sales ++
  html_after_sales ++ revenue ++
  html_after_revenue ++ count ++
  html_after_completed ++ head ++
  html_after_headers ++ body ++
  html_tail.

(** [build_report(data)], given the configured business name and the date
    text the clock gives. *)
Definition build_report (BUSINESS_NAME today : string) (data : list record)
  : Exc string :=
  let s := summarize data in
  let rows := table_rows data in
  let head := headers data in
  revenue <- format_revenue (total_revenue s) ;;
  ret (html BUSINESS_NAME today
         (PyStr.of_Z (total_sales s)) revenue (PyStr.of_Z (completed s))
         head rows).

(** ** The conversions of the interpreter *)

(** What the program leaves to the interpreter: [int(s)] and [float(s)] of
    a text and [str(n)] of an integer, each of which can raise, and whether
    [sum] adds floats one after the other or with a running compensation.
    ([int(x)] of a float, [float(n)] of an integer, [str(x)] of a float and
    [s.lower()] are taken as defined above.) *)
Record interpreter := {
  int_of_text : string -> Exc Z;
  float_of_text : string -> Exc float;
  text_of_int : Z -> Exc string;
  compensated : bool
}.

(** CPython at its default settings: an integer of more than
    [int_max_str_digits] digits is not read and not written.  The sum of
    floats is plain up to version 3.11 ([cpython false]) and compensated
    from 3.12 on ([cpython true]). *)
Definition cpython (compensated_sum : bool) : interpreter :=
  {| int_of_text := int_of_str;
     float_of_text := float_of_str;
     text_of_int := fun n =>
       if (Z.abs n <? 10 ^ int_max_str_digits)%Z
       then ret (PyStr.of_Z n) else raise;
     compensated := compensated_sum |}.

(** The plain sum and integers of any length written: what [summarize]
    and [build_report] are written with. *)
Definition unlimited_str : interpreter :=
  {| int_of_text := int_of_str;
     float_of_text := float_of_str;
     text_of_int := fun n => ret (PyStr.of_Z n);
     compensated := false |}.

(** [int(v)] *)
Definition int_in (py : interpreter) (v : value) : Exc Z :=
  match v with
  | VStr s => int_of_text py s
  | VInt n => ret n
  | VFloat x => trunc x
  end.

(** [float(v)] *)
Definition float_in (py : interpreter) (v : value) : Exc float :=
  match v with
  | VStr s => float_of_text py s
  | VInt n => Binary64.of_Z n
  | VFloat x => ret x
  end.

(** [str(v)], and the f-string field [{v}] *)
Definition str_in (py : interpreter) (v : value) : Exc string :=
  match v with
  | VStr s => ret s
  | VInt n => text_of_int py n
  | VFloat x => ret (repr x)
  end.

(** [int(row.get("Sales", 0))] *)
Definition sales_in (py : interpreter) (row : record) : Exc Z :=
  int_in py (get row "Sales" (VInt 0)).

(** [float(row.get("Revenue", 0))] *)
Definition revenue_in (py : interpreter) (row : record) : Exc float :=
  float_in py (get row "Revenue" (VInt 0)).

(** [str(row.get("Status", ''))] *)
Definition status_in (py : interpreter) (row : record) : Exc string :=
  str_in py (get row "Status" (VStr EmptyString)).

(** [str(row.get("Status", '')).lower() == "completed"] *)
Definition completed_in (py : interpreter) (row : record) : Exc bool :=
  t <- status_in py row ;;
  ret (String.eqb (lower t) "completed").

(** [sum(1 for row in data if cond(row))] with the running total [acc]: a
    row whose condition raises ends the sum. *)
Fixpoint py_count (cond : record -> Exc bool) (acc : Z) (data : list record)
  : Exc Z :=
  match data with
  | [] => ret acc
  | row :: rest =>
      b <- cond row ;;
      if b then acc' <- add_int acc 1 ;; py_count cond acc' rest
      else py_count cond acc rest
  end.

(** The compensated sum of floats, after the first item: [f] is the running
    total and [c] the running compensation; the compensation is added at
    the end when it is finite and not zero. *)
Fixpoint compensated_loop (item : record -> Exc float) (f c : float)
  (data : list record) : Exc number :=
  match data with
  | [] => ret (NFloat (if negb (is_zero c) && is_finite c then add f c else f))
  | row :: rest =>
      x <- item row ;;
      let t := add f x in
      let c' := if geb (abs f) (abs x)
                then add c (add (sub f t) x)
                else add c (add (sub x t) f) in
      compensated_loop item t c' rest
  end.

(** [sum(item(row) for row in data)] for float items, compensated: the
    first item is added to the integer 0, the others go through the loop. *)
Definition py_sum_compensated (item : record -> Exc float)
  (data : list record) : Exc number :=
  match data with
  | [] => ret (NInt 0)
  | row :: rest =>
      x <- item row ;;
      compensated_loop item (add zero x) zero rest
  end.

(** [sum(item(row) for row in data)] for float items. *)
Definition sum_floats_in (py : interpreter) (item : record -> Exc float)
  (data : list record) : Exc number :=
  if compensated py then py_sum_compensated item data
  else py_sum add_float item (NInt 0) data.

(** The body of the [try], lines 84 to 86. *)
Definition summary_body_in (py : interpreter) (data : list record)
  : Exc summary :=
  ts <- py_sum add_int (sales_in py) 0 data ;;
  tr <- sum_floats_in py (revenue_in py) data ;;
  c <- py_count (completed_in py) 0 data ;;
  ret {| total_sales := ts; total_revenue := tr; completed := c |}.

Definition summarize_in (py : interpreter) (data : list record) : summary :=
  try_except (summary_body_in py data) summary_fallback.

(** A generator consumed item by item: the first item that raises ends
    it. *)
Fixpoint each {A B : Type} (f : A -> Exc B) (l : list A) : Exc (list B) :=
  match l with
  | [] => ret []
  | a :: rest =>
      b <- f a ;;
      bs <- each f rest ;;
      ret (b :: bs)
  end.

Definition td_in (py : interpreter) (v : value) : Exc string :=
  t <- str_in py v ;;
  ret ("<td style='padding:10px 14px; border-bottom:1px solid #eee;'>"
       ++ t ++ "</td>").

Definition cells_in (py : interpreter) (row : record) : Exc string :=
  parts <- each (td_in py) (values row) ;;
  ret (join parts).

(** The loop of lines 92 to 96. *)
Fixpoint table_rows_from_in (py : interpreter) (acc : string) (i : nat)
  (data : list record) : Exc string :=
  match data with
  | [] => ret acc
  | row :: rest =>
      c <- cells_in py row ;;
      table_rows_from_in py
        (acc ++ "<tr style='background:" ++ bg i ++ ";'>" ++ c ++ "</tr>")
        (S i) rest
  end.

(** [build_report(data)]: the summary, the table rows, the header cells,
    then the fields of the template from first to last. *)
Definition build_report_in (py : interpreter) (BUSINESS_NAME today : string)
  (data : list record) : Exc string :=
  let s := summarize_in py data in
  rows <- table_rows_from_in py EmptyString 0 data ;;
  let head := headers data in
  sales <- text_of_int py (total_sales s) ;;
  revenue <- format_revenue (total_revenue s) ;;
  count <- text_of_int py (completed s) ;;
  ret (html BUSINESS_NAME today sales revenue count head rows).

(** ** The top-level run *)

Module Run.

(** An exception, as the text [print] shows for it. *)
Definition exn := string.

Inductive stage := Fetcher | Builder | Sender.

(** What an observer of the run sees, in order: the stage functions being
    entered and left, and the lines the top level prints.  (The progress
    lines printed inside a stage lie between its two events.) *)
Inductive event :=
| Called (s : stage)
| Returned (s : stage)
| Raised (s : stage) (e : exn)
| Print (line : string).

Definition trace := list event.

(** A computation appends to the trace and returns or raises. *)
Definition M (A : Type) : Type := trace -> trace * (exn + A).

Definition mret {A : Type} (a : A) : M A := fun t => (t, inr a).

Definition mbind {A B : Type} (c : M A) (k : A -> M B) : M B :=
  fun t =>
    match c t with
    | (t', inr a) => k a t'
    | (t', inl e) => (t', inl e)
    end.

Definition emit (ev : event) : M unit := fun t => ((t ++ [ev])%list, inr tt).

Definition print (line : string) : M unit := emit (Print line).

(** [try: body except Exception as e: handler(e)] *)
Definition try_catch {A : Type} (body : M A) (handler : exn -> M A) : M A :=
  fun t =>
    match body t with
    | (t', inr a) => (t', inr a)
    | (t', inl e) => handler e t'
    end.

(** A call of a stage function whose outcome is [r]. *)
Definition call {A : Type} (s : stage) (r : exn + A) : M A :=
  fun t =>
    match r with
    | inr a => ((t ++ [Called s; Returned s])%list, inr a)
    | inl e => ((t ++ [Called s; Raised s e])%list, inl e)
    end.

Notation "x <-- c ;; k" := (mbind c (fun x => k))
  (at level 61, c at next level, right associativity).
Notation "c ;;; k" := (mbind c (fun _ => k))
  (at level 61, right associativity).

Definition rule : string :=
  "=============================================".

Definition rocket : string := utf8 [240; 159; 154; 128]%nat.
Definition party : string := utf8 [240; 159; 142; 137]%nat.
Definition cross : string := utf8 [226; 157; 140]%nat.

(** The [__main__] block over the outcomes of its three calls. *)
Definition main_block
  (get_sheet_data : exn + list record)
  (build_report : list record -> exn + string)
  (send_email : string -> exn + unit) : M unit :=
  print (nl ++ rocket ++ " Starting Auto Report Sender...") ;;;
  print rule ;;;
  try_catch
    (data <-- call Fetcher get_sheet_data ;;
     html_report <-- call Builder (build_report data) ;;
     call Sender (send_email html_report) ;;;
     print rule ;;;
     print (party ++ " Done! Report sent successfully." ++ nl))
    (fun e =>
       print (nl ++ cross ++ " Error: " ++ e) ;;;
       print ("Check your .env file and credentials.json." ++ nl)).

Definition run_main get_sheet_data build_report send_email : trace :=
  fst (main_block get_sheet_data build_report send_email []).

(** What the run depends on outside the program: the configuration, the
    clock, the spreadsheet service and the mail relay. *)
Record world := {
  BUSINESS_NAME : string;
  today : string;
  sheet : exn + list record;
  smtp : string -> exn + unit
}.

Definition build_outcome (w : world) (data : list record) : exn + string :=
  match build_report (BUSINESS_NAME w) (today w) data with
  | Some doc => inr doc
  | None => inl "int too large to convert to float"
  end.

(** One process run. *)
Definition main (w : world) : trace :=
  run_main (sheet w) (build_outcome w) (smtp w).

(** The two lines every run prints first. *)
Definition banner : trace :=
  [Print (nl ++ rocket ++ " Starting Auto Report Sender..."); Print rule].

End Run.

(** ** The three functions and the run, call by call *)

Module Program.

Definition exn := string.

(** [os.getenv], after [load_dotenv()]. *)
Definition environ := string -> option string.

(** The module-level settings.  A variable that is not set reads as
    [None]; only the business name has a default. *)
Record config := {
SENDER_EMAIL : option string;
SENDER_PASSWORD : option string;
RECIPIENT_EMAIL : option string;
SHEET_NAME : option string;
BUSINESS_NAME : string
}.

Definition load_config (getenv : environ) : config :=
  {| SENDER_EMAIL := getenv "SENDER_EMAIL";
     SENDER_PASSWORD := getenv "SENDER_PASSWORD";
     RECIPIENT_EMAIL := getenv "RECIPIENT_EMAIL";
     SHEET_NAME := getenv "SHEET_NAME";
     BUSINESS_NAME := match getenv "BUSINESS_NAME" with
                      | Some name => name
                      | None => "Your Business"
                      end |}.

(** What an f-string field shows for a setting. *)
Definition show (setting : option string) : string :=
  match setting with
  | Some text => text
  | None => "None"
  end.

(** The mail as the program makes it: a multipart message of the given
    subtype, the header fields it sets, the parts it attaches (subtype and
    content). *)
Record message := {
subtype : string;
fields : list (string * option string);
attached : list (string * string)
}.

(** The calls that leave the program, and the lines it prints. *)
Inductive io :=
| Stdout (line : string)
| LoadCredentials (file : string) (scopes : list string)
| Authorize
| OpenSheet (name : option string)
| GetAllRecords
| SmtpConnect (host : string) (port : Z)
| SmtpLogin (user password : option string)
| SmtpSendmail (sender recipient : option string) (msg : message)
| SmtpExit.

(** What the outside answers: for each call whether it raises, the rows
    the sheet holds, and the date text the clock gives at each reading. *)
Record world := {
getenv : environ;
credentials : option exn;
authorized : option exn;
opened : option exn;
records : exn + list record;
build_clock : string;
send_clock : string;
connected : option exn;
logged_in : option exn;
accepted : option exn;
exited : option exn
}.

Definition M (A : Type) : Type := list io -> list io * (exn + A).

Definition mret {A : Type} (a : A) : M A := fun t => (t, inr a).

Definition mraise {A : Type} (e : exn) : M A := fun t => (t, inl e).

Definition mbind {A B : Type} (c : M A) (k : A -> M B) : M B :=
  fun t =>
    match c t with
    | (t', inr a) => k a t'
    | (t', inl e) => (t', inl e)
    end.

Notation "x <~ c ;; k" := (mbind c (fun x => k))
  (at level 61, c at next level, right associativity).
Notation "c ~> k" := (mbind c (fun _ => k))
  (at level 61, right associativity).

Definition emit (ev : io) : M unit := fun t => ((t ++ [ev])%list, inr tt).

Definition print (line : string) : M unit := emit (Stdout line).

(** A call that returns nothing: made, then raising or not. *)
Definition call (ev : io) (answer : option exn) : M unit :=
  emit ev ~>
  match answer with
  | Some e => mraise e
  | None => mret tt
  end.

(** A call that returns a value. *)
Definition request {A : Type} (ev : io) (answer : exn + A) : M A :=
  emit ev ~>
  match answer with
  | inl e => mraise e
  | inr a => mret a
  end.

(** [try: body except Exception as e: handler(e)] *)
Definition try_catch {A : Type} (body : M A) (handler : exn -> M A) : M A :=
  fun t =>
    match body t with
    | (t', inr a) => (t', inr a)
    | (t', inl e) => handler e t'
    end.

(** [with manager as server: body], the manager already made: the exit
    runs however the body ends, and what the exit raises takes the place of
    the body's outcome. *)
Definition with_exit {A : Type} (body : M A) (on_exit : M unit) : M A :=
  fun t =>
    match body t with
    | (t', outcome) =>
        match on_exit t' with
        | (t'', inr _) => (t'', outcome)
        | (t'', inl e) => (t'', inl e)
        end
    end.

Definition chart : string := utf8 [240; 159; 147; 138]%nat.
Definition tick : string := utf8 [226; 156; 133]%nat.
Definition memo : string := utf8 [240; 159; 147; 157]%nat.
Definition envelope : string := utf8 [240; 159; 147; 167]%nat.
Definition dash : string := utf8 [226; 128; 148]%nat.

Definition scopes : list string :=
  [ "https://www.googleapis.com/auth/spreadsheets.readonly";
    "https://www.googleapis.com/auth/drive.readonly" ].

(** [get_sheet_data()] *)
Definition get_sheet_data (w : world) : M (list record) :=
  print (chart ++ " Connecting to Google Sheets...") ~>
  call (LoadCredentials "credentials.json" scopes) (credentials w) ~>
  call Authorize (authorized w) ~>
  call (OpenSheet (SHEET_NAME (load_config (getenv w)))) (opened w) ~>
  data <~ request GetAllRecords (records w) ;;
  print (tick ++ " Found " ++ PyStr.of_Z (Z.of_nat (List.length data))
         ++ " rows of data.") ~>
  mret data.

(** [build_report(data)] with its two progress lines. *)
Definition build_report_call (w : world) (data : list record) : M string :=
  print (memo ++ " Building report...") ~>
  match build_report (BUSINESS_NAME (load_config (getenv w)))
          (build_clock w) data with
  | Some doc => print (tick ++ " Report built.") ~> mret doc
  | None => mraise "int too large to convert to float"
  end.

Definition subject_line (w : world) : string :=
  chart ++ " Weekly Business Report " ++ dash ++ " " ++ send_clock w
  ++ " | " ++ BUSINESS_NAME (load_config (getenv w)).

Definition mail (w : world) (html_content : string) : message :=
  {| subtype := "alternative";
     fields := [ ("Subject", Some (subject_line w));
                 ("From", SENDER_EMAIL (load_config (getenv w)));
                 ("To", RECIPIENT_EMAIL (load_config (getenv w))) ];
     attached := [ ("html", html_content) ] |}.

(** [send_email(html_content)] *)
Definition send_email (w : world) (html_content : string) : M unit :=
  let cfg := load_config (getenv w) in
  print (envelope ++ " Sending report to " ++ show (RECIPIENT_EMAIL cfg)
         ++ "...") ~>
  call (SmtpConnect "smtp.gmail.com" 465) (connected w) ~>
  with_exit
    (call (SmtpLogin (SENDER_EMAIL cfg) (SENDER_PASSWORD cfg)) (logged_in w) ~>
     call (SmtpSendmail (SENDER_EMAIL cfg) (RECIPIENT_EMAIL cfg)
             (mail w html_content)) (accepted w))
    (call SmtpExit (exited w)) ~>
  print (tick ++ " Email sent successfully!").

Definition done_line : string :=
  Run.party ++ " Done! Report sent successfully." ++ nl.

Definition error_line (e : exn) : string :=
  nl ++ Run.cross ++ " Error: " ++ e.

Definition hint_line : string :=
  "Check your .env file and credentials.json." ++ nl.

(** The [__main__] block. *)
Definition main (w : world) : M unit :=
  print (nl ++ Run.rocket ++ " Starting Auto Report Sender...") ~>
  print Run.rule ~>
  try_catch
    (data <~ get_sheet_data w ;;
     html_report <~ build_report_call w data ;;
     send_email w html_report ~>
     print Run.rule ~>
     print done_line)
    (fun e => print (error_line e) ~> print hint_line).

(** One process run: everything it prints and every call it makes, in
    order. *)
Definition run (w : world) : list io := fst (main w []).

(** The calls to the mail relay. *)
Definition is_smtp (ev : io) : bool :=
  match ev with
  | SmtpConnect _ _ | SmtpLogin _ _ | SmtpSendmail _ _ _ | SmtpExit => true
  | _ => false
  end.

Definition is_sendmail (ev : io) : bool :=
  match ev with
  | SmtpSendmail _ _ _ => true
  | _ => false
  end.

(** The place of a call in the program text, counted from the first call
    of the fetch; 0 for a printed line. *)
Definition rank (ev : io) : nat :=
  match ev with
  | Stdout _ => 0
  | LoadCredentials _ _ => 1
  | Authorize => 2
  | OpenSheet _ => 3
  | GetAllRecords => 4
  | SmtpConnect _ _ => 5
  | SmtpLogin _ _ => 6
  | SmtpSendmail _ _ _ => 7
  | SmtpExit => 8
  end.

(** The calls among the events of a run. *)
Definition calls (t : list io) : list io :=
  filter (fun ev => negb (Nat.eqb (rank ev) 0)) t.

(** The outcome of the fetch: what [get_sheet_data] raises or returns. *)
Definition fetched (w : world) : exn + list record :=
  match credentials w, authorized w, opened w with
  | Some e, _, _ => inl e
  | None, Some e, _ => inl e
  | None, None, Some e => inl e
  | None, None, None => records w
  end.

(** The outcome of the send: what [send_email] raises, if anything. *)
Definition sent (w : world) : exn + unit :=
  match connected w with
  | Some e => inl e
  | None =>
      match exited w with
      | Some e => inl e
      | None =>
          match logged_in w with
          | Some e => inl e
          | None =>
              match accepted w with
              | Some e => inl e
              | None => inr tt
              end
          end
      end
  end.

(** The same world as the stage-level run sees it. *)
Definition stages (w : world) : Run.world :=
  {| Run.BUSINESS_NAME := BUSINESS_NAME (load_config (getenv w));
     Run.today := build_clock w;
     Run.sheet := fetched w;
     Run.smtp := fun _ => sent w |}.

(** A world in which every call succeeds on the rows [rows]. *)
Definition fair_world (vars : environ) (rows : list record)
  (date : string) : world :=
  {| getenv := vars; credentials := None; authorized := None;
     opened := None; records := inr rows;
     build_clock := date; send_clock := date;
     connected := None; logged_in := None; accepted := None;
     exited := None |}.

(** What each function prints and calls, taken alone. *)
Definition fetch_events (w : world) : list io := fst (get_sheet_data w []).

Definition build_events (w : world) (data : list record) : list io :=
  fst (build_report_call w data []).

Definition send_events (w : world) (doc : string) : list io :=
  fst (send_email w doc []).

(** The report of a run: what the builder returns on the rows fetched. *)
Definition report (w : world) : option string :=
  match fetched w with
  | inr data =>
      build_report (BUSINESS_NAME (load_config (getenv w)))
        (build_clock w) data
  | inl _ => None
  end.

(** A stage-level event, unfolded into the stage's lines and calls. *)
Definition expand (w : world) (ev : Run.event) : list io :=
  match ev with
  | Run.Print line => [Stdout line]
  | Run.Called Run.Fetcher => fetch_events w
  | Run.Called Run.Builder =>
      match fetched w with
      | inr data => build_events w data
      | inl _ => []
      end
  | Run.Called Run.Sender =>
      match report w with
      | Some doc => send_events w doc
      | None => []
      end
  | _ => []
  end.

(** The two lines a run ends with. *)
Definition verdict (w : world) : list io :=
  match fetched w, sent w with
  | inr _, inr _ => [Stdout Run.rule; Stdout done_line]
  | inl e, _ | inr _, inl e => [Stdout (error_line e); Stdout hint_line]
  end.

End Program.

(** ** The specification's terms *)

(** [enumerate(l)] *)
Definition enumerate {A : Type} (l : list A) : list (nat * A) :=
  combine (seq 0 (List.length l)) l.

(** The rows' values under a coercion, row by row: [xs] is the list of
    [item(row)], none of which raises. *)
Definition coerced {A : Type} (item : record -> Exc A)
  (data : list record) (xs : list A) : Prop :=
  Forall2 (fun row x => item row = Some x) data xs.

Definition arithmetic_sum (ns : list Z) : Z := fold_right Z.add 0%Z ns.

(** The sum of floats in sequence order, from the integer 0. *)
Definition float_sum (xs : list float) : number :=
  match xs with
  | [] => NInt 0
  | _ => NFloat (fold_left add xs zero)
  end.

(** The value of a finite binary64 number, counted in units of 2^-1074
    (the step between the smallest numbers): an integer. *)
Definition in_units (x : float) : option Z :=
  match x with
  | S754_zero _ => Some 0%Z
  | S754_finite s m e =>
      if (-1074 <=? e)%Z
      then Some (cond_Zopp s (Zpos m * 2 ^ (e + 1074)))%Z
      else None
  | _ => None
  end.

Definition units (x : float) : Z :=
  match in_units x with
  | Some u => u
  | None => 0%Z
  end.

Definition number_units (n : number) : option Z :=
  match n with
  | NInt k => Some (k * 2 ^ 1074)%Z
  | NFloat x => in_units x
  end.

(** [x + y] does not round: both are finite and the sum has the value of
    [x] plus the value of [y]. *)
Definition exact_add (x y : float) : bool :=
  match in_units x, in_units y, in_units (add x y) with
  | Some a, Some b, Some c => (c =? a + b)%Z
  | _, _, _ => false
  end.

(** None of the additions of [xs] to the running total [acc], one after
    the other, rounds. *)
Fixpoint no_rounding (acc : float) (xs : list float) : bool :=
  match xs with
  | [] => true
  | x :: rest => exact_add acc x && no_rounding (add acc x) rest
  end.

(** [x - y] does not round. *)
Definition exact_sub (x y : float) : bool :=
  match in_units x, in_units y, in_units (sub x y) with
  | Some a, Some b, Some c => (c =? a - b)%Z
  | _, _, _ => false
  end.

(** None of the operations of the compensated loop on [xs] rounds: the
    addition to the running total [f], and the three that update the
    compensation [c]. *)
Fixpoint no_rounding_compensated (f c : float) (xs : list float) : bool :=
  match xs with
  | [] => true
  | x :: rest =>
      let t := add f x in
      let '(big, small) := if geb (abs f) (abs x) then (f, x) else (x, f) in
      exact_add f x && exact_sub big t && exact_add (sub big t) small &&
      exact_add c (add (sub big t) small) &&
      no_rounding_compensated t (add c (add (sub big t) small)) rest
  end.

(** None of the floating-point operations of [sum] on [xs] rounds. *)
Definition exactly_summed (compensated_sum : bool) (xs : list float) : bool :=
  if compensated_sum then
    match xs with
    | [] => true
    | x :: rest =>
        exact_add zero x && no_rounding_compensated (add zero x) zero rest
    end
  else no_rounding zero xs.

(** [str] of an integer writes its decimal text, when it returns. *)
Definition writes_decimal (py : interpreter) : Prop :=
  forall n t, text_of_int py n = Some t -> t = PyStr.of_Z n.

(** [str] of an integer with the default limit: the decimal text of an
    integer of at most 4300 digits, an exception beyond. *)
Definition writes_with_limit (py : interpreter) : Prop :=
  forall n,
    text_of_int py n
    = if (Z.abs n <? 10 ^ 4300)%Z then Some (PyStr.of_Z n) else None.

(** The conversions read texts as [int_of_str] and [float_of_str] do and
    add floats one after the other. *)
Definition reads_plainly (py : interpreter) : Prop :=
  (forall s, int_of_text py s = int_of_str s) /\
  (forall s, float_of_text py s = float_of_str s) /\
  compensated py = false.

(** The text is the letter [small] or the letter [capital]. *)
Definition either (small capital c : ascii) : bool :=
  Ascii.eqb c small || Ascii.eqb c capital.

(** The text spells the word completed, every letter in either case. *)
Definition spells_completed (text : string) : bool :=
  match list_ascii_of_string text with
  | [c; o; m; p; l; e; t; e'; d] =>
      either "c" "C" c && either "o" "O" o && either "m" "M" m &&
      either "p" "P" p && either "l" "L" l && either "e" "E" e &&
      either "t" "T" t && either "e" "E" e' && either "d" "D" d
  | _ => false
  end.

(** The row's Status text spells completed. *)
Definition counts_as_completed (py : interpreter) (row : record) : bool :=
  match status_in py row with
  | Some text => spells_completed text
  | None => false
  end.

Definition shaded : string := "#f9f7f4".
Definition plain : string := "#ffffff".

(** The shading of the row at index [i]. *)
Definition shading (i : nat) : string := if Nat.even i then shaded else plain.

(** A plain integer: an optional minus sign, then digits only; its value. *)
Definition read_plain_int (s : string) : option Z :=
  match list_ascii_of_string s with
  | c :: rest =>
      if Ascii.eqb c "-" then
        if all_digits rest then Some (- decimal rest)%Z else None
      else
        if all_digits (c :: rest) then Some (decimal (c :: rest)) else None
  | [] => None
  end.

(** Groups of three digits parted by commas, read from the right (the
    text is given last character first); the top group has one to three
    digits.  The result is the digits alone, still last first. *)
Fixpoint read_groups (s : list ascii) : option (list ascii) :=
  match s with
  | a :: b :: c :: sep :: ((_ :: _) as more) =>
      if is_digit a && is_digit b && is_digit c && Ascii.eqb sep ","
      then option_map (fun ds => a :: b :: c :: ds) (read_groups more)
      else None
  | [a] => if is_digit a then Some s else None
  | [a; b] => if is_digit a && is_digit b then Some s else None
  | [a; b; c] => if is_digit a && is_digit b && is_digit c then Some s else None
  | _ => None
  end.

(** No zero in front of a number of several digits (digits last first). *)
Definition no_leading_zero (ds : list ascii) : bool :=
  match rev ds with
  | c :: _ :: _ => negb (Ascii.eqb c "0")
  | _ => true
  end.

(** An amount with thousands separators and exactly two decimals, such as
    1,234.50 or -0.07: whether it is negative, and its value in hundredths. *)
Definition read_money (s : string) : option (bool * Z) :=
  let chars := list_ascii_of_string s in
  let '(neg, body) :=
    match chars with
    | c :: rest => if Ascii.eqb c "-" then (true, rest) else (false, chars)
    | [] => (false, chars)
    end in
  match rev body with
  | d2 :: d1 :: dot :: units =>
      if is_digit d2 && is_digit d1 && Ascii.eqb dot "." then
        match read_groups units with
        | Some ds =>
            if no_leading_zero ds
            then Some (neg, (decimal (rev ds) * 100
                             + digit_value d1 * 10 + digit_value d2)%Z)
            else None
        | None => None
        end
      else None
  | _ => None
  end.

(** A header cell, a body cell and a body row as the reader of the document
    meets them. *)
Definition header_cell (name : string) : string :=
  "<th style='padding:12px 14px; text-align:left; background:#1a1a2e; color:#fff; font-weight:600;'>"
  ++ name ++ "</th>".

Definition body_cell (text : string) : string :=
  "<td style='padding:10px 14px; border-bottom:1px solid #eee;'>"
  ++ text ++ "</td>".

Definition body_row (i : nat) (texts : list string) : string :=
  "<tr style='background:" ++ shading i ++ ";'>"
  ++ join (map body_cell texts) ++ "</tr>".

(** The table element with the header row [head] and the body [body]. *)
Definition table_of (head body : string) : string :=
  "<table style=" ++ dq
  ++ "width:100%; border-collapse:collapse; font-size:13px;" ++ dq ++ ">"
  ++ nl ++ "              <thead><tr>" ++ head ++ "</tr></thead>"
  ++ nl ++ "              <tbody>" ++ body ++ "</tbody>"
  ++ nl ++ "            </table>".

(** The text of a row's cells, in column order. *)
Definition cell_texts (row : record) : list string :=
  map py_str (values row).

(** ** Further terms *)

(** The value a row adds to the total sales when its Sales cell reads. *)
Definition sales_value (row : record) : Z :=
  match sales_of row with
  | Some n => n
  | None => 0%Z
  end.

(** A row is readable when both of its coercions return. *)
Definition readable (row : record) : Prop :=
  sales_of row <> None /\ revenue_of row <> None.

(** A row without the column [key]. *)
Definition lacks (key : string) (row : record) : Prop :=
  ~ In key (keys row).

(** Upper-casing of the ASCII letters. *)
Definition is_lower_letter (c : ascii) : bool :=
  (97 <=? code c)%Z && (code c <=? 122)%Z.

Definition upper_char (c : ascii) : ascii :=
  if is_lower_letter c then ascii_of_N (Z.to_N (code c - 32)) else c.

Fixpoint upper (s : string) : string :=
  match s with
  | EmptyString => EmptyString
  | String c rest => String (upper_char c) (upper rest)
  end.

(** The characters that can stand in a text [float] reads: digits, white
    space, signs, the point, the digit separator, the exponent letter and
    the letters of inf, infinity and nan. *)
Definition float_char (c : ascii) : bool :=
  is_digit c || is_space c ||
  existsb (Ascii.eqb (lower_char c))
    (list_ascii_of_string "+-._einftya").

(** The characters of a decimal numeral. *)
Definition decimal_char (c : ascii) : bool :=
  is_digit c || is_dot c || is_e c || (code c =? 45)%Z || (code c =? 43)%Z.

(** The characters that can stand in a text [int] reads. *)
Definition int_char (c : ascii) : bool :=
  is_digit c || is_space c ||
  existsb (Ascii.eqb c) (list_ascii_of_string "+-_").

(** A summary figure as the reader of the document meets it: the value
    that closes the large text, and the label on the line under it. *)
Definition figure (value label : string) : string :=
  ">" ++ value ++ "</div>" ++ nl ++ "              <div style=" ++ dq
  ++ "font-size:12px; color:#999; margin-top:4px;" ++ dq ++ ">"
  ++ label ++ "</div>".

(** The heading of the document: the business name, and under it the line
    with the date. *)
Definition heading (name date : string) : string :=
  ">" ++ name ++ "</div>" ++ nl ++ "          <div style=" ++ dq
  ++ "font-size:13px; color:#9aa3b8; margin-top:6px;" ++ dq
  ++ ">Generated on " ++ date ++ "</div>".

(** Each number is less than the next. *)
Fixpoint ascending (l : list nat) : bool :=
  match l with
  | a :: ((b :: _) as rest) => Nat.ltb a b && ascending rest
  | _ => true
  end.

(** The rows written by the loop from index [i] on. *)
Definition rows_from (i : nat) (data : list record) : string :=
  table_rows_from EmptyString i data.

(** ** Sample sheets *)

Definition bad_revenue_rows : list record :=
  [ [("Item", VStr "A"); ("Sales", VStr "3"); ("Revenue", VStr "10.5");
     ("Status", VStr "Completed")];
    [("Item", VStr "B"); ("Sales", VStr "2"); ("Revenue", VStr "n/a");
     ("Status", VStr "completed")] ].

Definition two_rows : list record :=
  [ [("Item", VStr "A"); ("Sales", VStr "3"); ("Revenue", VStr "10.5");
     ("Status", VStr "Completed")];
    [("Item", VStr "B"); ("Sales", VStr "2"); ("Revenue", VStr "5.0");
     ("Status", VStr "pending")] ].


(** Seven rows, three of them completed. *)
Definition casing_rows : list record :=
  [ [("Item", VStr "A"); ("Status", VStr "Completed")];
    [("Item", VStr "B"); ("Status", VStr "COMPLETED")];
    [("Item", VStr "C"); ("Status", VStr "completed")];
    [("Item", VStr "D"); ("Status", VStr "pending")];
    [("Item", VStr "E"); ("Status", VStr "complete")];
    [("Item", VStr "F"); ("Status", VStr " completed")];
    [("Item", VStr "G")] ].

Definition sheet_world (rows : Run.exn + list record)
  (relay : string -> Run.exn + unit) : Run.world :=
  {| Run.BUSINESS_NAME := "Acme"; Run.today := "November 03, 2026";
     Run.sheet := rows; Run.smtp := relay |}.

Definition nan_rows : list record :=
  [ [("Item", VStr "A"); ("Sales", VStr "3"); ("Revenue", VStr "1250.00");
     ("Status", VStr "Completed")];
    [("Item", VStr "B"); ("Sales", VStr "2"); ("Revenue", VStr "nan");
     ("Status", VStr "pending")] ].

Definition item_only_rows : list record :=
  [ [("Item", VStr "A")]; [("Item", VStr "B"); ("Note", VStr "late")] ].

Definition money_rows : list record :=
  [ [("Item", VStr "A"); ("Sales", VStr "3"); ("Revenue", VStr "10.5")];
    [("Item", VStr "B"); ("Sales", VStr "2"); ("Revenue", VStr "$1,250.00")] ].

(** A process environment with the four mail and sheet settings. *)
Definition office : Program.environ :=
  fun name =>
    if String.eqb name "SENDER_EMAIL" then Some "owner@example.com"
    else if String.eqb name "SENDER_PASSWORD" then Some "app-password"
    else if String.eqb name "RECIPIENT_EMAIL" then Some "client@example.com"
    else if String.eqb name "SHEET_NAME" then Some "Weekly Sales"
    else None.

Definition exit_fails : Program.world :=
  {| Program.getenv := office;
     Program.credentials := None; Program.authorized := None;
     Program.opened := None; Program.records := inr two_rows;
     Program.build_clock := "November 03, 2026";
     Program.send_clock := "November 03, 2026";
     Program.connected := None; Program.logged_in := None;
     Program.accepted := None;
     Program.exited := Some "(421, b'Service closing')" |}.

(** The report of [two_rows] under the default business name. *)
Definition two_rows_report : string :=
  match build_report "Your Business" "November 03, 2026" two_rows with
  | Some doc => doc
  | None => EmptyString
  end.

(** Two integer cells, each of 4300 digits. *)
Definition long_total_rows : list record :=
  [ [("Sales", VInt (10 ^ 4300 - 1))]; [("Sales", VInt (10 ^ 4300 - 1))] ].

Definition sheet_missing : Program.world :=
  {| Program.getenv := office;
     Program.credentials := None; Program.authorized := None;
     Program.opened := Some "SpreadsheetNotFound";
     Program.records := inr two_rows;
     Program.build_clock := "November 03, 2026";
     Program.send_clock := "November 03, 2026";
     Program.connected := None; Program.logged_in := None;
     Program.accepted := None; Program.exited := None |}.

(** * Properties *)

(** ** The summary *)

Section Sums.
Context {A N : Type}.
Variable plus : N -> A -> Exc N.
Variable item : record -> Exc A.

(** A row whose item raises ends the sum, wherever it stands. *)
Lemma py_sum_raises (data : list record) :
  forall acc row,
    In row data -> item row = None -> py_sum plus item acc data = None.
Proof.
  induction data as [|r rest IH]; intros acc row Hin Hrow.
  - destruct Hin.
  - simpl. destruct Hin as [->|Hin].
    + rewrite Hrow. reflexivity.
    + destruct (item r) as [x|]; simpl; [|reflexivity].
      destruct (plus acc x) as [acc'|]; simpl; [|reflexivity].
      eapply IH; eassumption.
Qed.

(** Rows whose items all return have a list of coerced values. *)
Lemma coerced_exists (data : list record) :
  (forall row, In row data -> item row <> None) ->
  exists xs, coerced item data xs.
Proof.
  induction data as [|r rest IH]; intros Hall.
  - exists []. constructor.
  - destruct IH as [xs Hxs].
    + intros row Hin. apply Hall. right. exact Hin.
    + destruct (item r) as [x|] eqn:Hr.
      * exists (x :: xs). constructor; assumption.
      * exfalso. apply (Hall r); [left; reflexivity | exact Hr].
Qed.
End Sums.

Lemma py_sum_add_int (item : record -> Exc Z) (data : list record) :
  forall ns acc,
    coerced item data ns ->
    py_sum add_int item acc data = Some (acc + arithmetic_sum ns)%Z.
Proof.
  induction data as [|r rest IH]; intros ns acc Hco; inversion Hco; subst.
  - unfold arithmetic_sum, py_sum, ret. cbn [fold_right]. f_equal. lia.
  - cbn [py_sum]. match goal with H : item r = Some _ |- _ => rewrite H end.
    unfold add_int at 1, ret at 1. cbn [bind].
    erewrite IH by eassumption. unfold arithmetic_sum. cbn [fold_right].
    f_equal. lia.
Qed.

Lemma py_sum_add_float_from {item : record -> Exc float}
  (data : list record) :
  forall xs y,
    coerced item data xs ->
    py_sum add_float item (NFloat y) data
    = Some (NFloat (fold_left add xs y)).
Proof.
  induction data as [|r rest IH]; intros xs y Hco; inversion Hco; subst.
  - reflexivity.
  - simpl. match goal with H : item r = Some _ |- _ => rewrite H end.
    simpl. apply IH. assumption.
Qed.

Lemma py_sum_add_float {item : record -> Exc float} (data : list record)
  (xs : list float) :
  coerced item data xs ->
  py_sum add_float item (NInt 0) data = Some (float_sum xs).
Proof.
  intros Hco. destruct Hco as [|r x rest xs' Hr Hrest].
  - reflexivity.
  - simpl. rewrite Hr. simpl.
    change (Binary64.of_Z 0) with (Some zero). simpl.
    apply py_sum_add_float_from. assumption.
Qed.

Lemma py_sum_ones (rows : list record) :
  forall acc,
    py_sum add_int (fun _ => ret 1%Z) acc rows
    = Some (acc + Z.of_nat (List.length rows))%Z.
Proof.
  induction rows as [|r rest IH]; intros acc.
  - unfold py_sum, ret. cbn [List.length]. f_equal. lia.
  - change (py_sum add_int (fun _ => ret 1%Z) acc (r :: rest))
      with (py_sum add_int (fun _ => ret 1%Z) (acc + 1)%Z rest).
    rewrite IH. f_equal. cbn [List.length]. lia.
Qed.

(** The running total of a sum of floats is the int 0 or a float. *)
Lemma py_sum_float_stays_float (item : record -> Exc float)
  (data : list record) :
  forall y n,
    py_sum add_float item (NFloat y) data = Some n -> exists x, n = NFloat x.
Proof.
  induction data as [|r rest IH]; intros y n Hsum.
  - inversion Hsum. exists y. reflexivity.
  - cbn [py_sum] in Hsum. destruct (item r) as [x|]; [|discriminate].
    cbn in Hsum. eapply IH. exact Hsum.
Qed.

(** The summary of rows that all coerce. *)
Lemma summary_body_coerced (data : list record) ns xs :
  coerced sales_of data ns ->
  coerced revenue_of data xs ->
  summary_body data
  = Some {| total_sales := arithmetic_sum ns;
            total_revenue := float_sum xs;
            completed := Z.of_nat (List.length (filter is_completed data)) |}.
Proof.
  intros Hs Hr. unfold summary_body.
  rewrite (py_sum_add_int _ _ _ _ Hs). cbn [bind].
  rewrite (py_sum_add_float _ _ Hr). cbn [bind].
  rewrite py_sum_ones. reflexivity.
Qed.

(** When the body of the [try] returns, every row coerced. *)
Lemma py_sum_returns_items {A N : Type} (plus : N -> A -> Exc N)
  (item : record -> Exc A) (data : list record) :
  forall acc, py_sum plus item acc data <> None ->
  forall row, In row data -> item row <> None.
Proof.
  intros acc Hsum row Hin Hrow. apply Hsum.
  eapply py_sum_raises; eassumption.
Qed.

Lemma summary_body_returns (data : list record) :
  summary_body data <> None ->
  forall row, In row data -> sales_of row <> None /\ revenue_of row <> None.
Proof.
  intros Hbody row Hin. unfold summary_body in Hbody. split; intros Hrow.
  - rewrite (py_sum_raises _ _ _ _ _ Hin Hrow) in Hbody. apply Hbody. reflexivity.
  - destruct (py_sum add_int sales_of 0%Z data); cbn [bind] in Hbody.
    + rewrite (py_sum_raises _ _ _ _ _ Hin Hrow) in Hbody. apply Hbody. reflexivity.
    + apply Hbody. reflexivity.
Qed.

(** C1. If some row's Sales value cannot be read as an integer ([int(...)]
    raises) or its Revenue value cannot be read as a number ([float(...)]
    raises), the summary is the fallback: total sales 0, total revenue 0 and
    completed count 0, whatever the other rows hold. *)
Theorem C1_bad_row_zeroes_summary (data : list record) :
  (exists row, In row data /\ (sales_of row = None \/ revenue_of row = None)) ->
  total_sales (summarize data) = 0%Z /\
  total_revenue (summarize data) = NInt 0 /\
  completed (summarize data) = 0%Z.
Proof.
  intros [row [Hin Hbad]].
  assert (Hnone : summary_body data = None).
  { unfold summary_body. destruct Hbad as [Hs|Hr].
    - rewrite (py_sum_raises _ _ _ _ _ Hin Hs). reflexivity.
    - destruct (py_sum add_int sales_of 0%Z data); cbn [bind]; [|reflexivity].
      rewrite (py_sum_raises _ _ _ _ _ Hin Hr). reflexivity. }
  unfold summarize. rewrite Hnone. cbn. repeat split.
Qed.

Lemma C1_witness :
  total_sales (summarize bad_revenue_rows) = 0%Z /\
  total_revenue (summarize bad_revenue_rows) = NInt 0 /\
  completed (summarize bad_revenue_rows) = 0%Z.
Proof.
  apply (C1_bad_row_zeroes_summary bad_revenue_rows).
  exists [("Item", VStr "B"); ("Sales", VStr "2"); ("Revenue", VStr "n/a");
          ("Status", VStr "completed")].
  split.
  - right. left. reflexivity.
  - right. vm_compute. reflexivity.
Defined.

Lemma get_lacking (row : record) (key : string) (default : value) :
  lacks key row -> get row key default = default.
Proof.
  unfold lacks. induction row as [|[k v] rest IH]; intros Hk.
  - reflexivity.
  - cbn [get]. destruct (String.eqb_spec k key) as [->|Hne].
    + exfalso. apply Hk. left. reflexivity.
    + apply IH. intros Hin. apply Hk. right. exact Hin.
Qed.

(** *** Under any conversions *)

Lemma py_count_raises (cond : record -> Exc bool) (data : list record) :
  forall acc row,
    In row data -> cond row = None -> py_count cond acc data = None.
Proof.
  induction data as [|r rest IH]; intros acc row Hin Hrow.
  - destruct Hin.
  - cbn [py_count]. destruct Hin as [->|Hin].
    + rewrite Hrow. reflexivity.
    + destruct (cond r) as [[|]|]; cbn [bind add_int ret];
        [eapply IH; eassumption | eapply IH; eassumption | reflexivity].
Qed.

(** The conditional sum counts the rows whose condition is true. *)
Lemma py_count_counts (cond : record -> Exc bool) (holds : record -> bool)
  (data : list record) :
  forall acc,
    (forall row, In row data -> cond row = Some (holds row)) ->
    py_count cond acc data
    = Some (acc + Z.of_nat (List.length (filter holds data)))%Z.
Proof.
  induction data as [|r rest IH]; intros acc Hall.
  - cbn. unfold ret. f_equal. lia.
  - cbn [py_count filter]. rewrite (Hall r (or_introl eq_refl)).
    cbn [bind]. destruct (holds r); cbn [bind add_int ret].
    + rewrite IH by (intros row Hin; apply Hall; right; exact Hin).
      cbn [List.length]. f_equal. lia.
    + apply IH. intros row Hin. apply Hall. right. exact Hin.
Qed.

Lemma completed_in_counts (py : interpreter) (row : record) :
  status_in py row <> None ->
  completed_in py row
  = Some (match status_in py row with
          | Some text => String.eqb (lower text) "completed"
          | None => false
          end).
Proof.
  intros H. unfold completed_in. destruct (status_in py row); [reflexivity|].
  exfalso. apply H. reflexivity.
Qed.

Lemma compensated_loop_raises (item : record -> Exc float)
  (data : list record) :
  forall f c row,
    In row data -> item row = None -> compensated_loop item f c data = None.
Proof.
  induction data as [|r rest IH]; intros f c row Hin Hrow.
  - destruct Hin.
  - cbn [compensated_loop]. destruct Hin as [->|Hin].
    + rewrite Hrow. reflexivity.
    + destruct (item r) as [x|]; cbn [bind]; [|reflexivity].
      eapply IH; eassumption.
Qed.

Lemma compensated_loop_float (item : record -> Exc float)
  (data : list record) :
  forall f c n,
    compensated_loop item f c data = Some n -> exists x, n = NFloat x.
Proof.
  induction data as [|r rest IH]; intros f c n Hloop.
  - inversion Hloop. eexists. reflexivity.
  - cbn [compensated_loop] in Hloop.
    destruct (item r) as [x|]; [|discriminate Hloop].
    cbn [bind] in Hloop. eapply IH. exact Hloop.
Qed.

Lemma compensated_loop_returns (item : record -> Exc float)
  (data : list record) :
  forall xs f c,
    coerced item data xs ->
    exists total, compensated_loop item f c data = Some (NFloat total).
Proof.
  induction data as [|r rest IH]; intros xs f c Hco; inversion Hco; subst.
  - eexists. reflexivity.
  - cbn [compensated_loop].
    match goal with H : item r = Some _ |- _ => rewrite H end.
    cbn [bind]. eapply IH. eassumption.
Qed.

Lemma sum_floats_in_raises (py : interpreter) (item : record -> Exc float)
  (data : list record) (row : record) :
  In row data -> item row = None -> sum_floats_in py item data = None.
Proof.
  intros Hin Hrow. unfold sum_floats_in. destruct (compensated py).
  - unfold py_sum_compensated. destruct data as [|r rest]; [destruct Hin|].
    destruct Hin as [->|Hin]; [rewrite Hrow; reflexivity|].
    destruct (item r); cbn [bind]; [|reflexivity].
    eapply compensated_loop_raises; eassumption.
  - eapply py_sum_raises; eassumption.
Qed.

(** The total of a sum of floats is the integer 0 or a float. *)
Lemma sum_floats_in_shape (py : interpreter) (item : record -> Exc float)
  (data : list record) (n : number) :
  sum_floats_in py item data = Some n ->
  n = NInt 0 \/ exists x, n = NFloat x.
Proof.
  unfold sum_floats_in. destruct data as [|r rest].
  - destruct (compensated py); intros H; inversion H; left; reflexivity.
  - intros H. right. destruct (compensated py).
    + cbn [py_sum_compensated] in H.
      destruct (item r) as [x|]; [|discriminate H]. cbn [bind] in H.
      eapply compensated_loop_float. exact H.
    + cbn [py_sum] in H. destruct (item r) as [x|]; [|discriminate H].
      cbn in H. eapply py_sum_float_stays_float. exact H.
Qed.

Lemma exact_add_units (x y : float) :
  exact_add x y = true ->
  exists a b,
    in_units x = Some a /\ in_units y = Some b /\
    in_units (add x y) = Some (a + b)%Z.
Proof.
  unfold exact_add. intros H.
  destruct (in_units x) as [a|]; [|discriminate H].
  destruct (in_units y) as [b|]; [|discriminate H].
  destruct (in_units (add x y)) as [c|]; [|discriminate H].
  apply Z.eqb_eq in H. subst c. exists a, b. repeat split.
Qed.

Lemma exact_sub_units (x y : float) :
  exact_sub x y = true ->
  exists a b,
    in_units x = Some a /\ in_units y = Some b /\
    in_units (sub x y) = Some (a - b)%Z.
Proof.
  unfold exact_sub. intros H.
  destruct (in_units x) as [a|]; [|discriminate H].
  destruct (in_units y) as [b|]; [|discriminate H].
  destruct (in_units (sub x y)) as [c|]; [|discriminate H].
  apply Z.eqb_eq in H. subst c. exists a, b. repeat split.
Qed.

(** Additions that do not round add up the values. *)
Lemma no_rounding_units (xs : list float) :
  forall acc a,
    in_units acc = Some a ->
    no_rounding acc xs = true ->
    in_units (fold_left add xs acc)
    = Some (a + arithmetic_sum (map units xs))%Z.
Proof.
  induction xs as [|x rest IH]; intros acc a Hacc Hexact.
  - cbn. rewrite Hacc. f_equal. lia.
  - cbn [no_rounding] in Hexact. apply andb_true_iff in Hexact.
    destruct Hexact as [Hadd Hrest].
    destruct (exact_add_units _ _ Hadd) as [a' [b [Ha [Hx Hc]]]].
    rewrite Hacc in Ha. inversion Ha; subst a'.
    cbn [fold_left map]. rewrite (IH _ _ Hc Hrest).
    unfold arithmetic_sum. cbn [fold_right]. unfold units at 2.
    rewrite Hx. f_equal. lia.
Qed.

(** A float of value zero is a zero. *)
Lemma in_units_zero (c : float) : in_units c = Some 0%Z -> is_zero c = true.
Proof.
  destruct c as [s|s| |s m e]; cbn [in_units is_zero]; try discriminate;
    [reflexivity|].
  destruct (Z.leb_spec (-1074) e) as [He|He]; [|discriminate].
  assert (Hpos : (0 < Zpos m * 2 ^ (e + 1074))%Z).
  { apply Z.mul_pos_pos; [reflexivity|]. apply Z.pow_pos_nonneg; lia. }
  revert Hpos. generalize (Zpos m * 2 ^ (e + 1074))%Z. intros v Hpos H.
  exfalso. assert (H0 : cond_Zopp s v = 0%Z) by congruence.
  destruct s; unfold cond_Zopp in H0; lia.
Qed.

(** When no operation of the compensated loop rounds, the compensation
    stays zero and the total is the sum of the values. *)
Lemma compensated_loop_units (item : record -> Exc float)
  (data : list record) :
  forall xs f c a,
    coerced item data xs ->
    in_units f = Some a -> in_units c = Some 0%Z ->
    no_rounding_compensated f c xs = true ->
    exists total,
      compensated_loop item f c data = Some (NFloat total) /\
      in_units total = Some (a + arithmetic_sum (map units xs))%Z.
Proof.
  induction data as [|r rest IH]; intros xs f c a Hco Hf Hc Hexact;
    inversion Hco as [|r' x rest' xs' Hr Hrest]; subst.
  - cbn [compensated_loop]. rewrite (in_units_zero c Hc). cbn [negb andb].
    exists f. split; [reflexivity|]. rewrite Hf. cbn. f_equal. lia.
  - cbn [compensated_loop]. rewrite Hr. cbn [bind].
    cbn [no_rounding_compensated] in Hexact.
    assert (Hstep :
      exists b,
        in_units x = Some b /\ in_units (add f x) = Some (a + b)%Z /\
        in_units (if geb (abs f) (abs x)
                  then add c (add (sub f (add f x)) x)
                  else add c (add (sub x (add f x)) f)) = Some 0%Z /\
        no_rounding_compensated (add f x)
          (if geb (abs f) (abs x)
           then add c (add (sub f (add f x)) x)
           else add c (add (sub x (add f x)) f)) xs' = true).
    { destruct (geb (abs f) (abs x));
        repeat (apply andb_true_iff in Hexact;
                destruct Hexact as [Hexact ?]);
        match goal with
        | H1 : exact_sub _ _ = true, H2 : exact_add (sub _ _) _ = true,
          H3 : exact_add c _ = true |- _ =>
            destruct (exact_add_units _ _ Hexact) as [a1 [b [Ha1 [Hb Ht]]]];
            destruct (exact_sub_units _ _ H1) as [p [q [Hp [Hq Hd]]]];
            destruct (exact_add_units _ _ H2) as [d [k [Hd' [Hk He]]]];
            destruct (exact_add_units _ _ H3) as [z [e [Hz [He' Hc']]]]
        end;
        rewrite Hf in Ha1; inversion Ha1; subst a1;
        rewrite Hc in Hz; inversion Hz; subst z;
        rewrite Ht in Hq; inversion Hq; subst q;
        rewrite Hd in Hd'; inversion Hd'; subst d;
        rewrite He in He'; inversion He'; subst e;
        exists b; (split; [exact Hb|]); (split; [exact Ht|]);
        (split; [|assumption]); rewrite Hc'; f_equal.
      - rewrite Hf in Hp. inversion Hp; subst p.
        rewrite Hb in Hk. inversion Hk; subst k. lia.
      - rewrite Hb in Hp. inversion Hp; subst p.
        rewrite Hf in Hk. inversion Hk; subst k. lia. }
    destruct Hstep as [b [Hb [Ht [Hc' Hrest']]]].
    destruct (IH xs' _ _ _ Hrest Ht Hc' Hrest') as [total [Hloop Htotal]].
    exists total. split; [exact Hloop|]. rewrite Htotal.
    unfold arithmetic_sum. cbn [map fold_right]. unfold units at 2.
    rewrite Hb. f_equal. lia.
Qed.

(** The sum of floats returns when every item is read; it is the left
    fold of the additions when plain, and the arithmetic sum of the values
    when none of its operations rounds. *)
Lemma sum_floats_in_total (py : interpreter) (item : record -> Exc float)
  (data : list record) (xs : list float) :
  coerced item data xs ->
  exists total,
    sum_floats_in py item data = Some total /\
    (compensated py = false -> total = float_sum xs) /\
    (exactly_summed (compensated py) xs = true ->
     number_units total = Some (arithmetic_sum (map units xs))).
Proof.
  intros Hco. unfold sum_floats_in. destruct (compensated py).
  - destruct Hco as [|r x rest xs' Hr Hrest].
    + exists (NInt 0). split; [reflexivity|]. split; [discriminate|].
      reflexivity.
    + cbn [py_sum_compensated]. rewrite Hr. cbn [bind].
      destruct (compensated_loop_returns item rest xs' (add zero x) zero Hrest)
        as [total Hloop].
      exists (NFloat total). split; [exact Hloop|]. split; [discriminate|].
      cbn [exactly_summed]. intros Hexact.
      apply andb_true_iff in Hexact. destruct Hexact as [Hfirst Hothers].
      destruct (exact_add_units _ _ Hfirst) as [a [b [Ha [Hb Ht]]]].
      inversion Ha; subst a.
      destruct (compensated_loop_units item rest xs' (add zero x) zero
                  (0 + b)%Z Hrest Ht eq_refl Hothers)
        as [total' [Hloop' Htotal]].
      rewrite Hloop in Hloop'. inversion Hloop'; subst total'.
      cbn [number_units]. rewrite Htotal.
      unfold arithmetic_sum. cbn [map fold_right]. unfold units at 2.
      rewrite Hb. reflexivity.
  - exists (float_sum xs). split; [apply py_sum_add_float; exact Hco|].
    split; [reflexivity|]. cbn [exactly_summed]. intros Hexact.
    destruct xs as [|x rest]; [reflexivity|].
    unfold float_sum, number_units.
    rewrite (no_rounding_units (x :: rest) zero 0%Z eq_refl Hexact).
    reflexivity.
Qed.

(** The summary under any conversions, when every row's three values are
    read. *)
Lemma summary_body_in_coerced (py : interpreter) (data : list record)
  (ns : list Z) (xs : list float) :
  coerced (sales_in py) data ns ->
  coerced (revenue_in py) data xs ->
  (forall row, In row data -> status_in py row <> None) ->
  exists total,
    sum_floats_in py (revenue_in py) data = Some total /\
    summary_body_in py data
    = Some {| total_sales := arithmetic_sum ns;
              total_revenue := total;
              completed :=
                Z.of_nat
                  (List.length
                     (filter (fun row =>
                                match status_in py row with
                                | Some text =>
                                    String.eqb (lower text) "completed"
                                | None => false
                                end) data)) |}.
Proof.
  intros Hs Hr Hst.
  destruct (sum_floats_in_total py (revenue_in py) data xs Hr)
    as [total [Hsum _]].
  exists total. split; [exact Hsum|]. unfold summary_body_in.
  rewrite (py_sum_add_int _ _ _ _ Hs). cbn [bind].
  rewrite Hsum. cbn [bind].
  rewrite (py_count_counts (completed_in py)
             (fun row => match status_in py row with
                         | Some text => String.eqb (lower text) "completed"
                         | None => false
                         end) data 0%Z).
  - reflexivity.
  - intros row Hin. apply completed_in_counts. apply Hst. exact Hin.
Qed.

(** When the body of the [try] returns, every row's three values were
    read. *)
Lemma summary_body_in_returns (py : interpreter) (data : list record) :
  summary_body_in py data <> None ->
  forall row, In row data ->
    sales_in py row <> None /\ revenue_in py row <> None /\
    status_in py row <> None.
Proof.
  intros Hbody row Hin. unfold summary_body_in in Hbody.
  split; [|split]; intros Hrow; apply Hbody.
  - rewrite (py_sum_raises _ _ _ _ _ Hin Hrow). reflexivity.
  - destruct (py_sum add_int (sales_in py) 0%Z data); cbn [bind];
      [|reflexivity].
    rewrite (sum_floats_in_raises py _ _ _ Hin Hrow). reflexivity.
  - destruct (py_sum add_int (sales_in py) 0%Z data); cbn [bind];
      [|reflexivity].
    destruct (sum_floats_in py (revenue_in py) data); cbn [bind];
      [|reflexivity].
    rewrite (py_count_raises _ _ _ _ Hin); [reflexivity|].
    unfold completed_in. rewrite Hrow. reflexivity.
Qed.




(** *** The completed count *)

Lemma lower_char_either (small capital c : ascii) :
  In (small, capital)
     [("c", "C"); ("o", "O"); ("m", "M"); ("p", "P"); ("l", "L");
      ("e", "E"); ("t", "T"); ("d", "D")]%char ->
  Ascii.eqb (lower_char c) small = either small capital c.
Proof.
  intros Hin. cbn [In] in Hin.
  repeat (destruct Hin as [Heq|Hin];
          [inversion Heq; subst;
           destruct c as [[|] [|] [|] [|] [|] [|] [|] [|]]; reflexivity|]).
  destruct Hin.
Qed.

(** Lower-cased, a text equals "completed" exactly when it spells the word
    with each letter in either case. *)
Lemma lower_is_completed (text : string) :
  String.eqb (lower text) "completed" = spells_completed text.
Proof.
  unfold spells_completed.
  do 10 (try (destruct text as [|? text]));
    cbn [lower list_ascii_of_string String.eqb];
    rewrite ?(lower_char_either "c" "C"), ?(lower_char_either "o" "O"),
      ?(lower_char_either "m" "M"), ?(lower_char_either "p" "P"),
      ?(lower_char_either "l" "L"), ?(lower_char_either "e" "E"),
      ?(lower_char_either "t" "T"), ?(lower_char_either "d" "D")
      by (cbn; auto 12);
    repeat match goal with
           | |- context [either ?s ?k ?c] =>
               destruct (either s k c); cbn [andb]
           end;
    reflexivity.
Qed.

(** C3. When the fallback does not trigger (the body of the [try] returns),
    the completed count is the number of rows whose Status text spells
    completed, each letter in upper or lower case; a row without a Status
    does not count. *)
Theorem C3_completed_count (py : interpreter) (data : list record) :
  summary_body_in py data <> None ->
  completed (summarize_in py data)
  = Z.of_nat (List.length (filter (counts_as_completed py) data)) /\
  (forall row, lacks "Status" row -> counts_as_completed py row = false).
Proof.
  intros Hbody. split.
  - pose proof (summary_body_in_returns py data Hbody) as Hrows.
    destruct (coerced_exists (sales_in py) data) as [ns Hns].
    { intros row Hin. apply (Hrows row Hin). }
    destruct (coerced_exists (revenue_in py) data) as [xs Hxs].
    { intros row Hin. apply (Hrows row Hin). }
    unfold summarize_in.
    destruct (summary_body_in_coerced py data ns xs Hns Hxs)
      as [total [_ Hsummary]].
    { intros row Hin. apply (Hrows row Hin). }
    rewrite Hsummary. cbn [try_except completed]. do 2 f_equal.
    apply filter_ext. intros row. unfold counts_as_completed.
    destruct (status_in py row); [apply lower_is_completed | reflexivity].
  - intros row Hlacks. unfold counts_as_completed, status_in.
    rewrite (get_lacking _ _ _ Hlacks). reflexivity.
Qed.

Lemma C3_witness :
  completed (summarize_in (cpython true) casing_rows) = 3%Z.
Proof.
  rewrite (proj1 (C3_completed_count (cpython true) casing_rows
                    ltac:(vm_compute; discriminate))).
  reflexivity.
Defined.

(** ** Text *)

Lemma append_assoc (a b c : string) : (a ++ b) ++ c = a ++ (b ++ c).
Proof.
  induction a as [|ch a IH]; cbn; [reflexivity | rewrite IH; reflexivity].
Qed.

Lemma append_empty_r (a : string) : a ++ EmptyString = a.
Proof.
  induction a as [|ch a IH]; cbn; [reflexivity | rewrite IH; reflexivity].
Qed.

Lemma join_cons (x : string) (xs : list string) :
  join (x :: xs) = x ++ join xs.
Proof.
  unfold join. destruct xs as [|y ys]; cbn.
  - rewrite append_empty_r. reflexivity.
  - reflexivity.
Qed.

Lemma join_app (xs ys : list string) :
  join (xs ++ ys)%list = join xs ++ join ys.
Proof.
  induction xs as [|x xs IH].
  - reflexivity.
  - change ((x :: xs) ++ ys)%list with (x :: (xs ++ ys)%list).
    rewrite !join_cons, IH, append_assoc. reflexivity.
Qed.

Ltac right_nest := repeat rewrite append_assoc.

(** ** The table *)

Lemma bg_shading (i : nat) : bg i = shading i.
Proof.
  unfold bg, shading.
  destruct (Nat.even i) eqn:He.
  - apply Nat.even_spec in He. destruct He as [k ->].
    rewrite Nat.mul_comm, Nat.Div0.mod_mul. reflexivity.
  - assert (Ho : Nat.odd i = true).
    { unfold Nat.odd. rewrite He. reflexivity. }
    apply Nat.odd_spec in Ho. destruct Ho as [k ->].
    rewrite Nat.add_comm, Nat.mul_comm, Nat.Div0.mod_add. reflexivity.
Qed.

Lemma td_body_cell (v : value) : td v = body_cell (py_str v).
Proof. reflexivity. Qed.

Lemma th_header_cell (col : string) : th col = header_cell col.
Proof. reflexivity. Qed.

Lemma tr_body_row (i : nat) (row : record) :
  tr i row = body_row i (cell_texts row).
Proof.
  unfold tr, body_row, cells, cell_texts. rewrite bg_shading, map_map.
  reflexivity.
Qed.

(** The loop adds one row text per record, in order, numbered from [i]. *)
Lemma table_rows_from_rows (data : list record) :
  forall acc i,
    table_rows_from acc i data
    = acc ++ join (map (fun p => body_row (fst p) (cell_texts (snd p)))
                       (combine (seq i (List.length data)) data)).
Proof.
  induction data as [|row rest IH]; intros acc i.
  - cbn. rewrite append_empty_r. reflexivity.
  - cbn [table_rows_from List.length seq combine map].
    rewrite IH, join_cons, append_assoc, tr_body_row. reflexivity.
Qed.

Lemma table_rows_rows (data : list record) :
  table_rows data
  = join (map (fun p => body_row (fst p) (cell_texts (snd p)))
              (enumerate data)).
Proof.
  unfold table_rows, enumerate. rewrite table_rows_from_rows. reflexivity.
Qed.

Lemma enumerate_length {A : Type} (l : list A) :
  List.length (enumerate l) = List.length l.
Proof.
  unfold enumerate. rewrite length_combine, length_seq. apply Nat.min_id.
Qed.

Lemma combine_seq_nth {A : Type} (l : list A) :
  forall start i x,
    nth_error l i = Some x ->
    nth_error (combine (seq start (List.length l)) l) i
    = Some ((start + i)%nat, x).
Proof.
  induction l as [|y l IH]; intros start i x Hnth.
  - destruct i; discriminate.
  - destruct i as [|i]; cbn in *.
    + inversion Hnth. rewrite Nat.add_0_r. reflexivity.
    + rewrite (IH (S start) i x Hnth). f_equal. f_equal. lia.
Qed.

Lemma enumerate_nth {A : Type} (l : list A) (i : nat) (x : A) :
  nth_error l i = Some x -> nth_error (enumerate l) i = Some (i, x).
Proof.
  intros Hnth. unfold enumerate. rewrite (combine_seq_nth l 0 i x Hnth).
  reflexivity.
Qed.

(** ** The document *)

Lemma total_revenue_shape (data : list record) :
  total_revenue (summarize data) = NInt 0 \/
  exists x, total_revenue (summarize data) = NFloat x.
Proof.
  unfold summarize, summary_body.
  destruct (py_sum add_int sales_of 0%Z data) as [ts|]; [|left; reflexivity].
  cbn [bind].
  destruct (py_sum add_float revenue_of (NInt 0) data) as [n|] eqn:Hrev;
    [|left; reflexivity].
  cbn [bind]. rewrite py_sum_ones. cbn.
  destruct data as [|r rest].
  - inversion Hrev. left. reflexivity.
  - right. cbn [py_sum] in Hrev.
    destruct (revenue_of r) as [x|]; [|discriminate].
    cbn in Hrev. eapply py_sum_float_stays_float. exact Hrev.
Qed.

(** The revenue field never raises. *)
Lemma format_revenue_returns (data : list record) :
  exists text, format_revenue (total_revenue (summarize data)) = Some text.
Proof.
  destruct (total_revenue_shape data) as [H|[x H]]; rewrite H.
  - exists "0.00". reflexivity.
  - exists (comma_2f x). reflexivity.
Qed.

(** [build_report] returns, and what it returns is the template filled
    with the summary, the header cells and the table rows. *)
Lemma build_report_document (BUSINESS_NAME today : string)
  (data : list record) :
  exists revenue,
    format_revenue (total_revenue (summarize data)) = Some revenue /\
    build_report BUSINESS_NAME today data
    = Some (html BUSINESS_NAME today
              (PyStr.of_Z (total_sales (summarize data))) revenue
              (PyStr.of_Z (completed (summarize data)))
              (headers data) (table_rows data)).
Proof.
  destruct (format_revenue_returns data) as [text Htext].
  exists text. split; [exact Htext|].
  unfold build_report. rewrite Htext. reflexivity.
Qed.

(** The template holds one table, with the header cells in its header row
    and the table rows in its body. *)
Lemma html_contains_table (BUSINESS_NAME today sales revenue count : string) :
  exists pre post, forall head body,
    html BUSINESS_NAME today sales revenue count head body
    = pre ++ table_of head body ++ post.
Proof.
  pose (opening := "<table style=" ++ dq
    ++ "width:100%; border-collapse:collapse; font-size:13px;" ++ dq ++ ">"
    ++ nl ++ "              <thead><tr>").
  pose (closing := "</tbody>" ++ nl ++ "            </table>").
  remember (substring 0 (String.length html_after_completed
                         - String.length opening) html_after_completed)
    as lead eqn:Hlead.
  remember (substring (String.length closing)
              (String.length html_tail - String.length closing) html_tail)
    as post eqn:Hpost.
  assert (E1 : html_after_completed = lead ++
    ("<table style=" ++ dq
     ++ "width:100%; border-collapse:collapse; font-size:13px;" ++ dq ++ ">"
     ++ nl ++ "              <thead><tr>")).
  { subst lead. vm_compute. reflexivity. }
  assert (E2 : html_after_headers
               = "</tr></thead>" ++ nl ++ "              <tbody>").
  { vm_compute. reflexivity. }
  assert (E3 : html_tail
               = ("</tbody>" ++ nl ++ "            </table>") ++ post).
  { subst post. vm_compute. reflexivity. }
  exists (html_head ++ BUSINESS_NAME ++ html_after_name ++ today ++
          html_after_date ++ sales ++ html_after_sales ++ revenue ++
          html_after_revenue ++ count ++ lead), post.
  intros head body. unfold html, table_of.
  rewrite E1, E2, E3. right_nest. reflexivity.
Qed.

(** C5. For the empty record sequence the document's table has the single
    header cell "No data found" and a body without rows. *)
Theorem C5_empty_sheet (BUSINESS_NAME today : string) :
  headers [] = "<th>No data found</th>" /\
  enumerate (@nil record) = [] /\
  table_rows [] = EmptyString /\
  exists pre post,
    build_report BUSINESS_NAME today []
    = Some (pre ++ table_of "<th>No data found</th>" EmptyString ++ post).
Proof.
  repeat split.
  destruct (html_contains_table BUSINESS_NAME today "0" "0.00" "0")
    as [pre [post Hdoc]].
  exists pre, post. rewrite <- Hdoc. reflexivity.
Qed.

(** C6. The table body is one row per record, in sequence order: as many
    rows as records, the row at index [i] built from the record at index [i]
    and shaded when [i] is even, plain when [i] is odd. *)
Theorem C6_one_row_per_record (BUSINESS_NAME today : string)
  (data : list record) :
  exists pre post rows,
    build_report BUSINESS_NAME today data
    = Some (pre ++ table_of (headers data) (join rows) ++ post) /\
    List.length rows = List.length data /\
    rows = map (fun p =>
                  "<tr style='background:"
                  ++ (if Nat.even (fst p) then "#f9f7f4" else "#ffffff")
                  ++ ";'>" ++ cells (snd p) ++ "</tr>")
               (enumerate data).
Proof.
  destruct (build_report_document BUSINESS_NAME today data)
    as [revenue [_ Hdoc]].
  destruct (html_contains_table BUSINESS_NAME today
              (PyStr.of_Z (total_sales (summarize data))) revenue
              (PyStr.of_Z (completed (summarize data))))
    as [pre [post Htable]].
  exists pre, post. eexists. split; [|split; [|reflexivity]].
  - rewrite Hdoc, Htable, table_rows_rows. do 4 f_equal. unfold join. f_equal.
    apply map_ext. intros [i row]. cbn [fst snd].
    rewrite <- tr_body_row. unfold tr. rewrite bg_shading. reflexivity.
  - rewrite length_map. apply enumerate_length.
Qed.



(** C10. When the fallback triggers, the three summary fields show 0, 0.00
    and 0, and the table is what it is for any data: the header cells are
    the first record's keys and the body has one row per record with the
    records' own cell values. *)
Theorem C10_fallback_leaves_table (BUSINESS_NAME today : string)
  (data : list record) :
  summary_body data = None ->
  exists first rest,
    data = first :: rest /\
    build_report BUSINESS_NAME today data
    = Some (html BUSINESS_NAME today "0" "0.00" "0"
              (join (map header_cell (keys first)))
              (join (map (fun p =>
                            body_row (fst p) (map py_str (values (snd p))))
                         (enumerate data)))).
Proof.
  intros Hnone. destruct data as [|first rest].
  - discriminate Hnone.
  - exists first, rest. split; [reflexivity|].
    unfold build_report, summarize. rewrite Hnone.
    rewrite table_rows_rows. reflexivity.
Qed.

Lemma C10_witness :
  exists first rest,
    bad_revenue_rows = first :: rest /\
    build_report "Acme" "November 03, 2026" bad_revenue_rows
    = Some (html "Acme" "November 03, 2026" "0" "0.00" "0"
              (join (map header_cell (keys first)))
              (join (map (fun p =>
                            body_row (fst p) (map py_str (values (snd p))))
                         (enumerate bad_revenue_rows)))).
Proof.
  apply (C10_fallback_leaves_table "Acme" "November 03, 2026" bad_revenue_rows).
  vm_compute. reflexivity.
Defined.

(** ** The top-level run *)

Lemma split_unique {A : Type} (x : A) (l1 l2 pre post : list A) :
  ~ In x l1 -> ~ In x l2 ->
  (l1 ++ x :: l2 = pre ++ x :: post)%list ->
  pre = l1.
Proof.
  revert pre. induction l1 as [|a l1 IH]; intros pre Hl1 Hl2 Heq.
  - destruct pre as [|b pre]; [reflexivity|].
    cbn in Heq. inversion Heq; subst. exfalso. apply Hl2.
    apply in_or_app. right. left. reflexivity.
  - destruct pre as [|b pre]; cbn in Heq; inversion Heq; subst.
    + exfalso. apply Hl1. left. reflexivity.
    + f_equal. apply IH; [| assumption | assumption].
      intros Hin. apply Hl1. right. exact Hin.
Qed.

Module RunFacts.
Import Run.

(** The run, case by case. *)
Lemma run_fetch_fails build send_email (e : exn) :
  run_main (inl e) build send_email
  = (banner ++
     [Called Fetcher; Raised Fetcher e;
      Print (nl ++ cross ++ " Error: " ++ e);
      Print ("Check your .env file and credentials.json." ++ nl)])%list.
Proof. reflexivity. Qed.

Lemma run_build_fails build send_email (data : list record) (e : exn) :
  build data = inl e ->
  run_main (inr data) build send_email
  = (banner ++
     [Called Fetcher; Returned Fetcher; Called Builder; Raised Builder e;
      Print (nl ++ cross ++ " Error: " ++ e);
      Print ("Check your .env file and credentials.json." ++ nl)])%list.
Proof.
  intros H. unfold run_main, main_block, mbind, try_catch, call.
  cbn. rewrite H. reflexivity.
Qed.

Lemma run_send_fails build send_email (data : list record) (doc : string)
  (e : exn) :
  build data = inr doc -> send_email doc = inl e ->
  run_main (inr data) build send_email
  = (banner ++
     [Called Fetcher; Returned Fetcher; Called Builder; Returned Builder;
      Called Sender; Raised Sender e;
      Print (nl ++ cross ++ " Error: " ++ e);
      Print ("Check your .env file and credentials.json." ++ nl)])%list.
Proof.
  intros H2 H3. unfold run_main, main_block, mbind, try_catch, call.
  cbn. rewrite H2. cbn. rewrite H3. reflexivity.
Qed.

Lemma run_completes build send_email (data : list record) (doc : string)
  (u : unit) :
  build data = inr doc -> send_email doc = inr u ->
  run_main (inr data) build send_email
  = (banner ++
     [Called Fetcher; Returned Fetcher; Called Builder; Returned Builder;
      Called Sender; Returned Sender;
      Print rule;
      Print (party ++ " Done! Report sent successfully." ++ nl)])%list.
Proof.
  intros H2 H3. unfold run_main, main_block, mbind, try_catch, call.
  cbn. rewrite H2. cbn. rewrite H3. reflexivity.
Qed.

Ltac not_in_trace :=
  cbn; intros Hin;
  repeat match goal with
         | H : _ \/ _ |- _ => destruct H as [H|H]
         | H : _ = _ |- _ => discriminate H
         | H : False |- _ => destruct H
         end.

Ltac sender_in Ht :=
  match type of Ht with
  | _ = (?pre ++ ?x :: ?post)%list =>
      let Hin := fresh "Hin" in
      assert (Hin : In x (pre ++ x :: post));
      [ apply in_or_app; right; left; reflexivity
      | rewrite <- Ht in Hin; revert Hin ]
  end.

(** Before the sender is called, the fetcher and the builder have both
    returned. *)
Lemma sender_called_after get_sheet_data build send_email
  (pre post : trace) :
  run_main get_sheet_data build send_email
  = (pre ++ Called Sender :: post)%list ->
  pre = (banner ++
         [Called Fetcher; Returned Fetcher;
          Called Builder; Returned Builder])%list.
Proof.
  intros Ht.
  destruct get_sheet_data as [e|data].
  - exfalso. rewrite run_fetch_fails in Ht. sender_in Ht. not_in_trace.
  - destruct (build data) as [e|doc] eqn:Hb.
    + exfalso. rewrite (run_build_fails _ _ data e Hb) in Ht.
      sender_in Ht. not_in_trace.
    + destruct (send_email doc) as [e|u] eqn:Hs.
      * rewrite (run_send_fails _ _ data doc e Hb Hs) in Ht.
        eapply (split_unique (Called Sender)); [| | exact Ht];
          not_in_trace.
      * rewrite (run_completes _ _ data doc u Hb Hs) in Ht.
        eapply (split_unique (Called Sender)); [| | exact Ht];
          not_in_trace.
Qed.

Lemma no_send_when_fetch_fails build send_email (e : exn) :
  ~ In (Called Sender) (run_main (inl e) build send_email).
Proof. rewrite run_fetch_fails. not_in_trace. Qed.

Lemma no_send_when_build_fails build send_email (data : list record)
  (e : exn) :
  build data = inl e ->
  ~ In (Called Sender) (run_main (inr data) build send_email).
Proof. intros H. rewrite (run_build_fails _ _ data e H). not_in_trace. Qed.

Lemma sent_means_full_cycle get_sheet_data build send_email :
  In (Returned Sender) (run_main get_sheet_data build send_email) ->
  exists data doc,
    get_sheet_data = inr data /\ build data = inr doc /\
    send_email doc = inr tt.
Proof.
  intros Hin.
  destruct get_sheet_data as [e|data].
  - exfalso. rewrite run_fetch_fails in Hin. revert Hin. not_in_trace.
  - destruct (build data) as [e|doc] eqn:Hb.
    + exfalso. rewrite (run_build_fails _ _ data e Hb) in Hin.
      revert Hin. not_in_trace.
    + destruct (send_email doc) as [e|u] eqn:Hs.
      * exfalso. rewrite (run_send_fails _ _ data doc e Hb Hs) in Hin.
        revert Hin. not_in_trace.
      * exists data, doc. destruct u. repeat split; assumption.
Qed.
End RunFacts.

(** ** Numbers as text *)

Lemma digit_char_digit (d : Z) :
  (0 <= d <= 9)%Z ->
  is_digit (digit_char d) = true /\
  digit_value (digit_char d) = d /\
  Ascii.eqb (digit_char d) "-" = false.
Proof.
  intros Hd.
  assert (Hcases : (d = 0 \/ d = 1 \/ d = 2 \/ d = 3 \/ d = 4 \/ d = 5 \/
                    d = 6 \/ d = 7 \/ d = 8 \/ d = 9)%Z) by lia.
  repeat (destruct Hcases as [->|Hcases]; [repeat split|]).
  subst. repeat split.
Qed.

Lemma digit_char_nonzero (d : Z) :
  (1 <= d <= 9)%Z -> Ascii.eqb (digit_char d) "0" = false.
Proof.
  intros Hd.
  assert (Hcases : (d = 1 \/ d = 2 \/ d = 3 \/ d = 4 \/ d = 5 \/
                    d = 6 \/ d = 7 \/ d = 8 \/ d = 9)%Z) by lia.
  repeat (destruct Hcases as [->|Hcases]; [reflexivity|]).
  subst. reflexivity.
Qed.

Lemma decimal_snoc (l : list ascii) (d : ascii) :
  decimal (l ++ [d]) = (10 * decimal l + digit_value d)%Z.
Proof. unfold decimal. rewrite fold_left_app. reflexivity. Qed.

(** With fuel enough for [n], [digits_le] writes [n]: digits only, at
    least one, no zero in front, of value [n]. *)
Lemma digits_le_spec (fuel : nat) :
  forall n,
    (0 < fuel)%nat ->
    (0 <= n < 2 ^ Z.of_nat fuel)%Z ->
    forallb is_digit (digits_le fuel n) = true /\
    decimal (rev (digits_le fuel n)) = n /\
    ((n < 10)%Z -> digits_le fuel n = [digit_char n]) /\
    ((0 < n)%Z ->
     exists k r, rev (digits_le fuel n) = digit_char k :: r /\ (1 <= k <= 9)%Z).
Proof.
  induction fuel as [|fuel IH]; intros n Hfuel Hn.
  - lia.
  - cbn [digits_le]. destruct (Z.ltb_spec n 10) as [Hlt|Hge].
    + destruct (digit_char_digit n) as [Hd [Hv _]]; [lia|].
      repeat split.
      * cbn. rewrite Hd. reflexivity.
      * cbn. unfold decimal. cbn. rewrite Hv. lia.
      * intros Hpos. exists n, []. split; [reflexivity | lia].
    + assert (Hq : (0 <= n / 10 < 2 ^ Z.of_nat fuel)%Z).
      { split; [apply Z.div_pos; lia|].
        apply Z.div_lt_upper_bound; [lia|].
        rewrite Nat2Z.inj_succ, Z.pow_succ_r in Hn by lia. lia. }
      assert (Hfuel' : (0 < fuel)%nat).
      { destruct fuel; [|lia]. cbn in Hq. lia. }
      destruct (IH (n / 10)%Z Hfuel' Hq) as [Hall [Hval [_ Hlead]]].
      destruct (digit_char_digit (n mod 10)) as [Hd [Hv _]].
      { pose proof (Z.mod_pos_bound n 10). lia. }
      repeat split.
      * cbn. rewrite Hd, Hall. reflexivity.
      * cbn [rev]. rewrite decimal_snoc, Hval, Hv.
        pose proof (Z.div_mod n 10). lia.
      * intros Hlt. lia.
      * intros _. destruct Hlead as [k [r [Hrev Hk]]].
        { apply Z.div_str_pos. lia. }
        exists k, (r ++ [digit_char (n mod 10)])%list. split; [|exact Hk].
        cbn [rev]. rewrite Hrev. reflexivity.
Qed.

Lemma digits_of_fuel (n : Z) :
  (0 <= n)%Z -> (0 <= n < 2 ^ Z.of_nat (S (Z.to_nat (Z.log2 n))))%Z.
Proof.
  intros Hn. split; [exact Hn|].
  rewrite Nat2Z.inj_succ, Z2Nat.id by apply Z.log2_nonneg.
  destruct (Z.eq_dec n 0) as [->|Hnz].
  - reflexivity.
  - apply Z.log2_spec. lia.
Qed.

Lemma digits_of_spec (n : Z) :
  (0 <= n)%Z ->
  all_digits (digits_of n) = true /\
  decimal (digits_of n) = n /\
  no_leading_zero (rev (digits_of n)) = true /\
  (forall c, In c (digits_of n) -> is_digit c = true).
Proof.
  intros Hn. unfold digits_of.
  destruct (digits_le_spec _ n (Nat.lt_0_succ _) (digits_of_fuel n Hn))
    as [Hall [Hval [Hsmall Hlead]]].
  set (ds := digits_le (S (Z.to_nat (Z.log2 n))) n) in *.
  assert (Hall' : forallb is_digit (rev ds) = true).
  { apply forallb_forall. intros c Hc. apply in_rev in Hc.
    rewrite forallb_forall in Hall. apply Hall. exact Hc. }
  repeat split.
  - unfold all_digits. rewrite Hall'.
    destruct (rev ds) eqn:Hrev; [|reflexivity].
    exfalso. apply (f_equal (@List.length ascii)) in Hrev.
    rewrite length_rev in Hrev. subst ds. cbn [digits_le] in Hrev.
    destruct (n <? 10)%Z; discriminate Hrev.
  - exact Hval.
  - unfold no_leading_zero. rewrite rev_involutive.
    destruct (Z.eq_dec n 0) as [Hz|Hnz].
    + rewrite Hsmall by lia. reflexivity.
    + destruct Hlead as [k [r [Hrev Hk]]]; [lia|].
      rewrite Hrev. destruct r; [reflexivity|].
      rewrite (digit_char_nonzero k Hk). reflexivity.
  - apply forallb_forall. exact Hall'.
Qed.

(** [str] of an int reads back as a plain integer of the same value. *)
Lemma of_Z_plain (n : Z) : read_plain_int (PyStr.of_Z n) = Some n.
Proof.
  unfold read_plain_int, PyStr.of_Z. destruct n as [|p|p].
  - reflexivity.
  - rewrite list_ascii_of_string_of_list_ascii.
    destruct (digits_of_spec (Zpos p)) as [Hall [Hval [_ Hdig]]]; [lia|].
    destruct (digits_of (Zpos p)) as [|c rest] eqn:Hds; [discriminate Hall|].
    assert (Hc : Ascii.eqb c "-" = false).
    { specialize (Hdig c (or_introl eq_refl)).
      destruct (Ascii.eqb_spec c "-") as [->|]; [discriminate Hdig|reflexivity]. }
    rewrite Hc, Hall, Hval. reflexivity.
  - cbn [list_ascii_of_string]. rewrite list_ascii_of_string_of_list_ascii.
    destruct (digits_of_spec (Zpos p)) as [Hall [Hval _]]; [lia|].
    cbn [Ascii.eqb Bool.eqb]. rewrite Hall, Hval. reflexivity.
Qed.

Lemma group3_head (d : ascii) (l : list ascii) :
  exists tl, group3 (d :: l) = d :: tl.
Proof.
  destruct l as [|b [|c [|e more]]]; cbn; eexists; reflexivity.
Qed.

Lemma group3_chars (n : nat) :
  forall ds c,
    (List.length ds <= n)%nat ->
    In c (group3 ds) -> In c ds \/ c = ","%char.
Proof.
  induction n as [|n IH]; intros ds c Hlen Hin.
  - destruct ds; [destruct Hin | cbn in Hlen; lia].
  - destruct ds as [|a [|b [|c0 [|d more]]]]; try (left; exact Hin).
    change (group3 (a :: b :: c0 :: d :: more))
      with (a :: b :: c0 :: ","%char :: group3 (d :: more)) in Hin.
    destruct Hin as [<-|[<-|[<-|[<-|Hin]]]].
    + left. left. reflexivity.
    + left. right. left. reflexivity.
    + left. right. right. left. reflexivity.
    + right. reflexivity.
    + destruct (IH (d :: more) c) as [H|H]; [cbn in *; lia | exact Hin | |].
      * left. right. right. right. exact H.
      * right. exact H.
Qed.

Lemma read_groups_step (a b c d : ascii) (tl : list ascii) :
  read_groups (a :: b :: c :: ","%char :: d :: tl)
  = if is_digit a && is_digit b && is_digit c && Ascii.eqb "," ","
    then option_map (fun ds => a :: b :: c :: ds) (read_groups (d :: tl))
    else None.
Proof. reflexivity. Qed.

(** Reading the groups written by [group3] gives the digits back. *)
Lemma read_groups_group3 (n : nat) :
  forall ds,
    (List.length ds <= n)%nat ->
    ds <> [] ->
    forallb is_digit ds = true ->
    read_groups (group3 ds) = Some ds.
Proof.
  induction n as [|n IH]; intros ds Hlen Hne Hall.
  - destruct ds; [contradiction | cbn in Hlen; lia].
  - destruct ds as [|a [|b [|c [|d more]]]].
    + contradiction.
    + cbn in *. rewrite andb_true_r in Hall. rewrite Hall. reflexivity.
    + cbn in *. rewrite andb_true_r in Hall. rewrite Hall. reflexivity.
    + cbn in *. rewrite andb_true_r in Hall.
      rewrite andb_assoc in Hall. rewrite Hall. reflexivity.
    + change (group3 (a :: b :: c :: d :: more))
        with (a :: b :: c :: ","%char :: group3 (d :: more)).
      assert (Hrest : read_groups (group3 (d :: more)) = Some (d :: more)).
      { apply IH; [cbn in *; lia | discriminate |].
        cbn in Hall. cbn.
        apply andb_true_iff in Hall. destruct Hall as [_ Hall].
        apply andb_true_iff in Hall. destruct Hall as [_ Hall].
        apply andb_true_iff in Hall. destruct Hall as [_ Hall].
        exact Hall. }
      destruct (group3_head d more) as [tl Htl]. rewrite Htl in *.
      rewrite read_groups_step, Hrest. cbn in Hall.
      apply andb_true_iff in Hall. destruct Hall as [Ha Hall].
      apply andb_true_iff in Hall. destruct Hall as [Hb Hall].
      apply andb_true_iff in Hall. destruct Hall as [Hc _].
      rewrite Ha, Hb, Hc. reflexivity.
Qed.

Lemma hundredths_nonneg (x : float) : (0 <= hundredths x)%Z.
Proof.
  destruct x as [s|s| |s m e]; unfold hundredths; try lia.
  destruct (Z.leb_spec 0 e).
  - assert (0 <= 2 ^ e)%Z by (apply Z.pow_nonneg; lia). nia.
  - unfold round_half_even.
    assert (Hq : (0 <= Z.pos m * 100 / 2 ^ (- e))%Z).
    { apply Z.div_pos; [lia|]. apply Z.pow_pos_nonneg; lia. }
    destruct (2 * (Z.pos m * 100 mod 2 ^ (- e)) ?= 2 ^ (- e))%Z;
      [destruct (Z.even _)| |]; lia.
Qed.

Lemma two_digits_spec (r : Z) :
  (0 <= r < 100)%Z ->
  exists d1 d2,
    two_digits r = [d1; d2] /\
    is_digit d1 = true /\ is_digit d2 = true /\
    (digit_value d1 * 10 + digit_value d2 = r)%Z.
Proof.
  intros Hr. exists (digit_char (r / 10)), (digit_char (r mod 10)).
  destruct (digit_char_digit (r / 10)) as [H1 [V1 _]].
  { split; [apply Z.div_pos; lia|].
    assert (r / 10 < 10)%Z by (apply Z.div_lt_upper_bound; lia). lia. }
  destruct (digit_char_digit (r mod 10)) as [H2 [V2 _]].
  { pose proof (Z.mod_pos_bound r 10). lia. }
  repeat split; try assumption.
  rewrite V1, V2. pose proof (Z.div_mod r 10). lia.
Qed.

Lemma digit_not_minus (c : ascii) :
  is_digit c = true -> Ascii.eqb c "-" = false.
Proof.
  intros Hc. destruct (Ascii.eqb_spec c "-") as [->|]; [discriminate Hc|].
  reflexivity.
Qed.

(** An amount written with a sign, grouped units, a point and two decimals
    reads back as money of the same sign and value. *)
Lemma money_reads_back (neg : bool) (h : Z) :
  (0 <= h)%Z ->
  read_money
    (string_of_list_ascii
       ((if neg then ["-"%char] else []) ++
        rev (group3 (rev (digits_of (h / 100)))) ++
        "."%char :: two_digits (h mod 100)))
  = Some (neg, h).
Proof.
  intros Hh.
  assert (Hq : (0 <= h / 100)%Z) by (apply Z.div_pos; lia).
  destruct (digits_of_spec (h / 100) Hq) as [Hall [Hval [Hlead Hdig]]].
  destruct (two_digits_spec (h mod 100)) as [d1 [d2 [Htwo [H1 [H2 Hv]]]]].
  { apply Z.mod_pos_bound. lia. }
  set (ds := digits_of (h / 100)) in *.
  assert (Hne : rev ds <> []).
  { intros Hnil. apply (f_equal (@rev ascii)) in Hnil.
    rewrite rev_involutive in Hnil. rewrite Hnil in Hall. discriminate Hall. }
  assert (Hrevdig : forallb is_digit (rev ds) = true).
  { apply forallb_forall. intros c Hc. apply Hdig. apply in_rev. exact Hc. }
  assert (Hgroups : read_groups (group3 (rev ds)) = Some (rev ds)).
  { apply (read_groups_group3 (List.length (rev ds))); auto. }
  assert (Hbody : forall c,
             In c (rev (group3 (rev ds)) ++ "."%char :: two_digits (h mod 100)) ->
             Ascii.eqb c "-" = false).
  { intros c Hc. apply in_app_or in Hc. destruct Hc as [Hc|Hc].
    - apply in_rev in Hc.
      destruct (group3_chars _ _ c (Nat.le_refl _) Hc) as [Hd| ->];
        [|reflexivity].
      apply digit_not_minus. apply Hdig. apply in_rev. exact Hd.
    - rewrite Htwo in Hc. destruct Hc as [<-|[<-|[<-|[]]]];
        [reflexivity | apply digit_not_minus; exact H1
         | apply digit_not_minus; exact H2]. }
  assert (Hrev : rev (rev (group3 (rev ds)) ++ "."%char :: two_digits (h mod 100))
                 = d2 :: d1 :: "."%char :: group3 (rev ds)).
  { rewrite rev_app_distr, rev_involutive, Htwo. reflexivity. }
  assert (Hread :
    match rev (rev (group3 (rev ds)) ++ "."%char :: two_digits (h mod 100)) with
    | d2 :: d1 :: dot :: units =>
        if is_digit d2 && is_digit d1 && Ascii.eqb dot "." then
          match read_groups units with
          | Some ds =>
              if no_leading_zero ds
              then Some (neg, (decimal (rev ds) * 100
                               + digit_value d1 * 10 + digit_value d2)%Z)
              else None
          | None => None
          end
        else None
    | _ => None
    end = Some (neg, h)).
  { rewrite Hrev, H1, H2, Hgroups, Hlead, rev_involutive, Hval.
    cbn [andb Ascii.eqb Bool.eqb]. f_equal. f_equal.
    pose proof (Z.div_mod h 100). lia. }
  unfold read_money. rewrite list_ascii_of_string_of_list_ascii.
  destruct neg.
  - cbn [app Ascii.eqb Bool.eqb]. exact Hread.
  - cbn [app].
    destruct (rev (group3 (rev ds)) ++ "."%char :: two_digits (h mod 100))%list
      as [|c rest] eqn:Hchars.
    + discriminate Hread.
    + rewrite (Hbody c (or_introl eq_refl)). exact Hread.
Qed.

(** [format(x, ",.2f")] of a finite float reads back as money: the sign of
    [x] and its magnitude in hundredths. *)
Lemma comma_2f_reads_back (x : float) :
  is_finite x = true ->
  read_money (comma_2f x) = Some (is_negative x, hundredths x).
Proof.
  intros Hfin. destruct x as [s|s| |s m e]; try discriminate Hfin.
  - apply (money_reads_back s 0). lia.
  - apply (money_reads_back s (hundredths (S754_finite s m e))).
    apply hundredths_nonneg.
Qed.

Lemma comma_2f_not_finite (x : float) :
  is_finite x = false ->
  read_money (comma_2f x) = None /\
  (comma_2f x = "nan" \/ comma_2f x = "inf" \/ comma_2f x = "-inf").
Proof.
  intros Hfin. destruct x as [s|[|]| |s m e]; try discriminate Hfin;
    (split; [reflexivity|]); auto.
Qed.

(** C8 (amended). In every document the total sales and the completed count
    are written as plain integers, and the total revenue follows a dollar
    sign; when the total revenue is finite it is written as money: an
    optional minus sign, the units in groups of three digits parted by
    commas, a point and exactly two decimals, of the value of the total
    rounded to hundredths.  A total that is infinite or not a number is
    written inf, -inf or nan. *)
Theorem C8_revenue_as_currency (BUSINESS_NAME today : string)
  (data : list record) :
  exists lead revenue,
    html_after_sales = lead ++ "$" /\
    build_report BUSINESS_NAME today data
    = Some (html BUSINESS_NAME today
              (PyStr.of_Z (total_sales (summarize data))) revenue
              (PyStr.of_Z (completed (summarize data)))
              (headers data) (table_rows data)) /\
    read_plain_int (PyStr.of_Z (total_sales (summarize data)))
    = Some (total_sales (summarize data)) /\
    read_plain_int (PyStr.of_Z (completed (summarize data)))
    = Some (completed (summarize data)) /\
    match total_revenue (summarize data) with
    | NInt n => n = 0%Z /\ read_money revenue = Some (false, 0%Z)
    | NFloat x =>
        if is_finite x
        then read_money revenue = Some (is_negative x, hundredths x)
        else read_money revenue = None /\
             (revenue = "nan" \/ revenue = "inf" \/ revenue = "-inf")
    end.
Proof.
  destruct (build_report_document BUSINESS_NAME today data)
    as [revenue [Hrev Hdoc]].
  exists (substring 0 (String.length html_after_sales - 1) html_after_sales),
    revenue.
  split; [vm_compute; reflexivity|].
  split; [exact Hdoc|].
  split; [apply of_Z_plain|].
  split; [apply of_Z_plain|].
  destruct (total_revenue_shape data) as [H|[x H]]; rewrite H in *.
  - inversion Hrev. split; reflexivity.
  - inversion Hrev. destruct (is_finite x) eqn:Hfin.
    + apply comma_2f_reads_back. exact Hfin.
    + apply comma_2f_not_finite. exact Hfin.
Qed.

(** C8 as stated fails on a sheet with a Revenue cell reading nan: the
    revenue field is then the text nan, which has no decimals. *)
Lemma C8_counterexample :
  build_report "Acme" "November 03, 2026" nan_rows
  = Some (html "Acme" "November 03, 2026" "5" "nan" "1"
            (headers nan_rows) (table_rows nan_rows)) /\
  forall v, read_money "nan" <> Some v.
Proof.
  split.
  - vm_compute. reflexivity.
  - intros v. vm_compute. discriminate.
Qed.

(** ** Worked examples *)

Example revenue_1234_5 :
  option_map comma_2f (float_of_str "1234.5") = Some "1,234.50".
Proof. vm_compute. reflexivity. Qed.

Example completed_any_case :
  map is_completed
    [ [("Status", VStr "Completed")]; [("Status", VStr "COMPLETED")];
      [("Status", VStr "completed")]; [("Status", VStr "complete")];
      [("Status", VStr "pending")]; [("Item", VStr "A")];
      [("Status", VInt 1)] ]
  = [true; true; true; false; false; false; false].
Proof. vm_compute. reflexivity. Qed.

Example non_numeric_cells :
  int_of_str "n/a" = None /\ int_of_str EmptyString = None /\
  int_of_str "3.5" = None /\ float_of_str "n/a" = None /\
  float_of_str EmptyString = None /\ float_of_str "12,5" = None.
Proof. vm_compute. repeat split. Qed.

Example two_rows_summary :
  summarize two_rows
  = {| total_sales := 5;
       total_revenue := NFloat (of_decimal false 155 (-1));
       completed := 1 |}.
Proof. vm_compute. reflexivity. Qed.

Example missing_sales_is_zero :
  sales_of [("Item", VStr "A"); ("Revenue", VStr "1.5")] = Some 0%Z.
Proof. reflexivity. Qed.

Example cell_unescaped :
  cells [("Item", VStr "<b>Tom & Jerry</b>")]
  = "<td style='padding:10px 14px; border-bottom:1px solid #eee;'><b>Tom & Jerry</b></td>".
Proof. reflexivity. Qed.


(** * Further properties *)

(** ** The summary *)

Lemma readable_or_not (data : list record) :
  (exists row, In row data /\ (sales_of row = None \/ revenue_of row = None))
  \/ (forall row, In row data -> readable row).
Proof.
  induction data as [|r rest IH].
  - right. intros row [].
  - destruct (sales_of r) as [n|] eqn:Hs.
    + destruct (revenue_of r) as [x|] eqn:Hr.
      * destruct IH as [[row [Hin Hbad]]|Hall].
        -- left. exists row. split; [right; exact Hin | exact Hbad].
        -- right. intros row [<-|Hin]; [|apply Hall; exact Hin].
           unfold readable. rewrite Hs, Hr. split; discriminate.
      * left. exists r. split; [left; reflexivity | right; exact Hr].
    + left. exists r. split; [left; reflexivity | left; exact Hs].
Qed.

Lemma coerced_sales_values (data : list record) (ns : list Z) :
  coerced sales_of data ns -> ns = map sales_value data.
Proof.
  intros Hco. induction Hco as [|row n rest ns' Hrow _ IH].
  - reflexivity.
  - cbn [map]. unfold sales_value at 1. rewrite Hrow, IH. reflexivity.
Qed.

(** The summary of a sheet whose rows are all readable. *)
Lemma summary_readable (data : list record) :
  (forall row, In row data -> readable row) ->
  summary_body data <> None /\
  total_sales (summarize data) = arithmetic_sum (map sales_value data) /\
  completed (summarize data)
  = Z.of_nat (List.length (filter is_completed data)).
Proof.
  intros Hall.
  destruct (coerced_exists sales_of data) as [ns Hns].
  { intros row Hin. apply (Hall row Hin). }
  destruct (coerced_exists revenue_of data) as [xs Hxs].
  { intros row Hin. apply (Hall row Hin). }
  pose proof (summary_body_coerced data ns xs Hns Hxs) as Hbody.
  unfold summarize. rewrite Hbody. cbn.
  rewrite (coerced_sales_values data ns Hns).
  repeat split. discriminate.
Qed.

Lemma fallback_cause (data : list record) :
  summary_body data = None ->
  exists row, In row data /\ (sales_of row = None \/ revenue_of row = None).
Proof.
  intros Hnone. destruct (readable_or_not data) as [Hbad|Hall].
  - exact Hbad.
  - exfalso. apply (proj1 (summary_readable data Hall)). exact Hnone.
Qed.



Lemma arithmetic_sum_permutation (l l' : list Z) :
  Permutation l l' -> arithmetic_sum l = arithmetic_sum l'.
Proof.
  intros Hp. induction Hp; unfold arithmetic_sum in *; cbn [fold_right]; lia.
Qed.

Lemma filter_length_permutation {A : Type} (f : A -> bool) (l l' : list A) :
  Permutation l l' ->
  List.length (filter f l) = List.length (filter f l').
Proof.
  intros Hp. induction Hp; cbn [filter].
  - reflexivity.
  - destruct (f x); cbn [List.length]; lia.
  - destruct (f x), (f y); reflexivity.
  - lia.
Qed.

(** X2. The order of the rows does not matter to the total sales, to the
    completed count, or to whether the fallback triggers. *)
Theorem X2_row_order_irrelevant (data data' : list record) :
  Permutation data data' ->
  total_sales (summarize data) = total_sales (summarize data') /\
  completed (summarize data) = completed (summarize data') /\
  (summary_body data = None <-> summary_body data' = None).
Proof.
  intros Hp.
  assert (Hfall : forall d d', Permutation d d' ->
            summary_body d = None -> summary_body d' = None).
  { intros d d' Hdd Hnone.
    destruct (fallback_cause d Hnone) as [row [Hin Hbad]].
    pose proof (Permutation_in row Hdd Hin) as Hin'.
    unfold summary_body. destruct Hbad as [Hs|Hr].
    - rewrite (py_sum_raises _ _ _ _ _ Hin' Hs). reflexivity.
    - destruct (py_sum add_int sales_of 0%Z d'); cbn [bind]; [|reflexivity].
      rewrite (py_sum_raises _ _ _ _ _ Hin' Hr). reflexivity. }
  destruct (readable_or_not data) as [[row [Hin Hbad]]|Hall].
  - assert (Hnone : summary_body data = None).
    { destruct (summary_body data) eqn:Hb; [|reflexivity].
      exfalso. assert (Hne : summary_body data <> None) by (rewrite Hb; discriminate).
      destruct (summary_body_returns data Hne row Hin) as [Hs Hr].
      destruct Hbad; contradiction. }
    pose proof (Hfall data data' Hp Hnone) as Hnone'.
    unfold summarize. rewrite Hnone, Hnone'. repeat split; auto.
  - assert (Hall' : forall row, In row data' -> readable row).
    { intros row Hin. apply Hall.
      apply (Permutation_in row (Permutation_sym Hp) Hin). }
    destruct (summary_readable data Hall) as [Hb [Hts Hc]].
    destruct (summary_readable data' Hall') as [Hb' [Hts' Hc']].
    rewrite Hts, Hts', Hc, Hc'. repeat split.
    + apply arithmetic_sum_permutation. apply Permutation_map. exact Hp.
    + f_equal. apply filter_length_permutation. exact Hp.
    + intros H. contradiction.
    + intros H. contradiction.
Qed.

Lemma X2_witness :
  total_sales (summarize two_rows) = total_sales (summarize (rev two_rows)) /\
  completed (summarize two_rows) = completed (summarize (rev two_rows)) /\
  (summary_body two_rows = None <-> summary_body (rev two_rows) = None).
Proof.
  apply (X2_row_order_irrelevant two_rows (rev two_rows)).
  apply Permutation_rev.
Defined.

Lemma arithmetic_sum_app (l l' : list Z) :
  arithmetic_sum (l ++ l') = (arithmetic_sum l + arithmetic_sum l')%Z.
Proof.
  induction l as [|n l IH]; unfold arithmetic_sum in *; cbn [app fold_right].
  - lia.
  - rewrite IH. lia.
Qed.

(** X3. Two sheets put end to end: when the summary of the whole does not
    fall back, neither part's does, and the total sales and the completed
    count of the whole are the sums of the parts'. *)
Theorem X3_summary_of_concatenation (d1 d2 : list record) :
  summary_body (d1 ++ d2) <> None ->
  summary_body d1 <> None /\ summary_body d2 <> None /\
  total_sales (summarize (d1 ++ d2))
  = (total_sales (summarize d1) + total_sales (summarize d2))%Z /\
  completed (summarize (d1 ++ d2))
  = (completed (summarize d1) + completed (summarize d2))%Z.
Proof.
  intros Hbody.
  pose proof (summary_body_returns (d1 ++ d2) Hbody) as Hall.
  assert (H1 : forall row, In row d1 -> readable row).
  { intros row Hin. apply Hall. apply in_or_app. left. exact Hin. }
  assert (H2 : forall row, In row d2 -> readable row).
  { intros row Hin. apply Hall. apply in_or_app. right. exact Hin. }
  destruct (summary_readable (d1 ++ d2) Hall) as [_ [Hts Hc]].
  destruct (summary_readable d1 H1) as [Hb1 [Hts1 Hc1]].
  destruct (summary_readable d2 H2) as [Hb2 [Hts2 Hc2]].
  rewrite Hts, Hts1, Hts2, Hc, Hc1, Hc2.
  rewrite map_app, arithmetic_sum_app, filter_app, length_app.
  repeat split; try assumption. lia.
Qed.

Lemma X3_witness :
  summary_body two_rows <> None /\ summary_body nan_rows <> None /\
  total_sales (summarize (two_rows ++ nan_rows))
  = (total_sales (summarize two_rows) + total_sales (summarize nan_rows))%Z /\
  completed (summarize (two_rows ++ nan_rows))
  = (completed (summarize two_rows) + completed (summarize nan_rows))%Z.
Proof.
  apply (X3_summary_of_concatenation two_rows nan_rows).
  vm_compute. discriminate.
Defined.

Lemma get_first (row : record) (key : string) (v default : value) :
  get ((key, v) :: row) key default = v.
Proof. cbn [get]. rewrite String.eqb_refl. reflexivity. Qed.

Lemma add_zeros (n : nat) : fold_left add (repeat zero n) zero = zero.
Proof. induction n as [|n IH]; [reflexivity | exact IH]. Qed.

(** X4. A sheet that has none of the columns Sales, Revenue and Status is
    summarised without any fallback as 0 sales, revenue 0.00 and 0
    completed: a missing cell counts as 0, and as not completed. *)
Theorem X4_sheet_without_the_columns (data : list record) :
  (forall row, In row data ->
     lacks "Sales" row /\ lacks "Revenue" row /\ lacks "Status" row) ->
  summary_body data <> None /\
  total_sales (summarize data) = 0%Z /\
  format_revenue (total_revenue (summarize data)) = Some "0.00" /\
  completed (summarize data) = 0%Z.
Proof.
  intros Hlack.
  assert (Hs : coerced sales_of data (repeat 0%Z (List.length data))).
  { unfold coerced. induction data as [|r rest IH]; [constructor|].
    cbn [List.length repeat]. constructor.
    - destruct (Hlack r (or_introl eq_refl)) as [H _].
      unfold sales_of. rewrite (get_lacking _ _ _ H). reflexivity.
    - apply IH. intros row Hin. apply Hlack. right. exact Hin. }
  assert (Hr : coerced revenue_of data (repeat zero (List.length data))).
  { clear Hs. unfold coerced. induction data as [|r rest IH]; [constructor|].
    cbn [List.length repeat]. constructor.
    - destruct (Hlack r (or_introl eq_refl)) as [_ [H _]].
      unfold revenue_of. rewrite (get_lacking _ _ _ H). reflexivity.
    - apply IH. intros row Hin. apply Hlack. right. exact Hin. }
  assert (Hc : filter is_completed data = []).
  { clear Hs Hr. induction data as [|r rest IH]; [reflexivity|].
    destruct (Hlack r (or_introl eq_refl)) as [_ [_ H]].
    cbn [filter]. unfold is_completed at 1.
    rewrite (get_lacking _ _ _ H).
    cbn. apply IH. intros row Hin. apply Hlack. right. exact Hin. }
  pose proof (summary_body_coerced data _ _ Hs Hr) as Hbody.
  unfold summarize. rewrite Hbody, Hc. cbn.
  split; [discriminate|]. split; [|split; [|reflexivity]].
  - clear. induction (List.length data) as [|n IH]; [reflexivity|].
    unfold arithmetic_sum in *. cbn [repeat fold_right]. rewrite IH. reflexivity.
  - destruct data as [|r rest]; [reflexivity|].
    unfold float_sum. cbn [List.length repeat].
    change (fold_left add (zero :: repeat zero (List.length rest)) zero)
      with (fold_left add (repeat zero (List.length rest)) zero).
    rewrite add_zeros. reflexivity.
Qed.

Lemma X4_witness :
  summary_body item_only_rows <> None /\
  total_sales (summarize item_only_rows) = 0%Z /\
  format_revenue (total_revenue (summarize item_only_rows)) = Some "0.00" /\
  completed (summarize item_only_rows) = 0%Z.
Proof.
  apply (X4_sheet_without_the_columns item_only_rows).
  intros row [<-|[<-|[]]]; unfold lacks; cbn;
    repeat split; intros H;
    repeat (destruct H as [H|H]; [discriminate H|]); exact H.
Defined.

(** X5. The completed count lies between 0 and the number of rows, whatever
    the sheet holds. *)
Theorem X5_completed_within_bounds (data : list record) :
  (0 <= completed (summarize data) <= Z.of_nat (List.length data))%Z.
Proof.
  destruct (summary_body data) as [s|] eqn:Hbody.
  - assert (Hne : summary_body data <> None) by (rewrite Hbody; discriminate).
    destruct (summary_readable data (summary_body_returns data Hne))
      as [_ [_ Hc]].
    rewrite Hc. pose proof (filter_length_le is_completed data). lia.
  - unfold summarize. rewrite Hbody. cbn. lia.
Qed.

(** ** The document, further *)

(** *** The builder under given conversions *)

Lemma str_in_text (py : interpreter) (v : value) :
  writes_decimal py ->
  forall t, str_in py v = Some t -> t = py_str v.
Proof.
  intros Hw t. destruct v as [s|n|x]; cbn [str_in py_str].
  - intros H. inversion H. reflexivity.
  - apply Hw.
  - intros H. inversion H. reflexivity.
Qed.

Lemma each_td_in (py : interpreter) (vs : list value) :
  writes_decimal py ->
  (each (td_in py) vs = None <->
   exists v, In v vs /\ str_in py v = None) /\
  (forall parts, each (td_in py) vs = Some parts -> parts = map td vs).
Proof.
  intros Hw. induction vs as [|v vs [IHnone IHsome]].
  - split; [split; [discriminate | intros [v [[] _]]]|].
    intros parts H. inversion H. reflexivity.
  - cbn [each]. unfold td_in at 1 3.
    destruct (str_in py v) as [t|] eqn:Hv; cbn [bind ret].
    + pose proof (str_in_text py v Hw t Hv) as Ht. subst t.
      destruct (each (td_in py) vs) as [parts|] eqn:Hvs; cbn [bind ret].
      * split.
        -- split; [discriminate|]. intros [u [[<-|Hin] Hu]].
           ++ rewrite Hv in Hu. discriminate Hu.
           ++ assert (Hcontra : Some parts = None).
              { apply IHnone. exists u. split; assumption. }
              discriminate Hcontra.
        -- intros ps H. inversion H. rewrite (IHsome parts eq_refl).
           reflexivity.
      * split; [split; [|reflexivity] | discriminate].
        intros _. destruct (proj1 IHnone eq_refl) as [u [Hin Hu]].
        exists u. split; [right; exact Hin | exact Hu].
    + split; [split; [|reflexivity] | discriminate].
      intros _. exists v. split; [left; reflexivity | exact Hv].
Qed.

Lemma cells_in_cells (py : interpreter) (row : record) :
  writes_decimal py ->
  (cells_in py row = None <->
   exists v, In v (values row) /\ str_in py v = None) /\
  (forall c, cells_in py row = Some c -> c = cells row).
Proof.
  intros Hw. unfold cells_in, cells.
  destruct (each_td_in py (values row) Hw) as [Hnone Hsome].
  destruct (each (td_in py) (values row)) as [parts|]; cbn [bind ret].
  - split; [split; [discriminate|]|].
    + intros H. apply Hnone in H. discriminate H.
    + intros c H. inversion H. rewrite (Hsome parts eq_refl). reflexivity.
  - split; [split; [intros _; apply Hnone | ]; reflexivity | discriminate].
Qed.

(** The loop raises exactly when some cell cannot be written, and
    otherwise builds the rows of [table_rows_from]. *)
Lemma table_rows_from_in_rows (py : interpreter) (data : list record) :
  writes_decimal py ->
  forall acc i,
    (table_rows_from_in py acc i data = None <->
     exists row v,
       In row data /\ In v (values row) /\ str_in py v = None) /\
    (forall t,
        table_rows_from_in py acc i data = Some t ->
        t = table_rows_from acc i data).
Proof.
  intros Hw. induction data as [|row rest IH]; intros acc i.
  - split; [split; [discriminate | intros [row [v [[] _]]]]|].
    intros t H. inversion H. reflexivity.
  - cbn [table_rows_from_in table_rows_from].
    destruct (cells_in_cells py row Hw) as [Hnone Hsome].
    destruct (cells_in py row) as [c|]; cbn [bind].
    + rewrite (Hsome c eq_refl).
      change ("<tr style='background:" ++ bg i ++ ";'>" ++ cells row ++ "</tr>")
        with (tr i row).
      destruct (IH (acc ++ tr i row) (S i)) as [IHnone IHsome].
      split; [split|].
      * intros H. destruct (proj1 IHnone H) as [r [v [Hr Hv]]].
        exists r, v. split; [right; exact Hr | exact Hv].
      * intros [r [v [[<-|Hr] [Hin Hv]]]].
        -- assert (Hcontra : @Some string c = None).
           { apply Hnone. exists v. split; assumption. }
           discriminate Hcontra.
        -- apply IHnone. exists r, v. repeat split; assumption.
      * exact IHsome.
    + split; [split; [|reflexivity] | discriminate].
      intros _. destruct (proj1 Hnone eq_refl) as [v [Hin Hv]].
      exists row, v. repeat split; [left; reflexivity | exact Hin | exact Hv].
Qed.

Lemma get_in_values (row : record) (key : string) (default : value) :
  get row key default = default \/ In (get row key default) (values row).
Proof.
  induction row as [|[k v] rest IH]; [left; reflexivity|].
  cbn [get values map snd]. destruct (String.eqb k key).
  - right. left. reflexivity.
  - destruct IH as [IH|IH]; [left; exact IH | right; right; exact IH].
Qed.

Lemma py_sum_ext {A N : Type} (plus : N -> A -> Exc N)
  (item item' : record -> Exc A) (data : list record) :
  (forall row, item row = item' row) ->
  forall acc, py_sum plus item acc data = py_sum plus item' acc data.
Proof.
  intros Hext. induction data as [|r rest IH]; intros acc; [reflexivity|].
  cbn [py_sum]. rewrite Hext. destruct (item' r) as [x|]; cbn [bind];
    [|reflexivity].
  destruct (plus acc x) as [acc'|]; cbn [bind]; [apply IH | reflexivity].
Qed.

(** On a sheet whose cells can all be written, the summary under
    conversions that read as [int_of_str] and [float_of_str] and add
    floats one after the other is the summary of [summarize]. *)
Lemma summarize_in_summarize (py : interpreter) (data : list record) :
  writes_decimal py -> reads_plainly py ->
  (forall row v, In row data -> In v (values row) -> str_in py v <> None) ->
  summarize_in py data = summarize data.
Proof.
  intros Hw [Hint [Hfloat Hplain]] Hcells.
  unfold summarize_in, summarize. f_equal.
  unfold summary_body_in, summary_body, sum_floats_in. rewrite Hplain.
  rewrite (py_sum_ext add_int (sales_in py) sales_of data)
    by (intros row; unfold sales_in, sales_of;
        destruct (get row "Sales" (VInt 0)); cbn [int_in py_int];
        [apply Hint | reflexivity | reflexivity]).
  rewrite (py_sum_ext add_float (revenue_in py) revenue_of data)
    by (intros row; unfold revenue_in, revenue_of;
        destruct (get row "Revenue" (VInt 0)); cbn [float_in py_float];
        [apply Hfloat | reflexivity | reflexivity]).
  rewrite (py_count_counts (completed_in py) is_completed data 0%Z),
    py_sum_ones; [reflexivity|].
  intros row Hin. unfold completed_in, status_in, is_completed.
  destruct (str_in py (get row "Status" (VStr EmptyString))) as [t|] eqn:Ht.
  - rewrite (str_in_text py _ Hw t Ht). reflexivity.
  - exfalso. destruct (get_in_values row "Status" (VStr EmptyString)) as [H|H].
    + rewrite H in Ht. discriminate Ht.
    + exact (Hcells row _ Hin H Ht).
Qed.

(** A document returned under such conversions is the document of
    [build_report]. *)
Lemma build_report_in_document (py : interpreter)
  (BUSINESS_NAME today : string) (data : list record) (doc : string) :
  writes_decimal py -> reads_plainly py ->
  build_report_in py BUSINESS_NAME today data = Some doc ->
  build_report BUSINESS_NAME today data = Some doc.
Proof.
  intros Hw Hr. unfold build_report_in.
  destruct (table_rows_from_in_rows py data Hw EmptyString 0)
    as [Hnone Hsome].
  destruct (table_rows_from_in py EmptyString 0 data) as [rows|] eqn:Hrows;
    cbn [bind]; [|discriminate].
  assert (Hcells : forall row v,
            In row data -> In v (values row) -> str_in py v <> None).
  { intros row v Hrow Hv Hbad.
    assert (Hcontra : @Some string rows = None).
    { apply Hnone. exists row, v. repeat split; assumption. }
    discriminate Hcontra. }
  rewrite (summarize_in_summarize py data Hw Hr Hcells).
  rewrite (Hsome rows eq_refl). fold (table_rows data). unfold build_report.
  destruct (text_of_int py (total_sales (summarize data))) as [sales|] eqn:Hs;
    cbn [bind]; [|discriminate].
  rewrite (Hw _ _ Hs).
  destruct (format_revenue (total_revenue (summarize data))) as [revenue|];
    cbn [bind]; [|discriminate].
  destruct (text_of_int py (completed (summarize data))) as [count|] eqn:Hc;
    cbn [bind]; [|discriminate].
  rewrite (Hw _ _ Hc). intros H. exact H.
Qed.

(** With integers of any length written, the summary and the builder
    under conversions are [summarize] and [build_report]. *)
Lemma unlimited_str_writes :
  writes_decimal unlimited_str /\ reads_plainly unlimited_str /\
  forall v, str_in unlimited_str v <> None.
Proof.
  split; [|split].
  - intros n t H. inversion H. reflexivity.
  - repeat split.
  - intros [s|n|x]; discriminate.
Qed.

Lemma summarize_in_unlimited (data : list record) :
  summarize_in unlimited_str data = summarize data.
Proof.
  destruct unlimited_str_writes as [Hw [Hr Hall]].
  apply (summarize_in_summarize unlimited_str data Hw Hr).
  intros row v _ _. apply Hall.
Qed.

Lemma build_report_in_unlimited (BUSINESS_NAME today : string)
  (data : list record) :
  build_report_in unlimited_str BUSINESS_NAME today data
  = build_report BUSINESS_NAME today data.
Proof.
  destruct unlimited_str_writes as [Hw [Hr Hall]].
  destruct (build_report_in unlimited_str BUSINESS_NAME today data)
    as [doc|] eqn:Hdoc.
  - symmetry. apply (build_report_in_document unlimited_str _ _ _ doc Hw Hr).
    exact Hdoc.
  - exfalso. unfold build_report_in in Hdoc.
    destruct (table_rows_from_in_rows unlimited_str data Hw EmptyString 0)
      as [Hnone _].
    destruct (table_rows_from_in unlimited_str EmptyString 0 data)
      as [rows|] eqn:Hrows.
    + cbn [bind unlimited_str text_of_int ret] in Hdoc.
      rewrite summarize_in_unlimited in Hdoc.
      destruct (format_revenue_returns data) as [revenue Hrev].
      rewrite Hrev in Hdoc. discriminate Hdoc.
    + destruct (proj1 Hnone eq_refl) as [row [v [_ [_ Hbad]]]].
      exact (Hall v Hbad).
Qed.

(** The revenue field never raises. *)
Lemma format_revenue_returns_in (py : interpreter) (data : list record) :
  exists text, format_revenue (total_revenue (summarize_in py data)) = Some text.
Proof.
  unfold summarize_in, summary_body_in.
  destruct (py_sum add_int (sales_in py) 0%Z data); cbn [bind];
    [|exists "0.00"; reflexivity].
  destruct (sum_floats_in py (revenue_in py) data) as [n|] eqn:Hsum;
    cbn [bind]; [|exists "0.00"; reflexivity].
  destruct (py_count (completed_in py) 0%Z data); cbn [bind];
    [|exists "0.00"; reflexivity].
  destruct (sum_floats_in_shape _ _ _ _ Hsum) as [->|[x ->]];
    eexists; reflexivity.
Qed.

Lemma limit_writes_decimal (py : interpreter) :
  writes_with_limit py -> writes_decimal py.
Proof.
  intros Hl n t. rewrite Hl.
  destruct (Z.abs n <? 10 ^ 4300)%Z; [|discriminate].
  intros H. inversion H. reflexivity.
Qed.

Lemma text_of_int_limit (py : interpreter) (n : Z) :
  writes_with_limit py ->
  (text_of_int py n = None <-> (10 ^ 4300 <= Z.abs n)%Z).
Proof.
  intros Hl. rewrite Hl.
  destruct (Z.ltb_spec (Z.abs n) (10 ^ 4300)) as [Hlt|Hge]; split.
  - discriminate.
  - intros Hbig. exfalso. apply (Z.lt_irrefl (Z.abs n)).
    eapply Z.lt_le_trans; eassumption.
  - intros _. exact Hge.
  - reflexivity.
Qed.

Lemma str_in_limit (py : interpreter) (v : value) :
  writes_with_limit py ->
  (str_in py v = None <->
   exists n, v = VInt n /\ (10 ^ 4300 <= Z.abs n)%Z).
Proof.
  intros Hl. destruct v as [s|n|x]; cbn [str_in].
  - split; [discriminate | intros [n [H _]]; discriminate H].
  - rewrite (text_of_int_limit py n Hl). split.
    + intros Hbig. exists n. split; [reflexivity | exact Hbig].
    + intros [m [Hm Hbig]]. inversion Hm. exact Hbig.
  - split; [discriminate | intros [n [H _]]; discriminate H].
Qed.

(** X6. Under conversions that write integers with the default limit of
    4300 digits (whatever they read, and with either sum of floats),
    [build_report] raises exactly when an integer it has to write has more
    than 4300 digits: the total sales, the completed count, or an integer
    cell of the sheet.  When such conversions read as [int_of_str] and
    [float_of_str] and add floats one after the other, a document returned
    is the document of [build_report]. *)
Theorem X6_build_report_raises_on_long_integers (py : interpreter)
  (BUSINESS_NAME today : string) (data : list record) :
  writes_with_limit py ->
  (build_report_in py BUSINESS_NAME today data = None <->
   (10 ^ 4300 <= Z.abs (total_sales (summarize_in py data)))%Z \/
   (10 ^ 4300 <= Z.abs (completed (summarize_in py data)))%Z \/
   exists row n,
     In row data /\ In (VInt n) (values row) /\ (10 ^ 4300 <= Z.abs n)%Z) /\
  (reads_plainly py ->
   forall doc,
     build_report_in py BUSINESS_NAME today data = Some doc ->
     build_report BUSINESS_NAME today data = Some doc).
Proof.
  intros Hl. pose proof (limit_writes_decimal py Hl) as Hw. split.
  - unfold build_report_in.
    destruct (table_rows_from_in_rows py data Hw EmptyString 0) as [Hnone _].
    destruct (table_rows_from_in py EmptyString 0 data) as [rows|] eqn:Hrows;
      cbn [bind].
    + pose proof (text_of_int_limit py (total_sales (summarize_in py data)) Hl)
        as Hsn.
      pose proof (text_of_int_limit py (completed (summarize_in py data)) Hl)
        as Hcn.
      destruct (format_revenue_returns_in py data) as [revenue Hrev].
      rewrite Hrev.
      destruct (text_of_int py (total_sales (summarize_in py data)))
        as [sales|]; cbn [bind].
      * destruct (text_of_int py (completed (summarize_in py data)))
          as [count|]; cbn [bind].
        -- split; [discriminate|].
           intros [H|[H|[row [n [Hr [Hv Hbig]]]]]].
           ++ apply Hsn in H. discriminate H.
           ++ apply Hcn in H. discriminate H.
           ++ exfalso.
              assert (Hcontra : @Some string rows = None).
              { apply Hnone. exists row, (VInt n).
                repeat split; [exact Hr | exact Hv |].
                apply (str_in_limit py (VInt n) Hl).
                exists n. split; [reflexivity | exact Hbig]. }
              discriminate Hcontra.
        -- split; [|reflexivity].
           intros _. right. left. apply Hcn. reflexivity.
      * split; [|reflexivity].
        intros _. left. apply Hsn. reflexivity.
    + split; [|reflexivity].
      intros _. right. right.
      destruct (proj1 Hnone eq_refl) as [row [v [Hr [Hv Hbad]]]].
      destruct (proj1 (str_in_limit py v Hl) Hbad) as [n [-> Hbig]].
      exists row, n. repeat split; assumption.
  - intros Hr doc. apply build_report_in_document; assumption.
Qed.

Lemma X6_witness :
  build_report_in (cpython false) "Acme" "November 03, 2026" two_rows
  = build_report "Acme" "November 03, 2026" two_rows /\
  build_report_in (cpython true) "Acme" "November 03, 2026" long_total_rows
  = None.
Proof.
  split.
  - destruct (build_report_in (cpython false) "Acme" "November 03, 2026"
                two_rows) as [doc|] eqn:Hdoc.
    + symmetry.
      apply (proj2 (X6_build_report_raises_on_long_integers
                      (cpython false) "Acme" "November 03, 2026" two_rows
                      (fun n => eq_refl))
               (conj (fun s => eq_refl) (conj (fun s => eq_refl) eq_refl))
               doc Hdoc).
    + vm_compute in Hdoc. discriminate Hdoc.
  - apply (proj2 (proj1 (X6_build_report_raises_on_long_integers
                           (cpython true) "Acme" "November 03, 2026"
                           long_total_rows (fun n => eq_refl)))).
    left. vm_compute. discriminate.
Defined.

(** ** The table, further *)

Lemma table_rows_from_acc (data : list record) (acc : string) (i : nat) :
  table_rows_from acc i data = acc ++ rows_from i data.
Proof.
  unfold rows_from. rewrite !table_rows_from_rows. reflexivity.
Qed.

Lemma table_rows_from_app (d1 d2 : list record) :
  forall acc i,
    table_rows_from acc i (d1 ++ d2)
    = table_rows_from (table_rows_from acc i d1) (i + List.length d1) d2.
Proof.
  induction d1 as [|row rest IH]; intros acc i.
  - cbn. rewrite Nat.add_0_r. reflexivity.
  - cbn [app table_rows_from List.length]. rewrite IH.
    rewrite Nat.add_succ_r. reflexivity.
Qed.

Lemma table_rows_from_two (data : list record) :
  forall acc i,
    table_rows_from acc (S (S i)) data = table_rows_from acc i data.
Proof.
  induction data as [|row rest IH]; intros acc i.
  - reflexivity.
  - cbn [table_rows_from]. rewrite IH.
    assert (Htr : tr (S (S i)) row = tr i row).
    { unfold tr. rewrite !bg_shading. reflexivity. }
    rewrite Htr. reflexivity.
Qed.

Lemma rows_from_even (data : list record) (n : nat) :
  Nat.even n = true -> rows_from n data = table_rows data.
Proof.
  intros He. apply Nat.even_spec in He. destruct He as [k ->].
  unfold rows_from, table_rows. induction k as [|k IH].
  - reflexivity.
  - replace (2 * S k)%nat with (S (S (2 * k))) by lia.
    rewrite table_rows_from_two. exact IH.
Qed.

(** X7. Rows added at the end of a sheet leave the text of the earlier
    rows as it was: the rows of both parts are the rows of the first part
    followed by the rows of the second, numbered on from the first part's
    length; after an even number of rows the second part is rendered as it
    is on its own. *)
Theorem X7_rows_of_concatenation (d1 d2 : list record) :
  table_rows (d1 ++ d2) = table_rows d1 ++ rows_from (List.length d1) d2 /\
  (Nat.even (List.length d1) = true ->
   table_rows (d1 ++ d2) = table_rows d1 ++ table_rows d2).
Proof.
  assert (H : table_rows (d1 ++ d2)
              = table_rows d1 ++ rows_from (List.length d1) d2).
  { unfold table_rows. rewrite table_rows_from_app, table_rows_from_acc.
    reflexivity. }
  split; [exact H|].
  intros He. rewrite H, (rows_from_even d2 _ He). reflexivity.
Qed.

Lemma X7_witness :
  table_rows (two_rows ++ nan_rows) = table_rows two_rows ++ table_rows nan_rows.
Proof.
  apply (proj2 (X7_rows_of_concatenation two_rows nan_rows)). reflexivity.
Defined.

(** ** Status texts *)

Lemma lower_upper_char (c : ascii) :
  lower_char (upper_char c) = lower_char c /\
  lower_char (lower_char c) = lower_char c.
Proof.
  destruct c as [[|] [|] [|] [|] [|] [|] [|] [|]]; split; reflexivity.
Qed.

Lemma lower_upper (s : string) :
  lower (upper s) = lower s /\ lower (lower s) = lower s.
Proof.
  induction s as [|c s [IH1 IH2]]; [split; reflexivity|].
  cbn [upper lower].
  rewrite (proj1 (lower_upper_char c)), (proj2 (lower_upper_char c)), IH1, IH2.
  split; reflexivity.
Qed.

(** X8. Whether a row counts as completed does not depend on the letter
    case of its Status text: the text in upper case or in lower case counts
    exactly when the text itself does. *)
Theorem X8_status_ignores_case (s : string) (rest : record) :
  is_completed (("Status", VStr (upper s)) :: rest)
  = is_completed (("Status", VStr s) :: rest) /\
  is_completed (("Status", VStr (lower s)) :: rest)
  = is_completed (("Status", VStr s) :: rest).
Proof.
  unfold is_completed. rewrite !get_first. cbn [py_str].
  rewrite (proj1 (lower_upper s)), (proj2 (lower_upper s)).
  split; reflexivity.
Qed.

(** ** Reading cell texts *)

Lemma digit_is_plain (c : ascii) :
  is_digit c = true ->
  is_space c = false /\ is_underscore c = false /\
  (code c =? 45)%Z = false /\ (code c =? 43)%Z = false.
Proof.
  destruct c as [[|] [|] [|] [|] [|] [|] [|] [|]]; intros H;
    try discriminate H; repeat split.
Qed.

Lemma strip_unchanged (l m m' : list ascii) (a b : ascii) :
  l = a :: m -> rev l = b :: m' ->
  is_space a = false -> is_space b = false ->
  strip l = l.
Proof.
  intros Hl Hrev Ha Hb. unfold strip.
  assert (H1 : lstrip l = l) by (rewrite Hl; cbn; rewrite Ha; reflexivity).
  rewrite H1, Hrev. cbn [lstrip]. rewrite Hb, <- Hrev.
  apply rev_involutive.
Qed.

Lemma drop_underscores_digits (ds : list ascii) :
  forall prev,
    forallb is_digit ds = true ->
    match prev with Some p => is_digit p = true | None => True end ->
    drop_underscores prev ds = Some ds.
Proof.
  induction ds as [|c rest IH]; intros prev Hall Hprev.
  - destruct prev as [p|]; [|reflexivity].
    cbn. destruct (digit_is_plain p Hprev) as [_ [Hu _]]. rewrite Hu.
    reflexivity.
  - cbn in Hall. apply andb_true_iff in Hall. destruct Hall as [Hc Hrest].
    destruct (digit_is_plain c Hc) as [_ [Hu _]].
    cbn [drop_underscores]. rewrite Hu.
    rewrite (IH (Some c) Hrest Hc).
    destruct prev as [p|]; [|reflexivity].
    rewrite Hc. cbn [negb]. rewrite andb_false_r. reflexivity.
Qed.

Lemma digits_strip (ds : list ascii) :
  all_digits ds = true ->
  strip ds = ds /\ strip ("-"%char :: ds) = "-"%char :: ds /\
  forallb is_digit ds = true /\
  exists a m, ds = a :: m /\ is_digit a = true.
Proof.
  intros Hall. unfold all_digits in Hall.
  destruct ds as [|a m]; [discriminate Hall|].
  assert (Ha : is_digit a = true).
  { cbn in Hall. apply andb_true_iff in Hall. apply Hall. }
  destruct (rev (a :: m)) as [|b m'] eqn:Hrev.
  { apply (f_equal (@List.length ascii)) in Hrev.
    rewrite length_rev in Hrev. discriminate Hrev. }
  assert (Hb : is_digit b = true).
  { rewrite forallb_forall in Hall. apply Hall. apply in_rev.
    rewrite Hrev. left. reflexivity. }
  repeat split.
  - apply (strip_unchanged _ m m' a b eq_refl Hrev);
      [apply (digit_is_plain a Ha) | apply (digit_is_plain b Hb)].
  - apply (strip_unchanged _ (a :: m) (m' ++ ["-"%char]) "-"%char b eq_refl).
    + change (rev ("-"%char :: a :: m))
        with (rev (a :: m) ++ ["-"%char])%list.
      rewrite Hrev. reflexivity.
    + reflexivity.
    + apply (digit_is_plain b Hb).
  - exact Hall.
  - exists a, m. split; [reflexivity | exact Ha].
Qed.

Lemma length_list_ascii (s : string) :
  List.length (list_ascii_of_string s) = String.length s.
Proof. induction s as [|c s IH]; cbn; [reflexivity | rewrite IH; reflexivity]. Qed.

(** A plain decimal numeral within the digit limit is read by [int] at its
    value. *)
Lemma int_of_str_plain (s : string) (n : Z) :
  read_plain_int s = Some n ->
  (String.length s <= 4300)%nat ->
  int_of_str s = Some n.
Proof.
  unfold read_plain_int, int_of_str. rewrite <- length_list_ascii.
  destruct (list_ascii_of_string s) as [|c rest]; [discriminate|].
  intros Hread Hlen. cbn [List.length] in Hlen.
  destruct (Ascii.eqb_spec c "-") as [->|Hc].
  - destruct (all_digits rest) eqn:Hall; [|discriminate Hread].
    destruct (digits_strip _ Hall) as [_ [Hstrip [Hfor _]]].
    rewrite Hstrip. cbn [split_sign].
    change (code "-" =? 45)%Z with true. cbn iota.
    rewrite (drop_underscores_digits _ None Hfor I), Hall.
    replace (Z.of_nat (List.length rest) <=? int_max_str_digits)%Z
      with true by (symmetry; apply Z.leb_le; unfold int_max_str_digits; lia).
    exact Hread.
  - destruct (all_digits (c :: rest)) eqn:Hall; [|discriminate Hread].
    destruct (digits_strip _ Hall) as [Hstrip [_ [Hfor [a [m [Hds Ha]]]]]].
    rewrite Hstrip. inversion Hds; subst a m.
    destruct (digit_is_plain c Ha) as [_ [_ [H45 H43]]].
    cbn [split_sign]. rewrite H45, H43.
    rewrite (drop_underscores_digits _ None Hfor I), Hall.
    replace (Z.of_nat (List.length (c :: rest)) <=? int_max_str_digits)%Z
      with true
      by (symmetry; apply Z.leb_le; unfold int_max_str_digits;
          cbn [List.length]; lia).
    exact Hread.
Qed.

(** X9. A Sales cell that holds a plain decimal numeral (an optional minus
    sign and digits, at most 4300 characters) is read at its value: the
    total sales of a sheet of such cells is the arithmetic sum of the
    values, with either sum of floats. *)
Theorem X9_integer_texts_add_up (compensated_sum : bool)
  (cells : list (string * Z)) :
  (forall text n,
      In (text, n) cells ->
      read_plain_int text = Some n /\ (String.length text <= 4300)%nat) ->
  total_sales
    (summarize_in (cpython compensated_sum)
       (map (fun cell => [("Sales", VStr (fst cell))]) cells))
  = arithmetic_sum (map snd cells).
Proof.
  intros Hcells.
  set (sheet := map (fun cell : string * Z => [("Sales", VStr (fst cell))])
                    cells).
  assert (Hs : coerced (sales_in (cpython compensated_sum)) sheet
                 (map snd cells)).
  { unfold sheet, coerced. clear sheet.
    induction cells as [|[text n] cells IH]; constructor.
    - unfold sales_in. rewrite get_first.
      destruct (Hcells text n (or_introl eq_refl)) as [Hread Hlen].
      apply int_of_str_plain; assumption.
    - apply IH. intros t k Hin. apply Hcells. right. exact Hin. }
  assert (Hr : coerced (revenue_in (cpython compensated_sum)) sheet
                 (map (fun _ => zero) cells)).
  { unfold sheet, coerced. clear.
    induction cells as [|cell cells IH]; constructor;
      [reflexivity | exact IH]. }
  destruct (summary_body_in_coerced _ sheet _ _ Hs Hr) as [total [_ Hbody]].
  { intros row Hin. apply in_map_iff in Hin. destruct Hin as [cell [<- _]].
    discriminate. }
  unfold summarize_in. rewrite Hbody. reflexivity.
Qed.

Lemma X9_witness :
  total_sales
    (summarize_in (cpython true)
       [ [("Sales", VStr "12")]; [("Sales", VStr "-7")];
         [("Sales", VStr "007")] ])
  = 12%Z.
Proof.
  apply (X9_integer_texts_add_up true
           [("12", 12%Z); ("-7", (-7)%Z); ("007", 7%Z)]).
  intros text n [H|[H|[H|[]]]]; inversion H; subst;
    (split; [reflexivity | cbn; lia]).
Defined.

Lemma lstrip_keeps (s : list ascii) (c : ascii) :
  In c s -> is_space c = false -> In c (lstrip s).
Proof.
  intros Hin Hc. induction s as [|a s IH]; [destruct Hin|].
  cbn [lstrip]. destruct (is_space a) eqn:Ha.
  - destruct Hin as [->|Hin]; [congruence | apply IH; exact Hin].
  - exact Hin.
Qed.

Lemma strip_keeps (s : list ascii) (c : ascii) :
  In c s -> is_space c = false -> In c (strip s).
Proof.
  intros Hin Hc. unfold strip. apply in_rev. rewrite rev_involutive.
  apply lstrip_keeps; [|exact Hc]. apply in_rev. rewrite rev_involutive.
  apply lstrip_keeps; assumption.
Qed.

Lemma drop_underscores_keeps (s : list ascii) (c : ascii) :
  forall prev t,
    drop_underscores prev s = Some t ->
    In c s -> is_underscore c = false -> In c t.
Proof.
  induction s as [|a s IH]; intros prev t Hdrop Hin Hc; [destruct Hin|].
  cbn [drop_underscores] in Hdrop. destruct (is_underscore a) eqn:Ha.
  - destruct Hin as [->|Hin]; [congruence|].
    destruct prev as [p|]; [|discriminate Hdrop].
    destruct (is_digit p); [|discriminate Hdrop].
    eapply IH; eassumption.
  - assert (Hmap : option_map (cons a) (drop_underscores (Some a) s) = Some t).
    { destruct prev as [p|]; [|exact Hdrop].
      destruct (is_underscore p && negb (is_digit a));
        [discriminate Hdrop | exact Hdrop]. }
    destruct (drop_underscores (Some a) s) as [t'|] eqn:Hrest;
      [|discriminate Hmap].
    cbn in Hmap. inversion Hmap; subst.
    destruct Hin as [->|Hin]; [left; reflexivity|].
    right. eapply IH; eassumption.
Qed.

Lemma split_sign_keeps (s : list ascii) (c : ascii) :
  In c s -> (code c =? 45)%Z = false -> (code c =? 43)%Z = false ->
  In c (snd (split_sign s)).
Proof.
  intros Hin H45 H43. destruct s as [|a s]; [destruct Hin|].
  cbn [split_sign]. destruct (code a =? 45)%Z eqn:Ha45.
  - destruct Hin as [->|Hin]; [congruence | exact Hin].
  - destruct (code a =? 43)%Z eqn:Ha43.
    + destruct Hin as [->|Hin]; [congruence | exact Hin].
    + exact Hin.
Qed.

Lemma span_digits_spec (s : list ascii) :
  forall ds tl,
    span_digits s = (ds, tl) ->
    s = (ds ++ tl)%list /\ forall c, In c ds -> is_digit c = true.
Proof.
  induction s as [|a s IH]; intros ds tl Hspan.
  - inversion Hspan. split; [reflexivity | intros c []].
  - cbn [span_digits] in Hspan. destruct (is_digit a) eqn:Ha.
    + destruct (span_digits s) as [ds' tl'] eqn:Hrest.
      inversion Hspan; subst.
      destruct (IH ds' tl eq_refl) as [Hs Hds]. split.
      * cbn. rewrite <- Hs. reflexivity.
      * intros c [<-|Hin]; [exact Ha | apply Hds; exact Hin].
    + inversion Hspan; subst. split; [reflexivity | intros c []].
Qed.

Lemma all_digits_in (ds : list ascii) (c : ascii) :
  all_digits ds = true -> In c ds -> is_digit c = true.
Proof.
  intros Hall Hin. unfold all_digits in Hall.
  destruct ds as [|a m]; [discriminate Hall|].
  rewrite forallb_forall in Hall. apply Hall. exact Hin.
Qed.

Lemma digit_decimal_char (c : ascii) :
  is_digit c = true -> decimal_char c = true.
Proof. intros H. unfold decimal_char. rewrite H. reflexivity. Qed.

Lemma parse_decimal_chars (s : list ascii) (r : Z * Z) :
  parse_decimal s = Some r ->
  forall c, In c s -> decimal_char c = true.
Proof.
  unfold parse_decimal. intros Hparse c Hin.
  destruct (span_digits s) as [ip r1] eqn:Hip.
  destruct (span_digits_spec s ip r1 Hip) as [Hs Hipd].
  assert (Hfrac : exists fp r2,
            (match r1 with
             | a :: r => if is_dot a then span_digits r else ([], r1)
             | [] => ([], r1)
             end) = (fp, r2) /\
            (forall x, In x fp -> is_digit x = true) /\
            (forall x, In x r1 ->
                       decimal_char x = true \/ In x r2)).
  { destruct r1 as [|a rest].
    - exists [], []. repeat split; intros x [].
    - destruct (is_dot a) eqn:Hdot.
      + destruct (span_digits rest) as [fp r2] eqn:Hfp.
        destruct (span_digits_spec rest fp r2 Hfp) as [Hr Hfpd].
        exists fp, r2. split; [reflexivity|]. split; [exact Hfpd|].
        intros x [<-|Hx].
        * left. unfold decimal_char. rewrite Hdot.
          rewrite orb_true_r. reflexivity.
        * rewrite Hr in Hx. apply in_app_or in Hx. destruct Hx as [Hx|Hx].
          -- left. apply digit_decimal_char. apply Hfpd. exact Hx.
          -- right. exact Hx.
      + exists [], (a :: rest). split; [reflexivity|]. split; [intros x []|].
        intros x Hx. right. exact Hx. }
  destruct Hfrac as [fp [r2 [Heq [Hfpd Hr1]]]]. rewrite Heq in Hparse.
  rewrite Hs in Hin. apply in_app_or in Hin. destruct Hin as [Hin|Hin].
  { apply digit_decimal_char. apply Hipd. exact Hin. }
  destruct (Hr1 c Hin) as [Hok|Hin2]; [exact Hok|].
  destruct (ip ++ fp)%list; [discriminate Hparse|].
  destruct r2 as [|e r3]; [destruct Hin2|].
  destruct (is_e e) eqn:He; [|discriminate Hparse].
  destruct Hin2 as [<-|Hin3].
  { unfold decimal_char. rewrite He. rewrite !orb_true_r. reflexivity. }
  destruct (split_sign r3) as [eneg eds] eqn:Hsign.
  destruct (all_digits eds) eqn:Heds; [|discriminate Hparse].
  destruct (code c =? 45)%Z eqn:H45.
  { unfold decimal_char. rewrite H45. rewrite !orb_true_r. reflexivity. }
  destruct (code c =? 43)%Z eqn:H43.
  { unfold decimal_char. rewrite H43. rewrite !orb_true_r. reflexivity. }
  apply digit_decimal_char. apply (all_digits_in eds c Heds).
  pose proof (split_sign_keeps r3 c Hin3 H45 H43) as Hk.
  rewrite Hsign in Hk. exact Hk.
Qed.

Lemma text_is_chars (w : list ascii) (lit : string) :
  text_is w lit = true -> w = list_ascii_of_string lit.
Proof.
  unfold text_is. intros H. apply String.eqb_eq in H. rewrite <- H.
  symmetry. apply list_ascii_of_string_of_list_ascii.
Qed.

Lemma float_char_cases (c : ascii) :
  is_space c = true \/ is_underscore c = true \/
  (code c =? 45)%Z = true \/ (code c =? 43)%Z = true \/
  decimal_char c = true \/
  In (lower_char c) (list_ascii_of_string "infinitynan") ->
  float_char c = true.
Proof.
  destruct c as [[|] [|] [|] [|] [|] [|] [|] [|]]; intros H;
    try reflexivity; exfalso;
    repeat (destruct H as [H|H]; [discriminate H|]);
    try discriminate H; cbn in H;
    repeat (destruct H as [H|H]; [discriminate H|]); exact H.
Qed.

Lemma int_char_cases (c : ascii) :
  is_space c = true \/ is_underscore c = true \/
  (code c =? 45)%Z = true \/ (code c =? 43)%Z = true \/
  is_digit c = true ->
  int_char c = true.
Proof.
  destruct c as [[|] [|] [|] [|] [|] [|] [|] [|]]; intros H;
    try reflexivity; exfalso;
    repeat (destruct H as [H|H]; [discriminate H|]); discriminate H.
Qed.

(** A text [float] reads holds only characters of numerals. *)
Lemma float_of_str_chars (s : string) (x : float) :
  float_of_str s = Some x ->
  forall c, In c (list_ascii_of_string s) -> float_char c = true.
Proof.
  unfold float_of_str. intros Hread c Hin. apply float_char_cases.
  destruct (is_space c) eqn:Hsp; [left; reflexivity|]. right.
  destruct (is_underscore c) eqn:Hu; [left; reflexivity|]. right.
  destruct (code c =? 45)%Z eqn:H45; [left; reflexivity|]. right.
  destruct (code c =? 43)%Z eqn:H43; [left; reflexivity|]. right.
  destruct (drop_underscores None (strip (list_ascii_of_string s)))
    as [t|] eqn:Hdrop; [|discriminate Hread].
  pose proof (drop_underscores_keeps _ c None t Hdrop
                (strip_keeps _ c Hin Hsp) Hu) as Hint.
  pose proof (split_sign_keeps t c Hint H45 H43) as Hbody.
  destruct (split_sign t) as [neg body]. cbn [snd] in Hbody.
  assert (Hword : In (lower_char c) (map lower_char body)).
  { apply in_map. exact Hbody. }
  destruct (text_is (map lower_char body) "inf") eqn:Hinf.
  { right. rewrite (text_is_chars _ _ Hinf) in Hword. cbn in Hword |- *.
    tauto. }
  destruct (text_is (map lower_char body) "infinity") eqn:Hinfinity.
  { right. rewrite (text_is_chars _ _ Hinfinity) in Hword.
    exact (in_or_app (list_ascii_of_string "infinity")
             (list_ascii_of_string "nan") _ (or_introl Hword)). }
  destruct (text_is (map lower_char body) "nan") eqn:Hnan.
  { right. rewrite (text_is_chars _ _ Hnan) in Hword.
    exact (in_or_app (list_ascii_of_string "infinity")
             (list_ascii_of_string "nan") _ (or_intror Hword)). }
  left. cbn [orb] in Hread.
  destruct (parse_decimal body) as [[m e]|] eqn:Hparse; [|discriminate Hread].
  apply (parse_decimal_chars body (m, e) Hparse c Hbody).
Qed.

(** A text [int] reads holds only digits, signs, separators and blanks. *)
Lemma int_of_str_chars (s : string) (n : Z) :
  int_of_str s = Some n ->
  forall c, In c (list_ascii_of_string s) -> int_char c = true.
Proof.
  unfold int_of_str. intros Hread c Hin. apply int_char_cases.
  destruct (is_space c) eqn:Hsp; [left; reflexivity|]. right.
  destruct (is_underscore c) eqn:Hu; [left; reflexivity|]. right.
  destruct (code c =? 45)%Z eqn:H45; [left; reflexivity|]. right.
  destruct (code c =? 43)%Z eqn:H43; [left; reflexivity|]. right.
  pose proof (split_sign_keeps _ c (strip_keeps _ c Hin Hsp) H45 H43) as Hbody.
  destruct (split_sign (strip (list_ascii_of_string s))) as [neg body].
  cbn [snd] in Hbody.
  destruct (drop_underscores None body) as [ds|] eqn:Hdrop;
    [|discriminate Hread].
  destruct (all_digits ds) eqn:Hall; [|discriminate Hread].
  apply (all_digits_in ds c Hall).
  apply (drop_underscores_keeps body c None ds Hdrop Hbody Hu).
Qed.

(** X10. A Sales text with an ASCII character that is no digit, sign, digit
    separator or blank, or a Revenue text with an ASCII character that cannot
    stand in a numeral (a currency sign, a thousands comma, a percent sign),
    is not numeric: one such cell anywhere in the sheet and the summary is
    the fallback 0, 0, 0. *)
Theorem X10_symbols_trigger_fallback (data : list record) (row : record)
  (s : string) (c : ascii) :
  In row data ->
  In c (list_ascii_of_string s) ->
  (code c < 128)%Z ->
  (get row "Sales" (VInt 0) = VStr s /\ int_char c = false) \/
  (get row "Revenue" (VInt 0) = VStr s /\ float_char c = false) ->
  summarize data = summary_fallback.
Proof.
  intros Hrow Hc _ Hcell.
  assert (Hbad : sales_of row = None \/ revenue_of row = None).
  { destruct Hcell as [[Hget Hch]|[Hget Hch]]; [left | right].
    - unfold sales_of. rewrite Hget. cbn [py_int].
      destruct (int_of_str s) as [n|] eqn:Hread; [|reflexivity].
      rewrite (int_of_str_chars s n Hread c Hc) in Hch. discriminate Hch.
    - unfold revenue_of. rewrite Hget. cbn [py_float].
      destruct (float_of_str s) as [x|] eqn:Hread; [|reflexivity].
      rewrite (float_of_str_chars s x Hread c Hc) in Hch. discriminate Hch. }
  assert (Hnone : summary_body data = None).
  { unfold summary_body. destruct Hbad as [Hs|Hr].
    - rewrite (py_sum_raises _ _ _ _ _ Hrow Hs). reflexivity.
    - destruct (py_sum add_int sales_of 0%Z data); cbn [bind]; [|reflexivity].
      rewrite (py_sum_raises _ _ _ _ _ Hrow Hr). reflexivity. }
  unfold summarize. rewrite Hnone. reflexivity.
Qed.

Lemma X10_witness : summarize money_rows = summary_fallback.
Proof.
  apply (X10_symbols_trigger_fallback money_rows
           [("Item", VStr "B"); ("Sales", VStr "2");
            ("Revenue", VStr "$1,250.00")]
           "$1,250.00" ","%char).
  - right. left. reflexivity.
  - cbn. tauto.
  - reflexivity.
  - right. split; reflexivity.
Defined.

(** ** The run, call by call *)

Module ProgramFacts.
Import Program.

Ltac flatten := cbn [fst snd]; repeat rewrite <- app_assoc; cbn [app].

(** Each function adds its lines and calls to the trace and ends with its
    outcome. *)
Lemma get_sheet_data_from (w : world) (t : list io) :
  get_sheet_data w t = ((t ++ fetch_events w)%list, fetched w).
Proof.
  unfold fetch_events, fetched, get_sheet_data, call, request, print, emit,
    mbind, mret, mraise.
  destruct (credentials w), (authorized w), (opened w), (records w);
    flatten; reflexivity.
Qed.

Lemma build_report_call_from (w : world) (data : list record) (t : list io) :
  exists doc,
    build_report (BUSINESS_NAME (load_config (getenv w))) (build_clock w) data
    = Some doc /\
    build_report_call w data t = ((t ++ build_events w data)%list, inr doc) /\
    build_events w data
    = [Stdout (memo ++ " Building report...");
       Stdout (tick ++ " Report built.")].
Proof.
  destruct (build_report_document
              (BUSINESS_NAME (load_config (getenv w))) (build_clock w) data)
    as [revenue [_ Hdoc]].
  eexists. split; [exact Hdoc|].
  unfold build_events, build_report_call, print, emit, mbind, mret.
  rewrite Hdoc. flatten. split; reflexivity.
Qed.

Lemma send_email_from (w : world) (doc : string) (t : list io) :
  send_email w doc t = ((t ++ send_events w doc)%list, sent w).
Proof.
  unfold send_events, sent, send_email, with_exit, call, print, emit,
    mbind, mret, mraise.
  destruct (connected w), (logged_in w), (accepted w), (exited w);
    flatten; reflexivity.
Qed.

(** The run: the banner, what the three functions do as far as the run
    gets, and the verdict. *)
Lemma run_shape (w : world) :
  run w
  = ([Stdout (nl ++ Run.rocket ++ " Starting Auto Report Sender...");
      Stdout Run.rule]
     ++ fetch_events w
     ++ match fetched w, report w with
        | inr data, Some doc => build_events w data ++ send_events w doc
        | _, _ => []
        end
     ++ verdict w)%list.
Proof.
  unfold run, main, try_catch, mbind at 1 2, print at 1 2, emit. cbn [app].
  unfold mbind at 1. rewrite get_sheet_data_from.
  unfold report, verdict. destruct (fetched w) as [e|data] eqn:Hf.
  - unfold mbind, print, emit. flatten. rewrite ?app_nil_r. reflexivity.
  - destruct (build_report_call_from w data
                ([Stdout (nl ++ Run.rocket ++ " Starting Auto Report Sender...");
                  Stdout Run.rule] ++ fetch_events w))
      as [doc [Hdoc [Hcall _]]].
    unfold mbind at 1. rewrite Hcall, Hdoc.
    unfold mbind at 1. rewrite send_email_from.
    destruct (sent w) as [e|[]];
      unfold mbind, print, emit; flatten; reflexivity.
Qed.

Lemma report_returns (w : world) (data : list record) :
  fetched w = inr data -> exists doc, report w = Some doc.
Proof.
  intros Hf. unfold report. rewrite Hf.
  destruct (build_report_document
              (BUSINESS_NAME (load_config (getenv w))) (build_clock w) data)
    as [revenue [_ Hdoc]].
  eexists. exact Hdoc.
Qed.

Lemma build_events_lines (w : world) (data : list record) :
  build_events w data
  = [Stdout (memo ++ " Building report...");
     Stdout (tick ++ " Report built.")].
Proof.
  destruct (build_report_call_from w data []) as [doc [_ [_ H]]]. exact H.
Qed.

Lemma fetch_events_cases (w : world) :
  fetch_events w
  = (Stdout (chart ++ " Connecting to Google Sheets...")
     :: LoadCredentials "credentials.json" scopes
     :: match credentials w with
        | Some _ => []
        | None =>
            Authorize
            :: match authorized w with
               | Some _ => []
               | None =>
                   OpenSheet (SHEET_NAME (load_config (getenv w)))
                   :: match opened w with
                      | Some _ => []
                      | None =>
                          GetAllRecords
                          :: match records w with
                             | inl _ => []
                             | inr data =>
                                 [Stdout (tick ++ " Found "
                                          ++ PyStr.of_Z
                                               (Z.of_nat (List.length data))
                                          ++ " rows of data.")]
                             end
                      end
               end
        end)%list.
Proof.
  unfold fetch_events, get_sheet_data, call, request, print, emit,
    mbind, mret, mraise.
  destruct (credentials w), (authorized w), (opened w), (records w);
    reflexivity.
Qed.

Lemma send_events_cases (w : world) (doc : string) :
  send_events w doc
  = (Stdout (envelope ++ " Sending report to "
             ++ show (RECIPIENT_EMAIL (load_config (getenv w))) ++ "...")
     :: SmtpConnect "smtp.gmail.com" 465
     :: match connected w with
        | Some _ => []
        | None =>
            SmtpLogin (SENDER_EMAIL (load_config (getenv w)))
                      (SENDER_PASSWORD (load_config (getenv w)))
            :: match logged_in w with
               | Some _ => []
               | None =>
                   [SmtpSendmail (SENDER_EMAIL (load_config (getenv w)))
                                 (RECIPIENT_EMAIL (load_config (getenv w)))
                                 (mail w doc)]
               end
            ++ SmtpExit
            :: match sent w with
               | inr _ => [Stdout (tick ++ " Email sent successfully!")]
               | inl _ => []
               end
        end)%list.
Proof.
  unfold send_events, sent, send_email, with_exit, call, print, emit,
    mbind, mret, mraise.
  destruct (connected w), (logged_in w), (accepted w), (exited w);
    reflexivity.
Qed.

Lemma fetch_events_no_smtp (w : world) :
  filter is_smtp (fetch_events w) = [].
Proof.
  rewrite fetch_events_cases.
  destruct (credentials w), (authorized w), (opened w), (records w);
    reflexivity.
Qed.

Lemma verdict_no_smtp (w : world) : filter is_smtp (verdict w) = [].
Proof.
  unfold verdict. destruct (fetched w), (sent w); reflexivity.
Qed.

(** The calls a run makes to the mail relay. *)
Lemma run_smtp (w : world) :
  filter is_smtp (run w)
  = match fetched w, report w with
    | inr _, Some doc => filter is_smtp (send_events w doc)
    | _, _ => []
    end.
Proof.
  rewrite run_shape, !filter_app, fetch_events_no_smtp, verdict_no_smtp.
  cbn [filter is_smtp app]. rewrite app_nil_r.
  destruct (fetched w) as [e|data]; [reflexivity|].
  destruct (report w) as [doc|]; [|reflexivity].
  rewrite filter_app, build_events_lines. reflexivity.
Qed.

Lemma fetch_events_no_sendmail (w : world) :
  filter is_sendmail (fetch_events w) = [].
Proof.
  rewrite fetch_events_cases.
  destruct (credentials w), (authorized w), (opened w), (records w);
    reflexivity.
Qed.

Lemma verdict_no_sendmail (w : world) : filter is_sendmail (verdict w) = [].
Proof.
  unfold verdict. destruct (fetched w), (sent w); reflexivity.
Qed.

(** The mails a run hands to the relay. *)
Lemma run_sendmail (w : world) :
  filter is_sendmail (run w)
  = match fetched w, report w, connected w, logged_in w with
    | inr _, Some doc, None, None =>
        [SmtpSendmail (SENDER_EMAIL (load_config (getenv w)))
                      (RECIPIENT_EMAIL (load_config (getenv w)))
                      (mail w doc)]
    | _, _, _, _ => []
    end.
Proof.
  rewrite run_shape, !filter_app, fetch_events_no_sendmail,
    verdict_no_sendmail.
  cbn [filter is_sendmail app]. rewrite app_nil_r.
  destruct (fetched w) as [e|data]; [reflexivity|].
  destruct (report w) as [doc|]; [|reflexivity].
  rewrite filter_app, build_events_lines, send_events_cases.
  destruct (connected w), (logged_in w), (sent w); reflexivity.
Qed.

Lemma fetched_returns (w : world) (data : list record) :
  fetched w = inr data <->
  credentials w = None /\ authorized w = None /\ opened w = None /\
  records w = inr data.
Proof.
  unfold fetched.
  destruct (credentials w), (authorized w), (opened w); split;
    try discriminate; try (intros [H1 [H2 [H3 _]]]; discriminate);
    [intros H; repeat split; exact H | intros [_ [_ [_ H]]]; exact H].
Qed.

Lemma sent_returns (w : world) :
  sent w = inr tt <->
  connected w = None /\ logged_in w = None /\ accepted w = None /\
  exited w = None.
Proof.
  unfold sent.
  destruct (connected w), (logged_in w), (accepted w), (exited w); split;
    try discriminate; try (intros [H1 [H2 [H3 H4]]]; discriminate);
    intros _; repeat split.
Qed.

Ltac refute_in H :=
  cbn [In app] in H;
  repeat match type of H with
         | _ \/ _ => destruct H as [H|H]; [try discriminate H;
                                           vm_compute in H; discriminate H|]
         end;
  try (exact H); try discriminate H; try (vm_compute in H; discriminate H).

Lemma done_not_in_fetch (w : world) :
  ~ In (Stdout done_line) (fetch_events w).
Proof.
  rewrite fetch_events_cases. intros H.
  destruct (credentials w), (authorized w), (opened w), (records w);
    refute_in H.
Qed.

Lemma done_not_in_send (w : world) (doc : string) :
  ~ In (Stdout done_line) (send_events w doc).
Proof.
  rewrite send_events_cases. intros H.
  destruct (connected w), (logged_in w), (sent w); refute_in H.
Qed.

Lemma done_not_in_build (w : world) (data : list record) :
  ~ In (Stdout done_line) (build_events w data).
Proof. rewrite build_events_lines. intros H. refute_in H. Qed.

End ProgramFacts.

(** X11. The calls of a run are made in the order of the program text,
    each at most once: the credentials file, the authorisation, the opening
    of the sheet, the reading of the records, the connection to the relay,
    the login, the send, the exit.  The credentials are read from
    credentials.json with the two read-only scopes, the sheet opened is the
    configured one, the relay is smtp.gmail.com on port 465, and the login
    is made with the configured sender and password. *)
Theorem X11_calls_in_program_order (w : Program.world) :
  ascending (map Program.rank (Program.calls (Program.run w))) = true /\
  forall ev,
    In ev (Program.run w) ->
    match ev with
    | Program.LoadCredentials file scopes =>
        file = "credentials.json" /\
        scopes = [ "https://www.googleapis.com/auth/spreadsheets.readonly";
                   "https://www.googleapis.com/auth/drive.readonly" ]
    | Program.OpenSheet name =>
        name = Program.SHEET_NAME (Program.load_config (Program.getenv w))
    | Program.SmtpConnect host port => host = "smtp.gmail.com" /\ port = 465%Z
    | Program.SmtpLogin user password =>
        user = Program.SENDER_EMAIL (Program.load_config (Program.getenv w)) /\
        password
        = Program.SENDER_PASSWORD (Program.load_config (Program.getenv w))
    | _ => True
    end.
Proof.
  rewrite ProgramFacts.run_shape, ProgramFacts.fetch_events_cases.
  unfold Program.verdict, Program.report, Program.fetched.
  destruct (Program.credentials w), (Program.authorized w),
    (Program.opened w), (Program.records w) as [?|data];
    try (split; [reflexivity|];
         intros ev Hin; cbn [In app] in Hin;
         repeat (destruct Hin as [<-|Hin]; [repeat split|]);
         destruct Hin).
  destruct (build_report
              (Program.BUSINESS_NAME (Program.load_config (Program.getenv w)))
              (Program.build_clock w) data) as [doc|].
  - rewrite ProgramFacts.build_events_lines, ProgramFacts.send_events_cases.
    destruct (Program.connected w), (Program.logged_in w), (Program.sent w);
      (split; [reflexivity|];
       intros ev Hin; cbn [In app] in Hin;
       repeat (destruct Hin as [<-|Hin]; [repeat split|]);
       destruct Hin).
  - destruct (Program.sent w);
      (split; [reflexivity|];
       intros ev Hin; cbn [In app] in Hin;
       repeat (destruct Hin as [<-|Hin]; [repeat split|]);
       destruct Hin).
Qed.

Lemma X11_witness :
  ascending
    (map Program.rank (Program.calls (Program.run exit_fails))) = true /\
  Some "Weekly Sales"
  = Program.SHEET_NAME (Program.load_config (Program.getenv exit_fails)).
Proof.
  destruct (X11_calls_in_program_order exit_fails) as [Horder Hargs].
  split; [exact Horder|].
  apply (Hargs (Program.OpenSheet (Some "Weekly Sales"))).
  vm_compute. tauto.
Defined.

(** X12. A run hands at most one mail to the relay, and whenever it hands
    one over, the connection and the login have succeeded and the mail is
    from the configured sender to the configured recipient, with the
    subject, From and To fields set and one part: the report the builder
    made from the rows fetched in this run. *)
Theorem X12_one_mail_of_the_report (w : Program.world) :
  (List.length (filter Program.is_sendmail (Program.run w)) <= 1)%nat /\
  forall ev,
    In ev (Program.run w) -> Program.is_sendmail ev = true ->
    exists doc,
      Program.report w = Some doc /\
      Program.connected w = None /\ Program.logged_in w = None /\
      ev = Program.SmtpSendmail
             (Program.SENDER_EMAIL (Program.load_config (Program.getenv w)))
             (Program.RECIPIENT_EMAIL (Program.load_config (Program.getenv w)))
             (Program.mail w doc).
Proof.
  pose proof (ProgramFacts.run_sendmail w) as Hmail. split.
  - rewrite Hmail.
    destruct (Program.fetched w), (Program.report w), (Program.connected w),
      (Program.logged_in w); cbn; lia.
  - intros ev Hin Hev.
    assert (Hf : In ev (filter Program.is_sendmail (Program.run w))).
    { apply filter_In. split; assumption. }
    rewrite Hmail in Hf.
    destruct (Program.fetched w); [destruct Hf|].
    destruct (Program.report w) as [doc|]; [|destruct Hf].
    destruct (Program.connected w); [destruct Hf|].
    destruct (Program.logged_in w); [destruct Hf|].
    destruct Hf as [<-|[]]. exists doc. repeat split.
Qed.

Lemma X12_witness :
  exists doc,
    Program.report (Program.fair_world office two_rows "November 03, 2026")
    = Some doc /\
    Program.SmtpSendmail (Some "owner@example.com") (Some "client@example.com")
      (Program.mail (Program.fair_world office two_rows "November 03, 2026")
         (match build_report "Your Business" "November 03, 2026" two_rows with
          | Some d => d
          | None => EmptyString
          end))
    = Program.SmtpSendmail (Some "owner@example.com")
        (Some "client@example.com")
        (Program.mail (Program.fair_world office two_rows "November 03, 2026")
           doc).
Proof.
  destruct (proj2 (X12_one_mail_of_the_report
                     (Program.fair_world office two_rows "November 03, 2026"))
              (Program.SmtpSendmail (Some "owner@example.com")
                 (Some "client@example.com")
                 (Program.mail
                    (Program.fair_world office two_rows "November 03, 2026")
                    (match build_report "Your Business" "November 03, 2026"
                             two_rows with
                     | Some d => d
                     | None => EmptyString
                     end))))
    as [doc [Hdoc [_ [_ Hev]]]].
  - vm_compute. tauto.
  - reflexivity.
  - exists doc. split; [exact Hdoc | exact Hev].
Defined.

(** X13. The connection to the relay is always closed: the calls a run
    makes to the relay are none at all, or the one connection attempt that
    failed, or the connection, then only logins and sends, then the exit as
    the last one. *)
Theorem X13_connection_always_closed (w : Program.world) :
  filter Program.is_smtp (Program.run w) = [] \/
  (Program.connected w <> None /\
   filter Program.is_smtp (Program.run w)
   = [Program.SmtpConnect "smtp.gmail.com" 465]) \/
  (Program.connected w = None /\
   exists between,
     filter Program.is_smtp (Program.run w)
     = (Program.SmtpConnect "smtp.gmail.com" 465 :: between
        ++ [Program.SmtpExit])%list /\
     forallb (fun ev => match ev with
                        | Program.SmtpLogin _ _
                        | Program.SmtpSendmail _ _ _ => true
                        | _ => false
                        end) between = true).
Proof.
  rewrite ProgramFacts.run_smtp.
  destruct (Program.fetched w); [left; reflexivity|].
  destruct (Program.report w) as [doc|]; [|left; reflexivity].
  rewrite ProgramFacts.send_events_cases. right.
  destruct (Program.connected w) as [e|] eqn:Hc.
  - left. split; [discriminate | reflexivity].
  - right. split; [reflexivity|].
    destruct (Program.logged_in w).
    + exists [Program.SmtpLogin
                (Program.SENDER_EMAIL (Program.load_config (Program.getenv w)))
                (Program.SENDER_PASSWORD
                   (Program.load_config (Program.getenv w)))].
      destruct (Program.sent w); split; reflexivity.
    + exists [Program.SmtpLogin
                (Program.SENDER_EMAIL (Program.load_config (Program.getenv w)))
                (Program.SENDER_PASSWORD
                   (Program.load_config (Program.getenv w)));
              Program.SmtpSendmail
                (Program.SENDER_EMAIL (Program.load_config (Program.getenv w)))
                (Program.RECIPIENT_EMAIL
                   (Program.load_config (Program.getenv w)))
                (Program.mail w doc)].
      destruct (Program.sent w); split; reflexivity.
Qed.

Lemma run_verdict (w : Program.world) :
  (exists body, Program.run w = (body ++ Program.verdict w)%list) /\
  (In (Program.Stdout Program.done_line) (Program.run w) <->
   Program.credentials w = None /\ Program.authorized w = None /\
   Program.opened w = None /\ (exists data, Program.records w = inr data) /\
   Program.connected w = None /\ Program.logged_in w = None /\
   Program.accepted w = None /\ Program.exited w = None).
Proof.
  split.
  { rewrite ProgramFacts.run_shape. eexists.
    rewrite !app_assoc. reflexivity. }
  rewrite ProgramFacts.run_shape. split.
  - intros Hin.
    apply in_app_or in Hin. destruct Hin as [Hin|Hin].
    { exfalso. ProgramFacts.refute_in Hin. }
    apply in_app_or in Hin. destruct Hin as [Hin|Hin].
    { exfalso. exact (ProgramFacts.done_not_in_fetch w Hin). }
    apply in_app_or in Hin.
    destruct (Program.fetched w) as [e|data] eqn:Hf.
    { exfalso. destruct Hin as [[]|Hin]. unfold Program.verdict in Hin.
      rewrite Hf in Hin. ProgramFacts.refute_in Hin. }
    apply ProgramFacts.fetched_returns in Hf.
    destruct Hf as [H1 [H2 [H3 H4]]].
    destruct (Program.sent w) as [e|[]] eqn:Hs.
    { exfalso. destruct Hin as [Hin|Hin].
      - destruct (Program.report w) as [doc|]; [|destruct Hin].
        apply in_app_or in Hin. destruct Hin as [Hin|Hin].
        + exact (ProgramFacts.done_not_in_build w data Hin).
        + exact (ProgramFacts.done_not_in_send w doc Hin).
      - unfold Program.verdict in Hin.
        rewrite (proj2 (ProgramFacts.fetched_returns w data)) in Hin
          by (repeat split; assumption).
        rewrite Hs in Hin. ProgramFacts.refute_in Hin. }
    apply ProgramFacts.sent_returns in Hs.
    destruct Hs as [H5 [H6 [H7 H8]]].
    repeat split; try assumption. exists data. exact H4.
  - intros [H1 [H2 [H3 [[data H4] [H5 [H6 [H7 H8]]]]]]].
    assert (Hf : Program.fetched w = inr data).
    { apply ProgramFacts.fetched_returns. repeat split; assumption. }
    assert (Hs : Program.sent w = inr tt).
    { apply ProgramFacts.sent_returns. repeat split; assumption. }
    apply in_or_app. right. apply in_or_app. right.
    apply in_or_app. right. unfold Program.verdict. rewrite Hf, Hs.
    right. left. reflexivity.
Qed.

(** The run of the three stages and the run call by call agree: the
    call-level run is the stage-level run of [Run.main], on the outcomes the
    three functions have in this world, with each printed line as it is and
    each stage call replaced by what the stage prints and calls. *)
Lemma run_unfolds_to_calls (w : Program.world) :
  Program.run w
  = flat_map (Program.expand w) (Run.main (Program.stages w)).
Proof.
  rewrite ProgramFacts.run_shape. unfold Run.main.
  change (Run.sheet (Program.stages w)) with (Program.fetched w).
  change (Run.smtp (Program.stages w)) with (fun _ : string => Program.sent w).
  unfold Program.verdict.
  destruct (Program.fetched w) as [e|data] eqn:Hf.
  - rewrite RunFacts.run_fetch_fails.
    cbn [flat_map Run.banner app Program.expand].
    rewrite ?app_nil_r, <- ?app_assoc. reflexivity.
  - destruct (ProgramFacts.report_returns w data Hf) as [doc Hdoc].
    assert (Hb : Run.build_outcome (Program.stages w) data = inr doc).
    { unfold Run.build_outcome. unfold Program.report in Hdoc.
      rewrite Hf in Hdoc.
      change (Run.BUSINESS_NAME (Program.stages w))
        with (Program.BUSINESS_NAME (Program.load_config (Program.getenv w))).
      change (Run.today (Program.stages w)) with (Program.build_clock w).
      rewrite Hdoc. reflexivity. }
    rewrite Hdoc.
    assert (Hcases : (exists e, Program.sent w = inl e) \/
                     Program.sent w = inr tt).
    { destruct (Program.sent w) as [e|[]]; [left; exists e|right];
        reflexivity. }
    destruct Hcases as [[e Hs]|Hs].
    + erewrite RunFacts.run_send_fails; [| exact Hb | exact Hs].
      rewrite Hs. cbn [flat_map Run.banner app Program.expand].
      rewrite ?Hf, ?Hdoc, ?app_nil_r, <- ?app_assoc. reflexivity.
    + erewrite RunFacts.run_completes; [| exact Hb | exact Hs].
      rewrite Hs. cbn [flat_map Run.banner app Program.expand].
      rewrite ?Hf, ?Hdoc, ?app_nil_r, <- ?app_assoc. reflexivity.
Qed.

(** C4 (amended). In every run the sender is called only after the
    fetcher and the builder have both returned: up to the first call of the
    sender the run consists of the banner, the fetcher's call and return and
    the builder's call and return; when the fetch or the build raises, the
    sender is never called; the sender returns only in a run whose three
    steps all succeeded ([Run.main] is such a run, for the outcomes the world
    gives).  Call by call: the mail relay is contacted only in a run whose
    fetch returned rows and whose build returned a document, and a mail
    handed to the relay carries that document.  (That the sender returns once
    a mail has been handed over is not part of it: the exit from the
    connection can still raise.) *)
Theorem C4_send_only_after_fetch_and_build
  (get_sheet_data : Run.exn + list record)
  (build : list record -> Run.exn + string)
  (send_email : string -> Run.exn + unit) :
  (forall pre post,
      Run.run_main get_sheet_data build send_email
      = (pre ++ Run.Called Run.Sender :: post)%list ->
      pre = (Run.banner ++
             [Run.Called Run.Fetcher; Run.Returned Run.Fetcher;
              Run.Called Run.Builder; Run.Returned Run.Builder])%list) /\
  (forall e,
      get_sheet_data = inl e ->
      ~ In (Run.Called Run.Sender)
           (Run.run_main get_sheet_data build send_email)) /\
  (forall data e,
      get_sheet_data = inr data -> build data = inl e ->
      ~ In (Run.Called Run.Sender)
           (Run.run_main get_sheet_data build send_email)) /\
  (In (Run.Returned Run.Sender)
      (Run.run_main get_sheet_data build send_email) ->
   exists data doc,
     get_sheet_data = inr data /\ build data = inr doc /\
     send_email doc = inr tt) /\
  (forall w, Run.main w = Run.run_main (Run.sheet w) (Run.build_outcome w)
                                       (Run.smtp w)) /\
  (forall (w : Program.world) (ev : Program.io),
      In ev (Program.run w) -> Program.is_smtp ev = true ->
      exists data doc,
        Program.fetched w = inr data /\
        build_report (Program.BUSINESS_NAME (Program.load_config (Program.getenv w)))
          (Program.build_clock w) data = Some doc /\
        (Program.is_sendmail ev = true ->
         ev = Program.SmtpSendmail
                (Program.SENDER_EMAIL (Program.load_config (Program.getenv w)))
                (Program.RECIPIENT_EMAIL
                   (Program.load_config (Program.getenv w)))
                (Program.mail w doc))).
Proof.
  split; [|split; [|split; [|split; [|split]]]].
  - apply RunFacts.sender_called_after.
  - intros e ->. apply RunFacts.no_send_when_fetch_fails.
  - intros data e -> Hb. apply (RunFacts.no_send_when_build_fails _ _ _ e Hb).
  - apply RunFacts.sent_means_full_cycle.
  - reflexivity.
  - intros w ev Hin Hev.
    assert (Hf : In ev (filter Program.is_smtp (Program.run w))).
    { apply filter_In. split; assumption. }
    rewrite ProgramFacts.run_smtp in Hf.
    destruct (Program.fetched w) as [e|data] eqn:Hfetch; [destruct Hf|].
    destruct (Program.report w) as [doc|] eqn:Hdoc; [|destruct Hf].
    exists data, doc. split; [reflexivity|]. split.
    + unfold Program.report in Hdoc. rewrite Hfetch in Hdoc. exact Hdoc.
    + intros Hmail.
      assert (Hm : In ev (filter Program.is_sendmail (Program.run w))).
      { apply filter_In. split; assumption. }
      rewrite ProgramFacts.run_sendmail, Hfetch, Hdoc in Hm.
      destruct (Program.connected w); [destruct Hm|].
      destruct (Program.logged_in w); [destruct Hm|].
      destruct Hm as [<-|[]]. reflexivity.
Qed.

Lemma C4_witness :
  ~ In (Run.Called Run.Sender)
       (Run.run_main (inl "NotFoundError")
          (Run.build_outcome (sheet_world (inl "NotFoundError")
                                          (fun _ => inr tt)))
          (fun _ => inr tt)) /\
  ~ In (Run.Called Run.Sender)
       (Run.run_main (inr []) (fun _ => inl "ValueError") (fun _ => inr tt)) /\
  (exists data doc,
     @inr Run.exn _ (@nil record) = inr data /\
     Run.build_outcome (sheet_world (inr []) (fun _ => inr tt)) data = inr doc /\
     @inr Run.exn _ tt = inr tt) /\
  exists data doc,
    Program.fetched exit_fails = inr data /\
    build_report "Your Business" "November 03, 2026" data = Some doc /\
    (Program.is_sendmail
       (Program.SmtpSendmail (Some "owner@example.com")
          (Some "client@example.com")
          (Program.mail exit_fails two_rows_report)) = true ->
     Program.SmtpSendmail (Some "owner@example.com")
       (Some "client@example.com") (Program.mail exit_fails two_rows_report)
     = Program.SmtpSendmail (Some "owner@example.com")
         (Some "client@example.com") (Program.mail exit_fails doc)).
Proof.
  split; [|split; [|split]].
  - apply (proj1 (proj2 (C4_send_only_after_fetch_and_build
                           (inl "NotFoundError") _ _)) "NotFoundError").
    reflexivity.
  - apply (proj1 (proj2 (proj2 (C4_send_only_after_fetch_and_build
                                  (inr []) (fun _ => inl "ValueError")
                                  (fun _ => inr tt)))) [] "ValueError");
      reflexivity.
  - apply (proj1 (proj2 (proj2 (proj2 (C4_send_only_after_fetch_and_build
             (inr [])
             (Run.build_outcome (sheet_world (inr []) (fun _ => inr tt)))
             (fun _ => inr tt)))))).
    vm_compute. tauto.
  - apply (proj2 (proj2 (proj2 (proj2 (proj2
             (C4_send_only_after_fetch_and_build
                (inr []) (fun _ => inl "ValueError") (fun _ => inr tt))))))
             exit_fails
             (Program.SmtpSendmail (Some "owner@example.com")
                (Some "client@example.com")
                (Program.mail exit_fails two_rows_report))).
    + vm_compute. tauto.
    + reflexivity.
Defined.

(** C4 as stated fails in a run in which everything succeeds but the exit
    from the connection: the relay has accepted the mail with the report,
    and yet the sender raises, the cycle does not complete and the run ends
    with the error line. *)
Lemma C4_counterexample :
  (exists doc,
     Program.report exit_fails = Some doc /\
     In (Program.SmtpSendmail (Some "owner@example.com")
           (Some "client@example.com") (Program.mail exit_fails doc))
        (Program.run exit_fails)) /\
  Program.accepted exit_fails = None /\
  Program.sent exit_fails = inl "(421, b'Service closing')" /\
  In (Run.Raised Run.Sender "(421, b'Service closing')")
     (Run.main (Program.stages exit_fails)) /\
  ~ In (Run.Returned Run.Sender) (Run.main (Program.stages exit_fails)) /\
  ~ In (Program.Stdout Program.done_line) (Program.run exit_fails).
Proof.
  split; [|split; [|split; [|split; [|split]]]].
  - destruct (ProgramFacts.report_returns exit_fails two_rows eq_refl)
      as [doc Hdoc].
    exists doc. split; [exact Hdoc|].
    assert (Hin : In (Program.SmtpSendmail (Some "owner@example.com")
                        (Some "client@example.com")
                        (Program.mail exit_fails doc))
                     (filter Program.is_sendmail (Program.run exit_fails))).
    { rewrite ProgramFacts.run_sendmail, Hdoc. left. reflexivity. }
    apply filter_In in Hin. apply Hin.
  - reflexivity.
  - reflexivity.
  - vm_compute. tauto.
  - intros Hin. apply RunFacts.sent_means_full_cycle in Hin.
    destruct Hin as [data [doc [_ [_ Hsent]]]]. discriminate Hsent.
  - intros Hin. apply run_verdict in Hin.
    destruct Hin as [_ [_ [_ [_ [_ [_ [_ Hexit]]]]]]]. discriminate Hexit.
Qed.

(** X14. The Done line is printed only when every call of the run
    succeeded: the four of the fetch, the connection, the login, the send
    and the exit.  It is then the last line of the run, after the rule. *)
Theorem X14_done_means_all_succeeded (w : Program.world) :
  In (Program.Stdout Program.done_line) (Program.run w) ->
  (Program.credentials w = None /\ Program.authorized w = None /\
   Program.opened w = None /\ (exists data, Program.records w = inr data) /\
   Program.connected w = None /\ Program.logged_in w = None /\
   Program.accepted w = None /\ Program.exited w = None) /\
  exists body,
    Program.run w
    = (body ++ [Program.Stdout Run.rule;
                Program.Stdout Program.done_line])%list.
Proof.
  intros Hin. destruct (run_verdict w) as [[body Hbody] Hdone].
  pose proof (proj1 Hdone Hin) as Hall. split; [exact Hall|].
  destruct Hall as [H1 [H2 [H3 [[data H4] [H5 [H6 [H7 H8]]]]]]].
  exists body. rewrite Hbody. unfold Program.verdict.
  rewrite (proj2 (ProgramFacts.fetched_returns w data))
    by (repeat split; assumption).
  rewrite (proj2 (ProgramFacts.sent_returns w))
    by (repeat split; assumption).
  reflexivity.
Qed.

Lemma X14_witness :
  (Program.credentials (Program.fair_world office two_rows "November 03, 2026")
   = None /\
   Program.authorized (Program.fair_world office two_rows "November 03, 2026")
   = None /\
   Program.opened (Program.fair_world office two_rows "November 03, 2026")
   = None /\
   (exists data,
      Program.records (Program.fair_world office two_rows "November 03, 2026")
      = inr data) /\
   Program.connected (Program.fair_world office two_rows "November 03, 2026")
   = None /\
   Program.logged_in (Program.fair_world office two_rows "November 03, 2026")
   = None /\
   Program.accepted (Program.fair_world office two_rows "November 03, 2026")
   = None /\
   Program.exited (Program.fair_world office two_rows "November 03, 2026")
   = None) /\
  exists body,
    Program.run (Program.fair_world office two_rows "November 03, 2026")
    = (body ++ [Program.Stdout Run.rule;
                Program.Stdout Program.done_line])%list.
Proof.
  apply (X14_done_means_all_succeeded
           (Program.fair_world office two_rows "November 03, 2026")).
  vm_compute. tauto.
Defined.



(** X16. When the fetch fails, the run goes no further: nothing is built,
    the relay is not contacted, and the run ends with the error line of the
    fetch's exception and the hint. *)
Theorem X16_failed_fetch_stops_the_run (w : Program.world) (e : Program.exn) :
  Program.fetched w = inl e ->
  filter Program.is_smtp (Program.run w) = [] /\
  ~ In (Program.Stdout (Program.memo ++ " Building report..."))
       (Program.run w) /\
  exists body,
    Program.run w
    = (body ++ [Program.Stdout (Program.error_line e);
                Program.Stdout Program.hint_line])%list.
Proof.
  intros Hf. split; [|split].
  - rewrite ProgramFacts.run_smtp, Hf. reflexivity.
  - rewrite ProgramFacts.run_shape, Hf. unfold Program.verdict. rewrite Hf.
    rewrite ProgramFacts.fetch_events_cases. intros Hin.
    destruct (Program.credentials w), (Program.authorized w),
      (Program.opened w), (Program.records w);
      ProgramFacts.refute_in Hin.
  - destruct (run_verdict w) as [[body Hbody] _]. exists body.
    rewrite Hbody. unfold Program.verdict. rewrite Hf. reflexivity.
Qed.

Lemma X16_witness :
  filter Program.is_smtp (Program.run sheet_missing) = [] /\
  ~ In (Program.Stdout (Program.memo ++ " Building report..."))
       (Program.run sheet_missing) /\
  exists body,
    Program.run sheet_missing
    = (body ++ [Program.Stdout (Program.error_line "SpreadsheetNotFound");
                Program.Stdout Program.hint_line])%list.
Proof.
  apply (X16_failed_fetch_stops_the_run sheet_missing "SpreadsheetNotFound").
  reflexivity.
Defined.

(** ** The document's heading and figures *)

Lemma html_layout (BUSINESS_NAME today sales revenue count head body : string) :
  exists pre gap1 gap2 gap3 post,
    html BUSINESS_NAME today sales revenue count head body
    = pre ++ heading BUSINESS_NAME today ++ gap1
      ++ figure sales "Total Sales" ++ gap2
      ++ figure ("$" ++ revenue) "Total Revenue" ++ gap3
      ++ figure count "Completed Orders" ++ post head body.
Proof.
  pose (label := fun l : string =>
    "</div>" ++ nl ++ "              <div style=" ++ dq
    ++ "font-size:12px; color:#999; margin-top:4px;" ++ dq ++ ">"
    ++ l ++ "</div>").
  remember (substring 0 (String.length html_head - 1) html_head)
    as pre eqn:Hpre.
  remember (substring 6 (String.length html_after_date - 7) html_after_date)
    as gap1 eqn:Hg1.
  remember (substring (String.length (label "Total Sales"))
              (String.length html_after_sales
               - String.length (label "Total Sales") - 2) html_after_sales)
    as gap2 eqn:Hg2.
  remember (substring (String.length (label "Total Revenue"))
              (String.length html_after_revenue
               - String.length (label "Total Revenue") - 1)
              html_after_revenue)
    as gap3 eqn:Hg3.
  remember (substring (String.length (label "Completed Orders"))
              (String.length html_after_completed
               - String.length (label "Completed Orders"))
              html_after_completed)
    as rest eqn:Hrest.
  assert (E0 : html_head = pre ++ ">").
  { subst pre. vm_compute. reflexivity. }
  assert (E1 : html_after_name
               = "</div>" ++ nl ++ "          <div style=" ++ dq
                 ++ "font-size:13px; color:#9aa3b8; margin-top:6px;" ++ dq
                 ++ ">Generated on ").
  { vm_compute. reflexivity. }
  assert (E2 : html_after_date = "</div>" ++ gap1 ++ ">").
  { subst gap1. vm_compute. reflexivity. }
  assert (E3 : html_after_sales
               = ("</div>" ++ nl ++ "              <div style=" ++ dq
                  ++ "font-size:12px; color:#999; margin-top:4px;" ++ dq ++ ">"
                  ++ "Total Sales" ++ "</div>") ++ gap2 ++ ">" ++ "$").
  { subst gap2. vm_compute. reflexivity. }
  assert (E4 : html_after_revenue
               = ("</div>" ++ nl ++ "              <div style=" ++ dq
                  ++ "font-size:12px; color:#999; margin-top:4px;" ++ dq ++ ">"
                  ++ "Total Revenue" ++ "</div>") ++ gap3 ++ ">").
  { subst gap3. vm_compute. reflexivity. }
  assert (E5 : html_after_completed
               = ("</div>" ++ nl ++ "              <div style=" ++ dq
                  ++ "font-size:12px; color:#999; margin-top:4px;" ++ dq ++ ">"
                  ++ "Completed Orders" ++ "</div>") ++ rest).
  { subst rest. vm_compute. reflexivity. }
  clear label Hpre Hg1 Hg2 Hg3 Hrest.
  exists pre, gap1, gap2, gap3,
    (fun h b => rest ++ h ++ html_after_headers ++ b ++ html_tail).
  unfold html, heading, figure.
  rewrite E0, E1, E2, E3, E4, E5. right_nest. reflexivity.
Qed.

(** X19. Every document shows the business name with the date line under
    it, and then the three figures each over its own label, in this order:
    the total sales over Total Sales, the total revenue after a dollar sign
    over Total Revenue, the completed count over Completed Orders. *)
Theorem X19_heading_and_labelled_figures (BUSINESS_NAME today : string)
  (data : list record) :
  exists revenue pre gap1 gap2 gap3 post,
    format_revenue (total_revenue (summarize data)) = Some revenue /\
    build_report BUSINESS_NAME today data
    = Some (pre ++ heading BUSINESS_NAME today ++ gap1
            ++ figure (PyStr.of_Z (total_sales (summarize data)))
                      "Total Sales" ++ gap2
            ++ figure ("$" ++ revenue) "Total Revenue" ++ gap3
            ++ figure (PyStr.of_Z (completed (summarize data)))
                      "Completed Orders" ++ post).
Proof.
  destruct (build_report_document BUSINESS_NAME today data)
    as [revenue [Hrev Hdoc]].
  destruct (html_layout BUSINESS_NAME today
              (PyStr.of_Z (total_sales (summarize data))) revenue
              (PyStr.of_Z (completed (summarize data)))
              (headers data) (table_rows data))
    as [pre [gap1 [gap2 [gap3 [post Hlay]]]]].
  exists revenue, pre, gap1, gap2, gap3,
    (post (headers data) (table_rows data)).
  split; [exact Hrev|]. rewrite Hdoc, Hlay. reflexivity.
Qed.

